(** * Gold trading monitor: indicators, signal aggregation and alert state

    A shallow embedding of the algorithmic core of the repository:

    - [technical_analysis.py]  : class [TechnicalAnalysis]
    - [notification_system.py] : class [NotificationSystem]
    - [bot.py]                 : the end-of-day branch of [run_monitoring_loop]

    Numbers.  Python floats are idealised as exact rationals ([Q], kept in
    lowest terms) extended with the two infinities and NaN; the two signed
    zeros are identified.  Prices read from the market feed are finite.
    A pandas [Series] is a list of such values, NaN marking an undefined
    entry; a [DataFrame] is a finite map from column names to series.

    Effects.  Methods that mutate [self] take the object and return the new
    object next to the returned value.  Wall-clock timestamps, log lines,
    formatted message texts and chart files are left out of notifications. *)

From Stdlib Require Import ZArith QArith Qabs Qreduction Lia Lqa List.
From stdpp Require Import base gmap sets list strings pretty.

(** ** Extended rationals standing for binary64 values *)

Module Float.

Inductive fval : Type :=
| Num (q : Q)
| PInf
| NInf
| NaN.

Definition is_nan (a : fval) : bool :=
  match a with NaN => true | _ => false end.

Definition Qltb (x y : Q) : bool := negb (Qle_bool y x).

Definition fneg (a : fval) : fval :=
  match a with
  | Num x => Num (Qred (- x))
  | PInf => NInf
  | NInf => PInf
  | NaN => NaN
  end.

Definition fadd (a b : fval) : fval :=
  match a, b with
  | NaN, _ | _, NaN => NaN
  | Num x, Num y => Num (Qred (x + y))
  | PInf, NInf | NInf, PInf => NaN
  | PInf, _ | _, PInf => PInf
  | NInf, _ | _, NInf => NInf
  end.

Definition fsub (a b : fval) : fval := fadd a (fneg b).

Definition fabs (a : fval) : fval :=
  match a with
  | Num x => Num (Qred (Qabs x))
  | PInf | NInf => PInf
  | NaN => NaN
  end.

(** Division as numpy performs it on float64 arrays: a finite non-zero value
    over zero is an infinity, zero over zero is NaN, nothing raises. *)
Definition fdiv (a b : fval) : fval :=
  match a, b with
  | NaN, _ | _, NaN => NaN
  | Num x, Num y =>
      if Qeq_bool y 0 then
        if Qeq_bool x 0 then NaN
        else if Qltb 0 x then PInf else NInf
      else Num (Qred (x / y))
  | Num _, (PInf | NInf) => Num 0
  | (PInf | NInf), (PInf | NInf) => NaN
  | PInf, Num y => if Qltb y 0 then NInf else PInf
  | NInf, Num y => if Qltb y 0 then PInf else NInf
  end.

(** Comparisons are false as soon as one side is NaN. *)
Definition flt (a b : fval) : bool :=
  match a, b with
  | NaN, _ | _, NaN => false
  | Num x, Num y => Qltb x y
  | NInf, (Num _ | PInf) => true
  | Num _, PInf => true
  | _, _ => false
  end.

Definition fgt (a b : fval) : bool := flt b a.

Definition of_Z (z : Z) : fval := Num (inject_Z z).

End Float.

Export Float.

(** ** The pandas operations the indicators use *)

Module Pandas.

Abbreviation Series := (list fval).

(** A DataFrame: column name to column.  Every column built below has the
    length of the index. *)
Abbreviation DataFrame := (gmap string (list fval)).

(** [s.diff()] : the first entry has no predecessor. *)
Fixpoint diff_from (prev : fval) (s : Series) : Series :=
  match s with
  | [] => []
  | x :: t => fsub x prev :: diff_from x t
  end.

Definition diff (s : Series) : Series :=
  match s with
  | [] => []
  | x :: t => NaN :: diff_from x t
  end.

(** [s.where(cond, other)] : keep the entries where [cond] holds. *)
Definition where_ (cond : fval -> bool) (other : fval) (s : Series) : Series :=
  map (fun x => if cond x then x else other) s.

(** [s.rolling(window=w).mean()], with the default [min_periods = w]: the
    window ending at bar [i] holds the bars [i-w+1 .. i]; the result is
    defined when the window holds [w] observations that are not NaN. *)
Definition window (w : nat) (s : Series) (i : nat) : Series :=
  take (Nat.min w (S i)) (drop (S i - w) s).

Definition fsum (l : Series) : fval := foldr fadd (Num 0) l.

Definition window_mean (w : nat) (win : Series) : fval :=
  let obs := filter (fun x => is_nan x = false) win in
  if (length obs <? w)%nat then NaN
  else fdiv (fsum obs) (of_Z (Z.of_nat (length obs))).

Definition rolling_mean (w : nat) (s : Series) : Series :=
  map (fun i => window_mean w (window w s i)) (seq 0 (length s)).

(** [s.ewm(span=n, adjust=False).mean()] on a series without NaN:
    y0 = x0,  y_i = (1 - a) * y_(i-1) + a * x_i  with  a = 2 / (n + 1). *)
Definition alpha (span : nat) : Q := Qred (2 # Pos.of_nat (span + 1)).

Fixpoint ewm_from (a : Q) (prev : Q) (s : list Q) : list Q :=
  match s with
  | [] => []
  | x :: t =>
      let y := Qred ((1 - a) * prev + a * x) in
      y :: ewm_from a y t
  end.

Definition ewm_mean (span : nat) (s : list Q) : list Q :=
  match s with
  | [] => []
  | x :: t => Qred x :: ewm_from (alpha span) (Qred x) t
  end.

(** [df.loc[mask, col] = v] on one column. *)
Definition loc_set (mask : list bool) (v : fval) (col : Series) : Series :=
  zip_with (fun (b : bool) x => if b then v else x) mask col.

(** Element-wise comparison of two columns, and of a column with a scalar. *)
Definition lt_cols (a b : Series) : list bool := zip_with flt a b.
Definition gt_cols (a b : Series) : list bool := zip_with fgt a b.
Definition lt_scalar (a : Series) (c : fval) : list bool := map (fun x => flt x c) a.
Definition gt_scalar (a : Series) (c : fval) : list bool := map (fun x => fgt x c) a.

Definition add_cols (a b : Series) : Series := zip_with fadd a b.
Definition sub_cols (a b : Series) : Series := zip_with fsub a b.
Definition div_cols (a b : Series) : Series := zip_with fdiv a b.

(** A column holding the same scalar on every row of the index. *)
Definition const_col (n : nat) (v : fval) : Series := replicate n v.

(** [s.iloc[-1]] *)
Definition iloc_last (s : Series) : option fval := last s.

End Pandas.

Export Pandas.

(** ** technical_analysis.py : class TechnicalAnalysis *)

Module TechnicalAnalysis.

Record bar : Type := mkBar {
  Open : Q;
  High : Q;
  Low : Q;
  Close : Q;
  Volume : Q
}.

(** The object is its [self.data] attribute: [None] or the bar series. *)
Definition t := option (list bar).

Definition set_data (self : t) (data : list bar) : t := Some data.

Definition close_col (d : list bar) : Series := map (fun b => Num (Qred (Close b))) d.

(** The three intermediate columns of [calculate_rsi], in the order
    [(avg_gain, avg_loss, rsi)]. *)
Definition rsi_columns (d : list bar) (period : nat) : Series * Series * Series :=
  let delta := diff (close_col d) in
  let gain := where_ (fun x => fgt x (Num 0)) (Num 0) delta in
  let loss := map fneg (where_ (fun x => flt x (Num 0)) (Num 0) delta) in
  let avg_gain := rolling_mean period gain in
  let avg_loss := rolling_mean period loss in
  let rs := div_cols avg_gain avg_loss in
  let rsi := map (fun r => fsub (Num 100) (fdiv (Num 100) (fadd (Num 1) r))) rs in
  (avg_gain, avg_loss, rsi).

Definition calculate_rsi (self : t) (period : nat) : option Series :=
  match self with
  | None => None
  | Some d =>
      if (length d <? period + 1)%nat then None
      else Some (rsi_columns d period).2
  end.

(** The source returns the triple [(None, None, None)] on failure; the three
    components are absent or present together. *)
Definition calculate_macd (self : t) (fast_period slow_period signal_period : nat)
  : option (Series * Series * Series) :=
  match self with
  | None => None
  | Some d =>
      if (length d <? slow_period + signal_period)%nat then None
      else
        let closes := map Close d in
        let fast_ema := ewm_mean fast_period closes in
        let slow_ema := ewm_mean slow_period closes in
        let macd_line := zip_with (fun f s => Qred (f - s)) fast_ema slow_ema in
        let signal_line := ewm_mean signal_period macd_line in
        let histogram := zip_with (fun m s => Qred (m - s)) macd_line signal_line in
        Some (map Num macd_line, map Num signal_line, map Num histogram)
  end.

Definition default_periods : list nat := [20; 50; 200]%nat.

Definition ma_name (period : nat) : string := "MA" +:+ pretty period.

(** [periods] is never empty in the program ([max] of an empty list raises). *)
Definition calculate_moving_averages (self : t) (periods : list nat)
  : option DataFrame :=
  match self with
  | None => None
  | Some d =>
      if (length d <? max_list periods)%nat then None
      else Some (foldl (fun (ma_dict : DataFrame) period =>
                          <[ma_name period := rolling_mean period (close_col d)]> ma_dict)
                       ∅ periods)
  end.

Definition Qleb := Qle_bool.

Definition is_local_min (window : nat) (xs : list Q) (i : nat) : bool :=
  forallb (fun j => Qleb (nth i xs 0%Q) (nth (i - j) xs 0%Q)) (seq 1 window)
  && forallb (fun j => Qleb (nth i xs 0%Q) (nth (i + j) xs 0%Q)) (seq 1 window).

Definition is_local_max (window : nat) (xs : list Q) (i : nat) : bool :=
  forallb (fun j => Qleb (nth (i - j) xs 0%Q) (nth i xs 0%Q)) (seq 1 window)
  && forallb (fun j => Qleb (nth (i + j) xs 0%Q) (nth i xs 0%Q)) (seq 1 window).

(** Returns [(support_levels, resistance_levels)]; the source's
    [(None, None)] is [None]. *)
Definition identify_support_resistance (self : t) (window : nat)
  : option (list Q * list Q) :=
  match self with
  | None => None
  | Some d =>
      if (length d <? window * 2)%nat then None
      else
        let highs := map High d in
        let lows := map Low d in
        let range := seq window (length d - window - window) in
        let support_indices := List.filter (is_local_min window lows) range in
        let resistance_indices := List.filter (is_local_max window highs) range in
        Some (map (fun i => nth i lows 0%Q) support_indices,
              map (fun i => nth i highs 0%Q) resistance_indices)
  end.

(** [df[name]] for a column the frame holds (a missing name raises KeyError
    in the source; every name read below has just been assigned). *)
Definition col (df : DataFrame) (name : string) : Series := default [] (df !! name).

Definition has_col (df : DataFrame) (name : string) : bool :=
  bool_decide (is_Some (df !! name)).

Definition sub_signal_names : list string :=
  ["RSI_Signal"; "MACD_Cross_Signal"; "MA_Cross_Signal"].

(** [df[name] = v] *)
Definition assign (name : string) (v : Series) (df : DataFrame) : DataFrame :=
  <[name := v]> df.

(** [df.loc[mask, name] = v], the mask being read off the frame itself. *)
Definition loc_assign (mask : DataFrame -> list bool) (name : string) (v : fval)
    (df : DataFrame) : DataFrame :=
  <[name := loc_set (mask df) v (col df name)]> df.

(** [df[name] += df[other]] *)
Definition add_assign (name other : string) (df : DataFrame) : DataFrame :=
  <[name := add_cols (col df name) (col df other)]> df.

(** [if all(c in df.columns for c in names): body] *)
Definition when_cols (names : list string) (body : DataFrame -> DataFrame)
    (df : DataFrame) : DataFrame :=
  if forallb (has_col df) names then body df else df.

(** The closing normalisation: divide the sum by the number of sub-signal
    columns the frame holds, when there is one. *)
Definition normalize_signal (df : DataFrame) : DataFrame :=
  let num_indicators := length (List.filter (has_col df) sub_signal_names) in
  if (0 <? num_indicators)%nat then
    assign "Signal"
           (map (fun x => fdiv x (of_Z (Z.of_nat num_indicators))) (col df "Signal")) df
  else df.

Definition generate_signals (self : t) : option DataFrame :=
  match self with
  | None => None
  | Some d =>
      match calculate_rsi self 14,
            calculate_macd self 12 26 9,
            calculate_moving_averages self default_periods with
      | Some rsi, Some (macd_line, signal_line, histogram), Some ma_dict =>
          let n := length d in
          let signals := assign "Close" (close_col d) ∅ in
          let signals := assign "RSI" rsi signals in
          let signals := assign "MACD" macd_line signals in
          let signals := assign "MACD_Signal" signal_line signals in
          let signals := assign "MACD_Histogram" histogram signals in
          (* for ma_name, ma_values in ma_dict.items(): signals[ma_name] = ma_values *)
          let signals := ma_dict ∪ signals in
          (* signal based on RSI *)
          let signals := assign "RSI_Signal" (const_col n (Num 0)) signals in
          let signals :=
            loc_assign (fun df => lt_scalar (col df "RSI") (Num 30))
                       "RSI_Signal" (Num 1) signals in
          let signals :=
            loc_assign (fun df => gt_scalar (col df "RSI") (Num 70))
                       "RSI_Signal" (Num (-1)) signals in
          (* signal based on MACD *)
          let signals := assign "MACD_Cross_Signal" (const_col n (Num 0)) signals in
          let signals :=
            loc_assign (fun df => gt_cols (col df "MACD") (col df "MACD_Signal"))
                       "MACD_Cross_Signal" (Num 1) signals in
          let signals :=
            loc_assign (fun df => lt_cols (col df "MACD") (col df "MACD_Signal"))
                       "MACD_Cross_Signal" (Num (-1)) signals in
          (* signal based on the moving average crossover *)
          let signals :=
            when_cols ["MA20"; "MA50"]
              (fun signals =>
                 let signals := assign "MA_Cross_Signal" (const_col n (Num 0)) signals in
                 let signals :=
                   loc_assign (fun df => gt_cols (col df "MA20") (col df "MA50"))
                              "MA_Cross_Signal" (Num 1) signals in
                 loc_assign (fun df => lt_cols (col df "MA20") (col df "MA50"))
                            "MA_Cross_Signal" (Num (-1)) signals)
              signals in
          (* combine (simple average) *)
          let signals := assign "Signal" (const_col n (Num 0)) signals in
          let signals := when_cols ["RSI_Signal"] (add_assign "Signal" "RSI_Signal") signals in
          let signals :=
            when_cols ["MACD_Cross_Signal"] (add_assign "Signal" "MACD_Cross_Signal") signals in
          let signals :=
            when_cols ["MA_Cross_Signal"] (add_assign "Signal" "MA_Cross_Signal") signals in
          (* normalise (-1 to 1) *)
          Some (normalize_signal signals)
      | _, _, _ => None
      end
  end.

Inductive SignalType : Type := BUY | SELL | NEUTRAL.

#[global] Instance SignalType_eq_dec : EqDecision SignalType :=
  ltac:(solve_decision).

(** The support/resistance entries of a summary; the four keys are written
    together. *)
Record levels : Type := mkLevels {
  support_levels : list Q;
  resistance_levels : list Q;
  closest_support : option Q;
  closest_resistance : option Q
}.

(** The summary dict, without its ['timestamp'] key. *)
Record summary : Type := mkSummary {
  price : fval;
  signal_type : SignalType;
  signal_strength : fval;
  rsi : fval;
  macd : fval;
  macd_signal : fval;
  macd_histogram : fval;
  moving_averages : gmap string fval;
  sr : option levels
}.

(** [df.empty] : no column, or no row. *)
Definition df_empty (df : DataFrame) : bool :=
  bool_decide (map_Forall (fun _ (c : list fval) => c = []) df).

(** [latest[name]] where [latest = signals.iloc[-1]]; [None] stands for the
    KeyError (or IndexError) that the method's handler turns into [None]. *)
Definition latest (signals : DataFrame) (name : string) : option fval :=
  signals !! name ≫= iloc_last.

(** Python's [max] and [min] of a non-empty list keep the first extremal
    element. *)
Definition py_max (l : list Q) : option Q :=
  match l with
  | [] => None
  | x :: t => Some (foldl (fun best y => if Qltb best y then y else best) x t)
  end.

Definition py_min (l : list Q) : option Q :=
  match l with
  | [] => None
  | x :: t => Some (foldl (fun best y => if Qltb y best then y else best) x t)
  end.

Definition is_ma_column (name : string) : bool :=
  bool_decide (String.prefix "MA" name = true)
  && negb (bool_decide (String.prefix "langiS" (String.rev name) = true)).

Definition find_levels (sr_result : option (list Q * list Q)) (current_price : fval)
  : option levels :=
  match sr_result with
  | Some (support_levels, resistance_levels) =>
      if negb (bool_decide (support_levels = [])) && negb (bool_decide (resistance_levels = []))
      then
        let supports_below :=
          List.filter (fun level => flt (Num level) current_price) support_levels in
        let resistances_above :=
          List.filter (fun level => fgt (Num level) current_price) resistance_levels in
        Some {| support_levels := support_levels;
                resistance_levels := resistance_levels;
                closest_support := py_max supports_below;
                closest_resistance := py_min resistances_above |}
      else None
  | None => None
  end.

Definition get_signal_summary (self : t) (signals : option DataFrame) : option summary :=
  match self with
  | None => None
  | Some d =>
      let signals := match signals with
                     | None => generate_signals self
                     | Some s => Some s
                     end in
      match signals with
      | None => None
      | Some signals =>
          if df_empty signals then None
          else
            signal_value ← latest signals "Signal";
            let signal_type :=
              if fgt signal_value (Num (2 # 10)) then BUY
              else if flt signal_value (Num (- 2 # 10)) then SELL
              else NEUTRAL in
            close ← latest signals "Close";
            rsi ← latest signals "RSI";
            macd ← latest signals "MACD";
            macd_signal ← latest signals "MACD_Signal";
            macd_histogram ← latest signals "MACD_Histogram";
            let mas :=
              omap iloc_last (filter (fun kv => is_ma_column kv.1 = true) signals) in
            Some {| price := close;
                    signal_type := signal_type;
                    signal_strength := fabs signal_value;
                    rsi := rsi;
                    macd := macd;
                    macd_signal := macd_signal;
                    macd_histogram := macd_histogram;
                    moving_averages := mas;
                    sr := find_levels (identify_support_resistance self 10) close |}
      end
  end.

End TechnicalAnalysis.

(** ** notification_system.py : class NotificationSystem *)

Module NotificationSystem.

Import TechnicalAnalysis.

(** One row of the news frame. *)
Record article : Type := mkArticle {
  a_title : string;
  a_source : string;
  a_date : string;
  a_url : string;
  a_impact : Q
}.

(** The ['data'] entry of a notification, by notification type. *)
Inductive notification_data : Type :=
| PriceData (current_price previous_price price_change percent_change : Q)
| SignalData (s : summary)
| NewsData (a : article)
| EodData (report_date : Z).

Record notification : Type := mkNotification {
  n_type : string;
  n_title : string;
  n_data : notification_data
}.

(** The object's attributes ([last_check_time] is a timestamp and is left
    out). *)
Record t : Type := mkNS {
  check_interval : nat;
  price_change_threshold : Q;
  rsi_overbought : Q;
  rsi_oversold : Q;
  last_price : option Q;
  last_signal : option SignalType;
  last_news_ids : gset string;
  notifications_history : list notification
}.

Definition set_last_price (self : t) (p : Q) : t :=
  mkNS (check_interval self) (price_change_threshold self) (rsi_overbought self)
       (rsi_oversold self) (Some p) (last_signal self) (last_news_ids self)
       (notifications_history self).

Definition set_last_signal (self : t) (s : SignalType) : t :=
  mkNS (check_interval self) (price_change_threshold self) (rsi_overbought self)
       (rsi_oversold self) (last_price self) (Some s) (last_news_ids self)
       (notifications_history self).

Definition set_last_news_ids (self : t) (ids : gset string) : t :=
  mkNS (check_interval self) (price_change_threshold self) (rsi_overbought self)
       (rsi_oversold self) (last_price self) (last_signal self) ids
       (notifications_history self).

Definition set_notifications_history (self : t) (h : list notification) : t :=
  mkNS (check_interval self) (price_change_threshold self) (rsi_overbought self)
       (rsi_oversold self) (last_price self) (last_signal self) (last_news_ids self) h.

(** The file data/notification_history.json. *)
Inductive storage : Type :=
| Missing
| Malformed
| Stored (entries : list notification).

(** What the environment does with one attempt to write the file: the write
    succeeds, [open] fails and the file is untouched, or [json.dump] fails
    after the file was truncated. *)
Inductive write_outcome : Type := WriteOk | OpenFails | DumpFails.

Definition load_notification_history (disk : storage) : list notification :=
  match disk with
  | Stored entries => entries
  | Missing | Malformed => []
  end.

(** [__init__] with the thresholds given by the caller. *)
Definition init (check_interval : nat) (price_change_threshold rsi_overbought rsi_oversold : Q)
    (disk : storage) : t :=
  mkNS check_interval price_change_threshold rsi_overbought rsi_oversold
       None None ∅ (load_notification_history disk).

(** [l[-k:]] for [k > 0]. *)
Definition last_n {A : Type} (k : nat) (l : list A) : list A := drop (length l - k) l.

Definition save_notification_history (self : t) (disk : storage) (w : write_outcome)
  : storage :=
  match w with
  | WriteOk => Stored (last_n 100 (notifications_history self))
  | OpenFails => disk
  | DumpFails => Malformed
  end.

(** A call either returns or raises; [Raised] leaves the object as the
    statements before the raise left it. *)
Inductive outcome (A : Type) : Type :=
| Returned (a : A)
| Raised (exn : string).
Arguments Returned {A} a.
Arguments Raised {A} exn.

(** [current_price] is what [gold_monitor.get_current_price()] returned. *)
Definition check_price_movement (self : t) (current_price : option Q)
  : t * outcome (option notification) :=
  match current_price with
  | None => (self, Returned None)
  | Some current_price =>
      match last_price self with
      | None => (set_last_price self current_price, Returned None)
      | Some last =>
          let price_change := Qred (current_price - last) in
          if Qeq_bool last 0 then (self, Raised "ZeroDivisionError")
          else
            let percent_change := Qred (Qred (price_change / last) * 100) in
            if Qle_bool (price_change_threshold self) (Qabs percent_change) then
              let direction := if Qltb 0 price_change then "Up" else "Down" in
              let notification :=
                {| n_type := "price";
                   n_title := "Gold Price " +:+ direction;
                   n_data := PriceData current_price last price_change percent_change |} in
              (set_last_price self current_price, Returned (Some notification))
            else (set_last_price self current_price, Returned None)
      end
  end.

Definition signal_name (s : SignalType) : string :=
  match s with BUY => "BUY" | SELL => "SELL" | NEUTRAL => "NEUTRAL" end.

Definition check_technical_signals (self : t) (technical_analysis : TechnicalAnalysis.t)
  : t * option notification :=
  match generate_signals technical_analysis with
  | None => (self, None)
  | Some signals =>
      if df_empty signals then (self, None)
      else
        match get_signal_summary technical_analysis (Some signals) with
        | None => (self, None)
        | Some summary =>
            let signal_type := signal_type summary in
            match last_signal self with
            | None => (set_last_signal self signal_type, None)
            | Some last =>
                if bool_decide (signal_type ≠ last) && bool_decide (signal_type ≠ NEUTRAL)
                then
                  let notification :=
                    {| n_type := "signal";
                       n_title := "Gold Trading Signal: " +:+ signal_name signal_type;
                       n_data := SignalData summary |} in
                  (set_last_signal self signal_type, Some notification)
                else (set_last_signal self signal_type, None)
            end
        end
  end.

(** news_monitor.py, [get_high_impact_news] on the rows just fetched. *)
Definition get_high_impact_news (news_data : list article) (threshold : Q) : list article :=
  List.filter (fun a => Qle_bool threshold (a_impact a)) news_data.

Definition news_id (a : article) : string := a_title a +:+ "|" +:+ a_source a.

Definition news_notification (a : article) : notification :=
  {| n_type := "news";
     n_title := "Gold News: " +:+ a_title a;
     n_data := NewsData a |}.

(** [news] is what [news_monitor.fetch_all_news()] returned. *)
Definition check_news (self : t) (news : list article) : t * list notification :=
  match news with
  | [] => (self, [])
  | _ =>
      let high_impact := get_high_impact_news news (7 # 10) in
      match high_impact with
      | [] => (self, [])
      | _ =>
          let current_news_ids : gset string := list_to_set (map news_id high_impact) in
          if bool_decide (last_news_ids self = ∅) then
            (set_last_news_ids self current_news_ids, [])
          else
            let new_news_ids := current_news_ids ∖ last_news_ids self in
            if bool_decide (new_news_ids = ∅) then (self, [])
            else
              let notifications :=
                map news_notification
                    (List.filter (fun a => bool_decide (news_id a ∈ new_news_ids)) high_impact) in
              (set_last_news_ids self current_news_ids, notifications)
      end
  end.

(** Returns the object, the file and the method's boolean result. *)
Definition add_notification (self : t) (disk : storage) (w : write_outcome)
    (notification : option notification) : t * storage * bool :=
  match notification with
  | None => (self, disk, false)
  | Some n =>
      let self := set_notifications_history self (notifications_history self ++ [n]) in
      (self, save_notification_history self disk w, true)
  end.

End NotificationSystem.

(** ** bot.py : the end-of-day branch of run_monitoring_loop *)

Module Bot.

Import NotificationSystem.

(** [EOD_REPORT_TIME.split(':')] already converted: hour, and minute (0 when
    the setting has no minute part). *)
Record eod_time : Type := mkEod { eod_hour : Z; eod_minute : Z }.

Definition default_eod_time : eod_time := mkEod 16 0.

(** One iteration of the loop as the end-of-day branch sees it:
    [datetime.now()] split into an ordinal date, hour and minute; whether
    [fetch_live_data] returned data; whether a call of the iteration raises
    before the report is recorded (the loop's handler then skips the rest of
    the iteration). *)
Record poll : Type := mkPoll {
  now_date : Z;
  now_hour : Z;
  now_minute : Z;
  data_fetched : bool;
  raises : bool
}.

(** The loop variable [last_eod_report_date]. *)
Definition loop_state := option Z.

Definition eod_due (cfg : eod_time) (last_eod_report_date : loop_state) (p : poll) : bool :=
  (now_hour p =? eod_hour cfg)%Z && (eod_minute cfg <=? now_minute p)%Z
  && match last_eod_report_date with
     | None => true
     | Some last => (last <? now_date p)%Z
     end.

(** One iteration: the new loop variable, and whether a report was
    generated and handed over. *)
Definition monitoring_step (cfg : eod_time) (last_eod_report_date : loop_state) (p : poll)
  : loop_state * bool :=
  if data_fetched p && negb (raises p) then
    if eod_due cfg last_eod_report_date p then (Some (now_date p), true)
    else (last_eod_report_date, false)
  else (last_eod_report_date, false).

(** The loop over a finite sequence of polls: the flags say which polls
    produced a report. *)
Fixpoint run_monitoring_loop (cfg : eod_time) (last_eod_report_date : loop_state)
    (polls : list poll) : list bool :=
  match polls with
  | [] => []
  | p :: rest =>
      let '(st, fired) := monitoring_step cfg last_eod_report_date p in
      fired :: run_monitoring_loop cfg st rest
  end.

Fixpoint final_state (cfg : eod_time) (last_eod_report_date : loop_state)
    (polls : list poll) : loop_state :=
  match polls with
  | [] => last_eod_report_date
  | p :: rest => final_state cfg (monitoring_step cfg last_eod_report_date p).1 rest
  end.

End Bot.


(** ** notification_system.py : history queries and the report forecast *)

Module NotificationQueries.

Import TechnicalAnalysis NotificationSystem.

(** Python's [l[start:]] for an integer [start] of either sign. *)
Definition slice_from {A : Type} (start : Z) (l : list A) : list A :=
  if (start <? 0)%Z then drop (length l - Z.to_nat (- start)) l
  else drop (Z.to_nat start) l.

Definition get_recent_notifications (self : NotificationSystem.t) (limit : Z)
  : list notification :=
  match notifications_history self with
  | [] => []
  | history => slice_from (- limit) history
  end.

(** The forecast block of [_format_eod_report]: the forecast label and the
    list of reasons, from the summary's signal type and the sentiment label
    (each absent when the summary or the sentiment analysis is). *)
Definition forecast (signal : option SignalType) (sentiment : option string)
  : string * list string :=
  let forecast := "Neutral"%string in
  let forecast_reason : list string := [] in
  let '(forecast, forecast_reason) :=
    match signal with
    | Some BUY => ("Bullish"%string,
                   forecast_reason ++ ["Technical indicators suggest buying"%string])
    | Some SELL => ("Bearish"%string,
                    forecast_reason ++ ["Technical indicators suggest selling"%string])
    | _ => (forecast, forecast_reason)
    end in
  match sentiment with
  | Some label =>
      if String.eqb label "Bullish" then
        if String.eqb forecast "Bearish"
        then ("Mixed"%string, forecast_reason ++ ["News sentiment is positive"%string])
        else ("Bullish"%string, forecast_reason ++ ["News sentiment is positive"%string])
      else if String.eqb label "Bearish" then
        if String.eqb forecast "Bullish"
        then ("Mixed"%string, forecast_reason ++ ["News sentiment is negative"%string])
        else ("Bearish"%string, forecast_reason ++ ["News sentiment is negative"%string])
      else (forecast, forecast_reason)
  | None => (forecast, forecast_reason)
  end.

End NotificationQueries.

(** ** news_monitor.py : impact score and sentiment *)

Module NewsMonitor.

Import NotificationSystem.

(** [str.lower()] on ASCII text; other bytes are left as they are. *)
Definition lower_char (c : Ascii.ascii) : Ascii.ascii :=
  let n := Ascii.nat_of_ascii c in
  if (65 <=? n)%nat && (n <=? 90)%nat then Ascii.ascii_of_nat (n + 32) else c.

Fixpoint lower (s : string) : string :=
  match s with
  | EmptyString => EmptyString
  | String c t => String (lower_char c) (lower t)
  end.

(** [needle in hay] *)
Fixpoint contains (needle hay : string) : bool :=
  String.prefix needle hay
  || match hay with
     | EmptyString => false
     | String _ t => contains needle t
     end.

Definition high_impact_keywords : list string :=
  ["fed"; "federal reserve"; "interest rate"; "inflation"; "cpi"; "ppi";
   "powell"; "yellen"; "treasury"; "dollar"; "usd"; "recession";
   "war"; "conflict"; "crisis"; "surge"; "plunge"; "crash";
   "rally"; "soar"; "jump"; "spike"; "tumble"; "slump"]%string.

Definition gold_keywords : list string :=
  ["gold"; "xau"; "bullion"; "precious metal"; "safe haven";
   "ounce"; "troy"; "spot gold"; "gold futures"; "gold price"]%string.

(** [sum(1 for keyword in keywords if keyword in text)] *)
Definition count_keywords (keywords : list string) (text : string) : nat :=
  length (List.filter (fun keyword => contains keyword text) keywords).

(** Python's [min(a, b)]: the second argument only when it is smaller. *)
Definition py_min2 (a b : Q) : Q := if Qltb b a then b else a.

Definition calculate_impact (title : string) : Q :=
  let title_lower := lower title in
  let is_gold_related := existsb (fun keyword => contains keyword title_lower) gold_keywords in
  if negb is_gold_related then 3 # 10
  else
    let impact_count := count_keywords high_impact_keywords title_lower in
    ((5 # 10) + py_min2 (5 # 10) (inject_Z (Z.of_nat impact_count) * (1 # 10)))%Q.

Definition positive_keywords : list string :=
  ["rally"; "soar"; "jump"; "spike"; "surge"; "gain"; "rise"; "climb";
   "bullish"; "uptrend"; "support"; "positive"; "optimistic"]%string.

Definition negative_keywords : list string :=
  ["plunge"; "crash"; "tumble"; "slump"; "drop"; "fall"; "decline"; "sink";
   "bearish"; "downtrend"; "resistance"; "negative"; "pessimistic"]%string.

(** The dict [analyze_news_sentiment] returns. *)
Record analysis : Type := mkAnalysis {
  sentiment : string;
  score : Q;
  positive_count : nat;
  negative_count : nat;
  total_articles : nat
}.

(** [news_data] is the stored frame after the fetch the method starts with
    when the frame is empty. *)
Definition analyze_news_sentiment (news_data : list article) : option analysis :=
  match news_data with
  | [] => None
  | _ =>
      let positive_count :=
        foldl (fun acc a => acc + count_keywords positive_keywords (lower (a_title a)))%nat
              0%nat news_data in
      let negative_count :=
        foldl (fun acc a => acc + count_keywords negative_keywords (lower (a_title a)))%nat
              0%nat news_data in
      let total_count := (positive_count + negative_count)%nat in
      let sentiment_score :=
        if (0 <? total_count)%nat then
          ((inject_Z (Z.of_nat positive_count) - inject_Z (Z.of_nat negative_count))
           / inject_Z (Z.of_nat total_count))%Q
        else 0%Q in
      let sentiment :=
        if Qltb (2 # 10) sentiment_score then "Bullish"%string
        else if Qltb sentiment_score (- 2 # 10) then "Bearish"%string
        else "Neutral"%string in
      Some {| sentiment := sentiment;
              score := sentiment_score;
              positive_count := positive_count;
              negative_count := negative_count;
              total_articles := length news_data |}
  end.

End NewsMonitor.

(** ** bot.py : registered users and delivery *)

Module BotUsers.

Import NotificationSystem.

(** One entry of [self.users['users']], without its ['registered_at']
    timestamp.  An entry read from the users file may lack ['settings']. *)
Record user : Type := mkUser {
  chat_id : Z;
  username : option string;
  settings : option (gmap string bool)
}.

Definition all_on : gmap string bool :=
  <["price_alerts" := true]>
    (<["signal_alerts" := true]>
       (<["news_alerts" := true]> (<["eod_reports" := true]> ∅))).

(** Returns the users and the method's result.  The users file is rewritten
    when a user is added. *)
Definition register_user (users : list user) (id : Z) (name : option string)
  : list user * bool :=
  if existsb (fun u => (chat_id u =? id)%Z) users then (users, false)
  else (users ++ [mkUser id name (Some all_on)], true).

(** [user.get('settings', {}).get(key, True)] *)
Definition setting (u : user) (key : string) : bool :=
  default true (default ∅ (settings u) !! key).

(** The four [continue] tests of [send_notification]. *)
Definition skipped (u : user) (n_type : string) : bool :=
  (String.eqb n_type "price" && negb (setting u "price_alerts"))
  || (String.eqb n_type "signal" && negb (setting u "signal_alerts"))
  || (String.eqb n_type "news" && negb (setting u "news_alerts"))
  || (String.eqb n_type "eod" && negb (setting u "eod_reports")).

(** [delivers u] says whether the transport accepts the message for [u]; a
    refusal is logged and the loop goes on.  Returns the users that were
    sent the message, in order, and the method's count. *)
Fixpoint send_loop (delivers : user -> bool) (n_type : string) (users : list user)
    (count : nat) : list user * nat :=
  match users with
  | [] => ([], count)
  | u :: rest =>
      if skipped u n_type then send_loop delivers n_type rest count
      else if delivers u then
        let '(sent, count) := send_loop delivers n_type rest (count + 1) in
        (u :: sent, count)
      else send_loop delivers n_type rest count
  end.

Definition send_notification (users : list user) (delivers : user -> bool)
    (notification : option notification) : list user * nat :=
  match notification with
  | None => ([], 0%nat)
  | Some n => send_loop delivers (n_type n) users 0
  end.

(** The reply texts of [handle_message]. *)
Definition not_registered : string :=
  "You are not registered. Please use /start to register.".
Definition settings_updated : string :=
  "Settings updated! Use /settings to view your current settings.".
Definition not_understood : string :=
  "I don't understand that command. Use /help to see available commands.".

(** The four toggles, in the order of the source: which key, triggered by
    which word. *)
Definition toggles : list (string * string) :=
  [("price", "price_alerts"); ("signal", "signal_alerts");
   ("news", "news_alerts"); ("eod", "eod_reports")]%string.

Definition triggered (text word : string) : bool :=
  NewsMonitor.contains word text
  && (NewsMonitor.contains "on" text || NewsMonitor.contains "off" text).

(** The settings after the toggles that [text] triggers. *)
Definition apply_toggles (text : string) (s : gmap string bool) : gmap string bool :=
  foldl (fun (s : gmap string bool) '(word, key) =>
           if triggered text word then <[key := NewsMonitor.contains "on" text]> s else s)
        s toggles.

(** Position of the first user with this chat id. *)
Fixpoint find_user (users : list user) (id : Z) : option nat :=
  match users with
  | [] => None
  | u :: rest => if (chat_id u =? id)%Z then Some 0%nat else S <$> find_user rest id
  end.

(** Returns the users, the reply and whether the users file was rewritten;
    assigning into the missing ['settings'] of an entry raises KeyError. *)
Definition handle_message (users : list user) (id : Z) (message_text : string)
  : outcome (list user * string * bool) :=
  let text := NewsMonitor.lower message_text in
  match find_user users id with
  | None => Returned (users, not_registered, false)
  | Some i =>
      match users !! i with
      | None => Returned (users, not_registered, false)
      | Some u =>
          if existsb (fun '(word, _) => triggered text word) toggles then
            match settings u with
            | None => Raised "KeyError"
            | Some s =>
                let u' := mkUser (chat_id u) (username u) (Some (apply_toggles text s)) in
                Returned (<[i := u']> users, settings_updated, true)
            end
          else Returned (users, not_understood, false)
      end
  end.

End BotUsers.

(** ** gold_price_monitor.py : price range and price change *)

Module GoldPriceMonitor.

Import TechnicalAnalysis NotificationSystem.

(** [Series.min()] and [Series.max()] of a column of finite numbers; NaN on
    an empty column. *)
Definition col_min (xs : list Q) : fval :=
  match xs with
  | [] => NaN
  | x :: t => Num (foldl (fun m y => if Qltb y m then y else m) x t)
  end.

Definition col_max (xs : list Q) : fval :=
  match xs with
  | [] => NaN
  | x :: t => Num (foldl (fun m y => if Qltb m y then y else m) x t)
  end.

(** [data] is [self.data] after the fetch the method starts with when there
    is none; the source's [(None, None)] is [None]. *)
Definition get_price_range (data : option (list bar)) : option (fval * fval) :=
  match data with
  | None => None
  | Some d => Some (col_min (map Low d), col_max (map High d))
  end.

Definition get_price_change (data : option (list bar)) : outcome (option (Q * Q)) :=
  match data with
  | None => Returned None
  | Some d =>
      if (length d <? 2)%nat then Returned None
      else
        match last d, d with
        | Some last_bar, first_bar :: _ =>
            let current_price := Close last_bar in
            let open_price := Open first_bar in
            let change := (current_price - open_price)%Q in
            if Qeq_bool open_price 0 then Raised "ZeroDivisionError"
            else Returned (Some (change, ((change / open_price) * 100)%Q))
        | _, _ => Returned None
        end
  end.

End GoldPriceMonitor.
(** * Specification vocabulary *)

(** ** Report scheduler *)

Module SchedulerSpec.

Import Bot.

(** The poll's local time is at or after the configured trigger time. *)
Definition at_or_after (cfg : eod_time) (p : poll) : bool :=
  (eod_hour cfg <? now_hour p)%Z
  || ((now_hour p =? eod_hour cfg)%Z && (eod_minute cfg <=? now_minute p)%Z).

(** No poll before position [i] produced a report on date [d]. *)
Definition none_fired_before (polls : list poll) (fired : list bool) (i : nat) (d : Z) : Prop :=
  forall j q, (j < i)%nat -> polls !! j = Some q -> now_date q = d -> fired !! j = Some false.

(** The scheduler as the specification words it: on a date without a report
    so far, a poll at or after the trigger time produces the report. *)
Definition fires_whenever_late (cfg : eod_time) (polls : list poll) : Prop :=
  forall i p,
    polls !! i = Some p ->
    at_or_after cfg p = true ->
    none_fired_before polls (run_monitoring_loop cfg None polls) i (now_date p) ->
    run_monitoring_loop cfg None polls !! i = Some true.

(** Dates along the sequence never go backwards. *)
Definition dates_ascend (polls : list poll) : Prop :=
  forall i j p q, (i <= j)%nat -> polls !! i = Some p -> polls !! j = Some q ->
                  (now_date p <= now_date q)%Z.

(** Number of reports produced on date [d]. *)
Fixpoint reports_on (d : Z) (polls : list poll) (fired : list bool) : nat :=
  match polls, fired with
  | p :: polls, f :: fired =>
      (if f && (now_date p =? d)%Z then 1 else 0) + reports_on d polls fired
  | _, _ => 0
  end.

Definition late_poll : poll := mkPoll 1 17 5 true false.

End SchedulerSpec.


(** ** Alert state machine: signal channel *)

Module SignalSpec.

Import TechnicalAnalysis NotificationSystem.

(** The summary that [check_technical_signals] gets to see, if any. *)
Definition summary_of (ta : TechnicalAnalysis.t) : option summary :=
  match generate_signals ta with
  | None => None
  | Some signals =>
      if df_empty signals then None else get_signal_summary ta (Some signals)
  end.

Definition signal_of (ta : TechnicalAnalysis.t) : option SignalType :=
  signal_type <$> summary_of ta.

(** Successive calls on successive analyses; the returned values in call
    order. *)
Fixpoint run_signal_checks (self : NotificationSystem.t) (tas : list TechnicalAnalysis.t)
  : NotificationSystem.t * list (option notification) :=
  match tas with
  | [] => (self, [])
  | ta :: rest =>
      let '(self, ev) := check_technical_signals self ta in
      let '(self, evs) := run_signal_checks self rest in
      (self, ev :: evs)
  end.

Definition flat_bar (c : Q) : bar := mkBar c c c c 0.

(** [n] bars at 1000 followed by one bar at [c]. *)
Definition ticked (n : nat) (c : Q) : list bar :=
  replicate n (flat_bar 1000) ++ [flat_bar c].

Definition ta_up : TechnicalAnalysis.t := Some (ticked 199 1001).
Definition ta_down : TechnicalAnalysis.t := Some (ticked 199 999).
Definition ta_flat : TechnicalAnalysis.t := Some (ticked 199 1000).

Definition fresh : NotificationSystem.t := init 900 (1 # 2) 70 30 Missing.

Definition signal_notification (s : summary) : notification :=
  {| n_type := "signal";
     n_title := "Gold Trading Signal: " +:+ signal_name (signal_type s);
     n_data := SignalData s |}.

(** Which calls returned a notification. *)
Definition emitted (evs : list (option notification)) : list bool :=
  map (fun ev => match ev with Some _ => true | None => false end) evs.

End SignalSpec.

(** ** Alert state machine: news channel *)

Module NewsSpec.

Import NotificationSystem.

Definition article_a : article :=
  mkArticle "Fed holds rates" "Reuters" "2024-05-01" "https://example.org/a" (9 # 10).

Definition article_b : article :=
  mkArticle "Gold hits record" "Kitco" "2024-05-01" "https://example.org/b" (8 # 10).

(** Successive calls on successive fetched frames. *)
Fixpoint run_news_checks (self : NotificationSystem.t) (fetches : list (list article))
  : NotificationSystem.t * list (list notification) :=
  match fetches with
  | [] => (self, [])
  | news :: rest =>
      let '(self, evs) := check_news self news in
      let '(self, out) := run_news_checks self rest in
      (self, evs :: out)
  end.

(** The ids of the items at or above the threshold, as the specification
    builds them. *)
Definition current_ids (news : list article) : gset string :=
  list_to_set (map news_id (get_high_impact_news news (7 # 10))).

End NewsSpec.

(** ** Notification history *)

Module HistorySpec.

Import NotificationSystem.

Definition stored_count (disk : storage) : nat := length (load_notification_history disk).

(** Successive [add_notification] calls, each with what the environment does
    to its write. *)
Fixpoint run_adds (self : NotificationSystem.t) (disk : storage)
    (calls : list (write_outcome * option notification)) : NotificationSystem.t * storage :=
  match calls with
  | [] => (self, disk)
  | (w, n) :: rest =>
      let '(self, disk, _) := add_notification self disk w n in
      run_adds self disk rest
  end.

Definition appended (calls : list (write_outcome * option notification)) : nat :=
  length (List.filter (fun c : write_outcome * option notification =>
                         match c.2 with Some _ => true | None => false end) calls).

(** The bound as the specification words it: after the calls, neither the
    history held by the object nor the stored one has more than 100
    entries. *)
Definition history_bounded (self : NotificationSystem.t) (disk : storage)
    (calls : list (write_outcome * option notification)) : Prop :=
  (length (notifications_history (run_adds self disk calls).1) <= 100)%nat
  /\ (stored_count (run_adds self disk calls).2 <= 100)%nat.

Definition sample_notification : notification :=
  mkNotification "eod" "Gold Trading: End-of-Day Report" (EodData 1).

Definition fresh : NotificationSystem.t := init 900 (1 # 2) 70 30 Missing.

End HistorySpec.

(** ** Signal summary: closest levels *)

Module LevelsSpec.

Import TechnicalAnalysis.

(** [r] is the maximum of the support levels strictly below [price], absent
    when there is none. *)
Definition is_closest_support (supports : list Q) (price : Q) (r : option Q) : Prop :=
  match r with
  | Some s => In s supports /\ (s < price)%Q
              /\ forall x, In x supports -> (x < price)%Q -> (x <= s)%Q
  | None => forall x, In x supports -> ~ (x < price)%Q
  end.

(** [r] is the minimum of the resistance levels strictly above [price],
    absent when there is none. *)
Definition is_closest_resistance (resistances : list Q) (price : Q) (r : option Q) : Prop :=
  match r with
  | Some s => In s resistances /\ (price < s)%Q
              /\ forall x, In x resistances -> (price < x)%Q -> (s <= x)%Q
  | None => forall x, In x resistances -> ~ (price < x)%Q
  end.

(** What a reader of the summary finds under the two keys: a missing key
    and a [None] value both read as absent. *)
Definition summary_closest_support (s : summary) : option Q := sr s ≫= closest_support.
Definition summary_closest_resistance (s : summary) : option Q := sr s ≫= closest_resistance.

(** The two entries as the specification words them, each from its own
    list of levels. *)
Definition closest_levels_independent (ta : TechnicalAnalysis.t) : Prop :=
  forall s supports resistances p,
    get_signal_summary ta None = Some s ->
    identify_support_resistance ta 10 = Some (supports, resistances) ->
    price s = Num p ->
    is_closest_support supports p (summary_closest_support s)
    /\ is_closest_resistance resistances p (summary_closest_resistance s).

(** 201 bars closing at 1000, with highs falling by one each bar from 2000
    and lows forming a V whose bottom, 500, is at bar 100. *)
Definition v_bar (i : nat) : bar :=
  mkBar 1000
        (inject_Z (2000 - Z.of_nat i))
        (inject_Z (500 + Z.abs (Z.of_nat i - 100)))
        1000 0.

Definition v_series : TechnicalAnalysis.t := Some (map v_bar (seq 0 201)).

End LevelsSpec.

(** ** Relative strength index *)

Module RsiSpec.

(** A finite, non-negative entry. *)
Definition nonneg (x : fval) : Prop := exists q, x = Num q /\ (0 <= q)%Q.

Definition is_num (x : fval) : Prop := exists q, x = Num q.

Definition num_or_nan (x : fval) : Prop := x = NaN \/ is_num x.

End RsiSpec.

(** ** Composite signal *)

Module CompositeSpec.

Import TechnicalAnalysis.

(** The three per-bar sub-signals as generate_signals assigns them. *)
Definition rsi_vote (rsi : fval) : Z :=
  if fgt rsi (Num 70) then (-1) else if flt rsi (Num 30) then 1 else 0.

Definition cross_vote (a b : fval) : Z :=
  if flt a b then (-1) else if fgt a b then 1 else 0.

(** The sub-signal columns and the composite column in closed form. *)
Definition rsi_signal_col (n : nat) (rsi : list fval) : list fval :=
  loc_set (gt_scalar rsi (Num 70)) (Num (-1))
          (loc_set (lt_scalar rsi (Num 30)) (Num 1) (const_col n (Num 0))).

Definition cross_signal_col (n : nat) (a b : list fval) : list fval :=
  loc_set (lt_cols a b) (Num (-1))
          (loc_set (gt_cols a b) (Num 1) (const_col n (Num 0))).

Definition signal_col (n : nat) (rsi macd sig m20 m50 : list fval) : list fval :=
  map (fun x => fdiv x (of_Z 3))
      (add_cols (add_cols (add_cols (const_col n (Num 0)) (rsi_signal_col n rsi))
                          (cross_signal_col n macd sig))
                (cross_signal_col n m20 m50)).

(** An indicator value that is there: the indicator was computed and the
    bar is past its warmup. *)
Definition present (x : option fval) : option fval :=
  x ≫= fun v => if is_nan v then None else Some v.

Definition indicator_at (s : option (list fval)) (i : nat) : option fval :=
  present (s ≫= fun c => c !! i).

(** A sub-signal is available when its inputs are; its value is the one
    generate_signals would assign. *)
Definition spec_rsi_signal (rsi : option fval) : option Z :=
  r ← rsi; Some (rsi_vote r).

Definition spec_macd_signal (macd_line signal_line : option fval) : option Z :=
  m ← macd_line; s ← signal_line; Some (cross_vote m s).

Definition spec_ma_signal (ma20 ma50 : option fval) : option Z :=
  a ← ma20; b ← ma50; Some (cross_vote a b).

(** sum(available sub-signals) / count(available sub-signals) *)
Definition spec_composite (subs : list (option Z)) : option Q :=
  match omap id subs with
  | [] => None
  | available =>
      Some (inject_Z (foldr Z.add 0%Z available) / inject_Z (Z.of_nat (length available)))%Q
  end.

Definition spec_composite_at (ta : TechnicalAnalysis.t) (i : nat) : option Q :=
  let rsi := calculate_rsi ta 14 in
  let macd := calculate_macd ta 12 26 9 in
  let ma := calculate_moving_averages ta default_periods in
  spec_composite
    [ spec_rsi_signal (indicator_at rsi i);
      spec_macd_signal (indicator_at ((fun m => m.1.1) <$> macd) i)
                       (indicator_at ((fun m => m.1.2) <$> macd) i);
      spec_ma_signal (indicator_at (ma ≫= fun m => m !! "MA20") i)
                     (indicator_at (ma ≫= fun m => m !! "MA50") i) ].

(** The composite signal generate_signals puts on bar [i], if any. *)
Definition code_composite_at (ta : TechnicalAnalysis.t) (i : nat) : option fval :=
  generate_signals ta ≫= fun signals => col signals "Signal" !! i.

Definition agrees (code : option fval) (spec : option Q) : Prop :=
  match code, spec with
  | Some (Num c), Some q => (c == q)%Q
  | None, None => True
  | _, _ => False
  end.

(** The claim: on every bar the code's composite is the specification's. *)
Definition composite_excludes_missing (ta : TechnicalAnalysis.t) : Prop :=
  forall i, agrees (code_composite_at ta i) (spec_composite_at ta i).

(** 49 bars at 1000 and a last bar at 1001. *)
Definition fifty_bars : TechnicalAnalysis.t := Some (SignalSpec.ticked 49 1001).

(** One bar at 1000 followed by 199 bars at 1001. *)
Definition early_step : TechnicalAnalysis.t :=
  Some (SignalSpec.flat_bar 1000 :: replicate 199 (SignalSpec.flat_bar 1001)).

End CompositeSpec.

(** * Further vocabulary *)

Module IndicatorSpec.

Import TechnicalAnalysis.

(** A finite entry between two bounds. *)
Definition within (lo hi : Q) (x : fval) : Prop :=
  exists q, x = Num q /\ (lo <= q <= hi)%Q.

(** A finite entry equal to a given number. *)
Definition equals (c : Q) (x : fval) : Prop := exists q, x = Num q /\ (q == c)%Q.

(** Bar [i] is a local minimum (maximum) of [xs] over [window] bars on each
    side, ties included. *)
Definition local_min (window : nat) (xs : list Q) (i : nat) : Prop :=
  forall j, (1 <= j <= window)%nat ->
    (nth i xs 0 <= nth (i - j) xs 0)%Q /\ (nth i xs 0 <= nth (i + j) xs 0)%Q.

Definition local_max (window : nat) (xs : list Q) (i : nat) : Prop :=
  forall j, (1 <= j <= window)%nat ->
    (nth (i - j) xs 0 <= nth i xs 0)%Q /\ (nth (i + j) xs 0 <= nth i xs 0)%Q.

(** The sum of the three sub-signals on bar [i]. *)
Definition vote_sum (rsi macd sig m20 m50 : list fval) (i : nat) : option Z :=
  r ← rsi !! i; m ← macd !! i; s ← sig !! i; a ← m20 !! i; b ← m50 !! i;
  Some (CompositeSpec.rsi_vote r + CompositeSpec.cross_vote m s
        + CompositeSpec.cross_vote a b)%Z.

End IndicatorSpec.

Module AlertSpec.

Import NotificationSystem.

(** The fetched articles at or above the threshold whose id is not among
    the stored ones, in fetch order. *)
Definition fresh_items (stored : gset string) (news : list article) : list article :=
  List.filter (fun a => Qle_bool (7 # 10) (a_impact a)
                        && bool_decide (news_id a ∉ stored)) news.

(** Successive priced calls; the outcomes in call order. *)
Fixpoint run_price_checks (self : NotificationSystem.t) (prices : list Q)
  : NotificationSystem.t * list (outcome (option notification)) :=
  match prices with
  | [] => (self, [])
  | p :: rest =>
      let '(self, r) := check_price_movement self (Some p) in
      let '(self, rs) := run_price_checks self rest in
      (self, r :: rs)
  end.

Definition stuck_at_zero : NotificationSystem.t :=
  set_last_price (init 900 (1 # 2) 70 30 Missing) 0.

End AlertSpec.

Module ForecastSpec.

Import TechnicalAnalysis.

(** The signal type points somewhere. *)
Definition directed_signal (signal : option SignalType) : bool :=
  match signal with
  | Some BUY | Some SELL => true
  | _ => false
  end.

(** The sentiment label points somewhere. *)
Definition directed_label (label : option string) : bool :=
  match label with
  | Some l => String.eqb l "Bullish" || String.eqb l "Bearish"
  | None => false
  end.

End ForecastSpec.
(** * Properties *)

(** ** Report scheduler *)

Section Scheduler.

Import Bot SchedulerSpec.

Variable cfg : eod_time.

Lemma monitoring_step_fired st p st' :
  monitoring_step cfg st p = (st', true) ->
  st' = Some (now_date p) /\ data_fetched p = true /\ raises p = false
  /\ eod_due cfg st p = true.
Proof.
  unfold monitoring_step.
  destruct (data_fetched p), (raises p); simpl; try congruence;
    destruct (eod_due cfg st p); intros [= <-]; auto.
Qed.

Lemma monitoring_step_quiet st p st' :
  monitoring_step cfg st p = (st', false) -> st' = st.
Proof.
  unfold monitoring_step.
  destruct (data_fetched p && negb (raises p)); [|congruence].
  destruct (eod_due cfg st p); congruence.
Qed.

(** Once a date is recorded, no later poll of that date or an earlier one
    reports. *)
Lemma reports_on_recorded polls : forall last d,
  (d <= last)%Z ->
  reports_on d polls (run_monitoring_loop cfg (Some last) polls) = 0%nat.
Proof.
  induction polls as [|p polls IH]; intros last d Hd; [reflexivity|].
  simpl. destruct (monitoring_step cfg (Some last) p) as [st f] eqn:E.
  destruct f.
  - apply monitoring_step_fired in E as (-> & _ & _ & Hdue).
    unfold eod_due in Hdue. apply andb_prop in Hdue as [_ Hlt].
    apply Z.ltb_lt in Hlt. simpl.
    destruct (Z.eqb_spec (now_date p) d); [lia|].
    simpl. apply IH. lia.
  - apply monitoring_step_quiet in E as ->. simpl. now apply IH.
Qed.

Lemma reports_on_le_1 polls : forall st d,
  (reports_on d polls (run_monitoring_loop cfg st polls) <= 1)%nat.
Proof.
  induction polls as [|p polls IH]; intros st d; [simpl; lia|].
  simpl. destruct (monitoring_step cfg st p) as [st' f] eqn:E.
  destruct f.
  - apply monitoring_step_fired in E as (-> & _).
    simpl. destruct (Z.eqb_spec (now_date p) d) as [->|Hne].
    + rewrite reports_on_recorded by lia. lia.
    + simpl. apply IH.
  - simpl. apply IH.
Qed.

Lemma run_lookup polls : forall st i p,
  polls !! i = Some p ->
  run_monitoring_loop cfg st polls !! i
  = Some (monitoring_step cfg (final_state cfg st (take i polls)) p).2.
Proof.
  induction polls as [|q polls IH]; intros st i p Hi; [discriminate|].
  destruct i as [|i]; simpl in *.
  - injection Hi as ->. now destruct (monitoring_step cfg st p).
  - destruct (monitoring_step cfg st q) as [st' f]. simpl. now apply IH.
Qed.

(** A recorded date is the date of an earlier poll that reported. *)
Lemma final_state_origin polls : forall st i last,
  final_state cfg st (take i polls) = Some last ->
  st = Some last
  \/ exists j q, (j < i)%nat /\ polls !! j = Some q /\ now_date q = last
                 /\ run_monitoring_loop cfg st polls !! j = Some true.
Proof.
  induction polls as [|q polls IH]; intros st i last H.
  - rewrite take_nil in H. now left.
  - destruct i as [|i]; simpl in H; [now left|].
    destruct (monitoring_step cfg st q) as [st' f] eqn:E. simpl in H.
    apply IH in H as [->|(j & r & Hj & Hr & Hd & Hf)].
    + destruct f.
      * pose proof (monitoring_step_fired _ _ _ E) as ([= ->] & _).
        right. exists 0%nat, q. simpl. rewrite E. repeat split; auto. lia.
      * apply monitoring_step_quiet in E. now left.
    + right. exists (S j), r. simpl. rewrite E. repeat split; auto. lia.
Qed.

End Scheduler.

(** C7.  Whatever the polling sequence, and whatever the trigger time, at
    most one end-of-day report is produced on any given calendar date. *)
Theorem eod_at_most_once_per_date (cfg : Bot.eod_time) (polls : list Bot.poll) (d : Z) :
  (SchedulerSpec.reports_on d polls (Bot.run_monitoring_loop cfg None polls) <= 1)%nat.
Proof. apply reports_on_le_1. Qed.

(** C3, as stated, fails: with the default 16:00 trigger, a first poll of
    the day at 17:05 produces no report. *)
Lemma eod_late_poll_counterexample :
  ~ SchedulerSpec.fires_whenever_late Bot.default_eod_time [SchedulerSpec.late_poll].
Proof.
  intros H.
  specialize (H 0%nat SchedulerSpec.late_poll eq_refl eq_refl).
  assert (Hnone : SchedulerSpec.none_fired_before [SchedulerSpec.late_poll]
                    (Bot.run_monitoring_loop Bot.default_eod_time None [SchedulerSpec.late_poll])
                    0 (Bot.now_date SchedulerSpec.late_poll))
    by (intros j q Hj; lia).
  specialize (H Hnone). vm_compute in H. discriminate.
Qed.

(** C3, amended.  Along a polling sequence whose dates never go backwards,
    on a date without a report so far, a poll that fetched market data
    without error produces the report when its hour equals the trigger hour
    and its minute is at or past the trigger minute, however many minutes
    past; and every poll that produces a report is of that kind, so a poll
    in a later hour produces none. *)
Theorem eod_fires_within_trigger_hour (cfg : Bot.eod_time) (polls : list Bot.poll)
    (i : nat) (p : Bot.poll) :
  polls !! i = Some p ->
  (SchedulerSpec.dates_ascend polls ->
   Bot.data_fetched p = true -> Bot.raises p = false ->
   Bot.now_hour p = Bot.eod_hour cfg ->
   (Bot.eod_minute cfg <= Bot.now_minute p)%Z ->
   SchedulerSpec.none_fired_before polls (Bot.run_monitoring_loop cfg None polls) i
     (Bot.now_date p) ->
   Bot.run_monitoring_loop cfg None polls !! i = Some true)
  /\ (Bot.run_monitoring_loop cfg None polls !! i = Some true ->
      Bot.data_fetched p = true /\ Bot.raises p = false
      /\ Bot.now_hour p = Bot.eod_hour cfg
      /\ (Bot.eod_minute cfg <= Bot.now_minute p)%Z).
Proof.
  intros Hp. rewrite (run_lookup cfg polls None i p Hp). split.
  - intros Hasc Hdata Hraise Hhour Hmin Hnone.
    f_equal. unfold Bot.monitoring_step. rewrite Hdata, Hraise. simpl.
    assert (Hdue : Bot.eod_due cfg (Bot.final_state cfg None (take i polls)) p = true).
    { unfold Bot.eod_due.
      apply andb_true_intro; split; [apply andb_true_intro; split|].
      - now apply Z.eqb_eq.
      - now apply Z.leb_le.
      - destruct (Bot.final_state cfg None (take i polls)) as [last|] eqn:E; [|reflexivity].
        apply final_state_origin in E as [?|(j & q & Hj & Hq & Hd & Hf)]; [discriminate|].
        apply Z.ltb_lt.
        assert (Hle : (Bot.now_date q <= Bot.now_date p)%Z)
          by (apply (Hasc j i); auto; lia).
        destruct (Z.eq_dec (Bot.now_date q) (Bot.now_date p)) as [Heq|Hne]; [|lia].
        specialize (Hnone j q Hj Hq Heq). congruence. }
    now rewrite Hdue.
  - intros [= H].
    destruct (Bot.monitoring_step cfg (Bot.final_state cfg None (take i polls)) p)
      as [st f] eqn:E.
    simpl in H. subst f.
    apply monitoring_step_fired in E as (_ & Hdata & Hraise & Hdue).
    unfold Bot.eod_due in Hdue.
    apply andb_prop in Hdue as [Hdue _]. apply andb_prop in Hdue as [Hh Hm].
    apply Z.eqb_eq in Hh. apply Z.leb_le in Hm. auto.
Qed.

Lemma eod_fires_within_trigger_hour_witness :
  Bot.run_monitoring_loop Bot.default_eod_time None
    [Bot.mkPoll 1 15 50 true false; Bot.mkPoll 1 16 40 true false] !! 1%nat = Some true.
Proof.
  refine (proj1 (eod_fires_within_trigger_hour Bot.default_eod_time
            [Bot.mkPoll 1 15 50 true false; Bot.mkPoll 1 16 40 true false] 1
            (Bot.mkPoll 1 16 40 true false) eq_refl) _ eq_refl eq_refl eq_refl _ _).
  - intros a b x y Hab Hx Hy.
    destruct a as [|[|a]], b as [|[|b]]; simpl in Hx, Hy; try discriminate;
      injection Hx as <-; injection Hy as <-; simpl; lia.
  - simpl. lia.
  - intros j q Hj Hq _. destruct j as [|j]; [reflexivity|lia].
Defined.

(** ** Alert state machine: price channel *)

Section PriceChannel.

Import NotificationSystem.

Lemma percent_change_value (p last : Q) :
  (Qred (Qred (Qred (p - last) / last) * 100) == (p - last) / last * 100)%Q.
Proof. now rewrite !Qred_correct. Qed.

Lemma check_price_movement_seeded (self : t) (p last : Q) :
  last_price self = Some last ->
  ~ (last == 0)%Q ->
  exists ev,
    check_price_movement self (Some p) = (set_last_price self p, Returned ev)
    /\ (is_Some ev <-> (price_change_threshold self <= Qabs ((p - last) / last * 100))%Q)
    /\ (forall n, ev = Some n ->
          n_type n = "price"%string
          /\ exists change pct,
               n_data n = PriceData p last change pct
               /\ (change == p - last)%Q /\ (pct == (p - last) / last * 100)%Q).
Proof.
  intros Hlast Hnz. unfold check_price_movement. rewrite Hlast.
  destruct (Qeq_bool last 0) eqn:Ez; [apply Qeq_bool_iff in Ez; contradiction|].
  destruct (Qle_bool _ _) eqn:Ethr.
  - eexists; split; [reflexivity|]. split.
    + split; [intros _|eauto].
      apply Qle_bool_iff in Ethr. now rewrite percent_change_value in Ethr.
    + intros n [= <-]. split; [reflexivity|].
      do 2 eexists. split; [reflexivity|]. split.
      * apply Qred_correct.
      * apply percent_change_value.
  - exists None; split; [reflexivity|]. split.
    + split; [intros [? [=]]|].
      intros Hle. rewrite <- percent_change_value in Hle.
      apply Qle_bool_iff in Hle. congruence.
    + intros n [=].
Qed.

End PriceChannel.

(** C5.  The first priced call stores the price and returns nothing.  On a
    later call, against a non-zero stored price, a price notification is
    returned exactly when the absolute percent change reaches the threshold,
    and the stored price becomes the current price either way.  On the
    prices 1900.00, 1919.50, 1920.00 with threshold 0.5 the calls return
    nothing, a price notification with change 19.50, nothing; the stored
    price is then 1920.00, and a fourth call at 1925.00 (0.26 percent above
    1920.00, 1.3 percent above 1900.00) returns nothing. *)
Theorem check_price_movement_rebases_every_call
    (self : NotificationSystem.t) (p last : Q) :
  (NotificationSystem.last_price self = None ->
   NotificationSystem.check_price_movement self (Some p)
   = (NotificationSystem.set_last_price self p, NotificationSystem.Returned None))
  /\ (NotificationSystem.last_price self = Some last -> ~ (last == 0)%Q ->
      exists ev,
        NotificationSystem.check_price_movement self (Some p)
        = (NotificationSystem.set_last_price self p, NotificationSystem.Returned ev)
        /\ (is_Some ev <->
            (NotificationSystem.price_change_threshold self
             <= Qabs ((p - last) / last * 100))%Q)
        /\ (forall n, ev = Some n ->
              NotificationSystem.n_type n = "price"%string
              /\ exists change pct,
                   NotificationSystem.n_data n = NotificationSystem.PriceData p last change pct
                   /\ (change == p - last)%Q /\ (pct == (p - last) / last * 100)%Q))
  /\ (let ns0 := NotificationSystem.init 900 (1 # 2) 70 30 NotificationSystem.Missing in
      let r1 := NotificationSystem.check_price_movement ns0 (Some 1900%Q) in
      let r2 := NotificationSystem.check_price_movement r1.1 (Some (3839 # 2)) in
      let r3 := NotificationSystem.check_price_movement r2.1 (Some 1920%Q) in
      let r4 := NotificationSystem.check_price_movement r3.1 (Some 1925%Q) in
      r1.2 = NotificationSystem.Returned None
      /\ r2.2 = NotificationSystem.Returned
                  (Some (NotificationSystem.mkNotification "price" "Gold Price Up"
                           (NotificationSystem.PriceData (3839 # 2) 1900%Q (39 # 2) (39 # 38))))
      /\ r3.2 = NotificationSystem.Returned None
      /\ NotificationSystem.last_price r3.1 = Some 1920%Q
      /\ r4.2 = NotificationSystem.Returned None).
Proof.
  split; [|split].
  - intros H. unfold NotificationSystem.check_price_movement. now rewrite H.
  - apply check_price_movement_seeded.
  - vm_compute. repeat split; reflexivity.
Qed.

Lemma check_price_movement_rebases_every_call_witness :
  exists ev,
    NotificationSystem.check_price_movement
      (NotificationSystem.set_last_price
         (NotificationSystem.init 900 (1 # 2) 70 30 NotificationSystem.Missing) 1900%Q)
      (Some (3839 # 2))
    = (NotificationSystem.set_last_price
         (NotificationSystem.set_last_price
            (NotificationSystem.init 900 (1 # 2) 70 30 NotificationSystem.Missing) 1900%Q)
         (3839 # 2),
       NotificationSystem.Returned ev)
    /\ is_Some ev.
Proof.
  destruct (proj1 (proj2 (check_price_movement_rebases_every_call
              (NotificationSystem.set_last_price
                 (NotificationSystem.init 900 (1 # 2) 70 30 NotificationSystem.Missing) 1900%Q)
              (3839 # 2) 1900%Q)) eq_refl) as (ev & Hrun & Hiff & _).
  - intros H. vm_compute in H. discriminate.
  - exists ev. split; [exact Hrun|]. apply Hiff. vm_compute. discriminate.
Defined.

(** ** Alert state machine: signal channel *)

Section SignalChannel.

Import TechnicalAnalysis NotificationSystem SignalSpec.

Lemma check_technical_signals_unfold (self : NotificationSystem.t) (ta : TechnicalAnalysis.t) :
  check_technical_signals self ta
  = match summary_of ta with
    | None => (self, None)
    | Some s =>
        (set_last_signal self (signal_type s),
         match last_signal self with
         | None => None
         | Some last =>
             if bool_decide (signal_type s ≠ last) && bool_decide (signal_type s ≠ NEUTRAL)
             then Some (signal_notification s) else None
         end)
    end.
Proof.
  unfold check_technical_signals, summary_of.
  destruct (generate_signals ta) as [signals|]; [|reflexivity].
  destruct (df_empty signals); [reflexivity|].
  destruct (get_signal_summary ta (Some signals)) as [s|]; [|reflexivity].
  destruct (last_signal self) as [last|]; [|reflexivity].
  now destruct (bool_decide (signal_type s ≠ last) && bool_decide (signal_type s ≠ NEUTRAL)).
Qed.

Lemma signal_of_summary ta ty :
  signal_of ta = Some ty -> exists s, summary_of ta = Some s /\ signal_type s = ty.
Proof.
  unfold signal_of. destruct (summary_of ta) as [s|]; [|discriminate].
  intros [= <-]. eauto.
Qed.

Lemma check_technical_signals_step self ta ty :
  signal_of ta = Some ty ->
  exists ev,
    check_technical_signals self ta = (set_last_signal self ty, ev)
    /\ (is_Some ev <->
        exists last, last_signal self = Some last /\ ty ≠ last /\ ty ≠ NEUTRAL)
    /\ (forall n, ev = Some n ->
          n_type n = "signal"%string
          /\ exists s, n_data n = SignalData s /\ signal_type s = ty).
Proof.
  intros (s & Hs & <-)%signal_of_summary.
  rewrite check_technical_signals_unfold, Hs.
  eexists; split; [reflexivity|].
  destruct (last_signal self) as [last|].
  - destruct (bool_decide (signal_type s ≠ last)) eqn:E1;
      destruct (bool_decide (signal_type s ≠ NEUTRAL)) eqn:E2; simpl;
      try apply bool_decide_eq_true in E1; try apply bool_decide_eq_true in E2;
      try apply bool_decide_eq_false in E1; try apply bool_decide_eq_false in E2.
    + split; [split; eauto|]. intros n [= <-]. simpl. eauto.
    + split; [split; [intros [? [=]]|]|intros n [=]].
      intros (l & [= <-] & _ & H). contradiction.
    + split; [split; [intros [? [=]]|]|intros n [=]].
      intros (l & [= <-] & H & _). contradiction.
    + split; [split; [intros [? [=]]|]|intros n [=]].
      intros (l & [= <-] & H & _). contradiction.
  - split; [split; [intros [? [=]]|]|intros n [=]].
    intros (l & [=] & _).
Qed.

End SignalChannel.

(** C6.  A call that obtains a summary stores its signal type whatever the
    stored one was; it returns a signal notification exactly when a signal
    type was stored before, the new type differs from it and the new type is
    not NEUTRAL (so the first call returns nothing).  Five successive calls
    seeing BUY, BUY, SELL, NEUTRAL, SELL on a fresh object return a
    notification on the third and the fifth call only. *)
Theorem check_technical_signals_transitions
    (self : NotificationSystem.t) (ta : TechnicalAnalysis.t) :
  (forall ty, SignalSpec.signal_of ta = Some ty ->
     exists ev,
       NotificationSystem.check_technical_signals self ta
       = (NotificationSystem.set_last_signal self ty, ev)
       /\ (is_Some ev <->
           exists last, NotificationSystem.last_signal self = Some last
                        /\ ty ≠ last /\ ty ≠ TechnicalAnalysis.NEUTRAL)
       /\ (forall n, ev = Some n ->
             NotificationSystem.n_type n = "signal"%string
             /\ exists s, NotificationSystem.n_data n = NotificationSystem.SignalData s
                          /\ TechnicalAnalysis.signal_type s = ty))
  /\ (forall tas,
        NotificationSystem.last_signal self = None ->
        map SignalSpec.signal_of tas
        = [Some TechnicalAnalysis.BUY; Some TechnicalAnalysis.BUY;
           Some TechnicalAnalysis.SELL; Some TechnicalAnalysis.NEUTRAL;
           Some TechnicalAnalysis.SELL] ->
        SignalSpec.emitted (SignalSpec.run_signal_checks self tas).2
        = [false; false; true; false; true]
        /\ NotificationSystem.last_signal (SignalSpec.run_signal_checks self tas).1
           = Some TechnicalAnalysis.SELL).
Proof.
  split; [intros ty; apply check_technical_signals_step|].
  intros tas Hseed Hseq.
  destruct tas as [|t1 [|t2 [|t3 [|t4 [|t5 [|]]]]]]; try discriminate.
  injection Hseq as H1 H2 H3 H4 H5.
  apply signal_of_summary in H1 as (s1 & H1 & T1), H2 as (s2 & H2 & T2),
    H3 as (s3 & H3 & T3), H4 as (s4 & H4 & T4), H5 as (s5 & H5 & T5).
  simpl.
  rewrite !check_technical_signals_unfold, H1, Hseed.
  rewrite !check_technical_signals_unfold, H2. simpl.
  rewrite !check_technical_signals_unfold, H3. simpl.
  rewrite !check_technical_signals_unfold, H4. simpl.
  rewrite !check_technical_signals_unfold, H5. simpl.
  rewrite T1, T2, T3, T4, T5. split; reflexivity.
Qed.

Lemma check_technical_signals_transitions_witness :
  SignalSpec.emitted
    (SignalSpec.run_signal_checks SignalSpec.fresh
       [SignalSpec.ta_up; SignalSpec.ta_up; SignalSpec.ta_down; SignalSpec.ta_flat;
        SignalSpec.ta_down]).2
  = [false; false; true; false; true]
  /\ NotificationSystem.last_signal
       (SignalSpec.run_signal_checks SignalSpec.fresh
          [SignalSpec.ta_up; SignalSpec.ta_up; SignalSpec.ta_down; SignalSpec.ta_flat;
           SignalSpec.ta_down]).1
     = Some TechnicalAnalysis.SELL.
Proof.
  apply (proj2 (check_technical_signals_transitions SignalSpec.fresh SignalSpec.ta_up)).
  - reflexivity.
  - vm_compute. reflexivity.
Defined.

(** ** Alert state machine: news channel *)

(** C1, the code at the failing input.  After a first call on the items A
    and B, a second call on A alone finds no new id and returns before the
    stored ids are assigned: they still hold B, and a third call on A and B
    reports nothing. *)
Lemma check_news_keeps_stale_ids :
  let r := NewsSpec.run_news_checks HistorySpec.fresh
             [[NewsSpec.article_a; NewsSpec.article_b];
              [NewsSpec.article_a];
              [NewsSpec.article_a; NewsSpec.article_b]] in
  let after_second :=
    (NewsSpec.run_news_checks HistorySpec.fresh
       [[NewsSpec.article_a; NewsSpec.article_b]; [NewsSpec.article_a]]).1 in
  r.2 = [[]; []; []]
  /\ NotificationSystem.last_news_ids after_second
     = NewsSpec.current_ids [NewsSpec.article_a; NewsSpec.article_b]
  /\ NotificationSystem.last_news_ids after_second
     ≠ NewsSpec.current_ids [NewsSpec.article_a].
Proof.
  split; [vm_compute; reflexivity|]. split; [vm_compute; reflexivity|].
  intros H.
  assert (Hin : NotificationSystem.news_id NewsSpec.article_b
                ∈ NewsSpec.current_ids [NewsSpec.article_a]).
  { rewrite <- H. apply (bool_decide_eq_true_1 _). vm_compute. reflexivity. }
  revert Hin. apply (bool_decide_eq_false_1 _). vm_compute. reflexivity.
Qed.

(** ** Notification history *)

Section History.

Import NotificationSystem HistorySpec.

Lemma length_last_n {A : Type} (k : nat) (l : list A) :
  length (last_n k l) = Nat.min k (length l).
Proof. unfold last_n. rewrite length_drop. lia. Qed.

Lemma last_n_suffix {A : Type} (k : nat) (l : list A) :
  take (length l - k) l ++ last_n k l = l.
Proof. apply take_drop. Qed.

Lemma add_notification_stored_count self disk w n :
  (stored_count disk <= 100)%nat ->
  (stored_count (add_notification self disk w n).1.2 <= 100)%nat.
Proof.
  intros H. destruct n as [n|]; [|exact H].
  destruct w; simpl; unfold stored_count; simpl.
  - rewrite length_last_n. lia.
  - exact H.
  - lia.
Qed.

Lemma run_adds_spec calls : forall self disk,
  (stored_count disk <= 100)%nat ->
  (stored_count (run_adds self disk calls).2 <= 100)%nat
  /\ length (notifications_history (run_adds self disk calls).1)
     = (length (notifications_history self) + appended calls)%nat.
Proof.
  induction calls as [|[w n] calls IH]; intros self disk H; simpl.
  - split; [exact H|]. unfold appended. simpl. lia.
  - pose proof (add_notification_stored_count self disk w n H) as H'.
    destruct (add_notification self disk w n) as [[self' disk'] b] eqn:E.
    simpl in H'. destruct (IH self' disk' H') as [IH1 IH2].
    split; [exact IH1|]. rewrite IH2.
    unfold appended. simpl.
    destruct n as [n|]; simpl in E; injection E as <- <- <-; simpl.
    + rewrite length_app. simpl. lia.
    + lia.
Qed.

End History.

(** C4, as stated, fails: 101 successful appends on an empty history leave
    101 entries in the object's history. *)
Lemma history_in_memory_counterexample :
  ~ HistorySpec.history_bounded HistorySpec.fresh NotificationSystem.Missing
      (replicate 101 (NotificationSystem.WriteOk, Some HistorySpec.sample_notification)).
Proof.
  intros [H _]. vm_compute in H. lia.
Qed.

(** C4, amended.  Whatever the sequence of add_notification calls and
    whatever happens to each write, the stored history never exceeds 100
    entries once it started within the bound: a successful write stores the
    100 most recent entries of the object's history, the oldest being the
    ones left out.  The history held by the object is not cut: it gains one
    entry per call that passes a notification. *)
Theorem add_notification_bounds_stored_history
    (self : NotificationSystem.t) (disk : NotificationSystem.storage)
    (calls : list (NotificationSystem.write_outcome * option NotificationSystem.notification)) :
  (HistorySpec.stored_count disk <= 100)%nat ->
  (HistorySpec.stored_count (HistorySpec.run_adds self disk calls).2 <= 100)%nat
  /\ length (NotificationSystem.notifications_history (HistorySpec.run_adds self disk calls).1)
     = (length (NotificationSystem.notifications_history self) + HistorySpec.appended calls)%nat
  /\ (forall n,
        let h := NotificationSystem.notifications_history self ++ [n] in
        NotificationSystem.add_notification self disk NotificationSystem.WriteOk (Some n)
        = (NotificationSystem.set_notifications_history self h,
           NotificationSystem.Stored (NotificationSystem.last_n 100 h), true)
        /\ take (length h - 100) h ++ NotificationSystem.last_n 100 h = h
        /\ length (NotificationSystem.last_n 100 h) = Nat.min 100 (length h)).
Proof.
  intros H. destruct (run_adds_spec calls self disk H) as [H1 H2].
  split; [exact H1|]. split; [exact H2|].
  intros n h. split; [reflexivity|]. split.
  - apply last_n_suffix.
  - apply length_last_n.
Qed.

Lemma add_notification_bounds_stored_history_witness :
  (HistorySpec.stored_count
     (HistorySpec.run_adds HistorySpec.fresh NotificationSystem.Missing
        (replicate 101 (NotificationSystem.WriteOk, Some HistorySpec.sample_notification))).2
   <= 100)%nat.
Proof.
  refine (proj1 (add_notification_bounds_stored_history HistorySpec.fresh
                   NotificationSystem.Missing
                   (replicate 101 (NotificationSystem.WriteOk,
                                   Some HistorySpec.sample_notification)) _)).
  vm_compute. lia.
Defined.

(** ** Insufficient data *)

Section ShortSeries.

Import TechnicalAnalysis NotificationSystem.

Lemma moving_averages_need_200 (d : list bar) :
  (length d < 200)%nat -> calculate_moving_averages (Some d) default_periods = None.
Proof.
  intros H. unfold calculate_moving_averages.
  change (max_list default_periods) with 200%nat.
  now apply Nat.ltb_lt in H as ->.
Qed.

Lemma generate_signals_short (d : list bar) :
  (length d < 200)%nat -> generate_signals (Some d) = None.
Proof.
  intros H. unfold generate_signals.
  rewrite (moving_averages_need_200 d H).
  destruct (calculate_rsi (Some d) 14); [|reflexivity].
  now destruct (calculate_macd (Some d) 12 26 9) as [[[? ?] ?]|].
Qed.

End ShortSeries.

(** C10.  On a series of fewer than 200 bars, generate_signals returns
    nothing, and check_technical_signals returns no notification and leaves
    the object as it was, whether or not a signal type was stored before. *)
Theorem short_series_no_signal_no_seed (d : list TechnicalAnalysis.bar) :
  (length d < 200)%nat ->
  TechnicalAnalysis.generate_signals (Some d) = None
  /\ forall self : NotificationSystem.t,
       NotificationSystem.check_technical_signals self (Some d) = (self, None).
Proof.
  intros H. pose proof (generate_signals_short d H) as Hg.
  split; [exact Hg|].
  intros self. unfold NotificationSystem.check_technical_signals. now rewrite Hg.
Qed.

Lemma short_series_no_signal_no_seed_witness :
  TechnicalAnalysis.generate_signals (Some (SignalSpec.ticked 49 1001)) = None
  /\ forall self : NotificationSystem.t,
       NotificationSystem.check_technical_signals self (Some (SignalSpec.ticked 49 1001))
       = (self, None).
Proof.
  apply (short_series_no_signal_no_seed (SignalSpec.ticked 49 1001)).
  vm_compute. lia.
Defined.

(** ** Signal summary: closest levels *)

Section Levels.

Import TechnicalAnalysis LevelsSpec.

Lemma Qltb_lt (x y : Q) : Qltb x y = true <-> (x < y)%Q.
Proof.
  unfold Qltb. rewrite negb_true_iff. split.
  - intros H. apply Qnot_le_lt. intros Hle. apply Qle_bool_iff in Hle. congruence.
  - intros H. destruct (Qle_bool y x) eqn:E; [|reflexivity].
    apply Qle_bool_iff in E. exfalso. exact (Qlt_not_le _ _ H E).
Qed.

Lemma Qltb_ge (x y : Q) : Qltb x y = false <-> (y <= x)%Q.
Proof.
  unfold Qltb. rewrite negb_false_iff. apply Qle_bool_iff.
Qed.

Lemma foldl_max_spec (t : list Q) : forall best,
  let m := foldl (fun best y => if Qltb best y then y else best) best t in
  In m (best :: t) /\ forall x, In x (best :: t) -> (x <= m)%Q.
Proof.
  induction t as [|y t IH]; intros best; simpl.
  - split; [now left|]. intros x [<-|[]]. apply Qle_refl.
  - destruct (Qltb best y) eqn:E.
    + destruct (IH y) as [Hin Hmax]. split.
      * right. exact Hin.
      * intros x [<-|Hx]; [|now apply Hmax].
        apply Qltb_lt in E. apply Qle_trans with y; [now apply Qlt_le_weak|].
        apply Hmax. now left.
    + destruct (IH best) as [Hin Hmax]. split.
      * destruct Hin as [<-|Hin]; [now left|right; now right].
      * intros x [<-|[<-|Hx]].
        -- apply Hmax. now left.
        -- apply Qltb_ge in E. apply Qle_trans with best; [exact E|].
           apply Hmax. now left.
        -- apply Hmax. now right.
Qed.

Lemma foldl_min_spec (t : list Q) : forall best,
  let m := foldl (fun best y => if Qltb y best then y else best) best t in
  In m (best :: t) /\ forall x, In x (best :: t) -> (m <= x)%Q.
Proof.
  induction t as [|y t IH]; intros best; simpl.
  - split; [now left|]. intros x [<-|[]]. apply Qle_refl.
  - destruct (Qltb y best) eqn:E.
    + destruct (IH y) as [Hin Hmin]. split.
      * right. exact Hin.
      * intros x [<-|Hx]; [|now apply Hmin].
        apply Qltb_lt in E. apply Qle_trans with y; [|now apply Qlt_le_weak].
        apply Hmin. now left.
    + destruct (IH best) as [Hin Hmin]. split.
      * destruct Hin as [<-|Hin]; [now left|right; now right].
      * intros x [<-|[<-|Hx]].
        -- apply Hmin. now left.
        -- apply Qltb_ge in E. apply Qle_trans with best; [|exact E].
           apply Hmin. now left.
        -- apply Hmin. now right.
Qed.

Lemma py_max_below (supports : list Q) (p : Q) :
  is_closest_support supports p
    (py_max (List.filter (fun level => flt (Num level) (Num p)) supports)).
Proof.
  unfold py_max.
  destruct (List.filter _ supports) as [|x t] eqn:E; simpl.
  - intros y Hy Hlt.
    assert (Hin : In y (List.filter (fun level => flt (Num level) (Num p)) supports))
      by (apply filter_In; split; [exact Hy|now apply Qltb_lt]).
    rewrite E in Hin. destruct Hin.
  - destruct (foldl_max_spec t x) as [Hin Hmax].
    rewrite <- E in Hin, Hmax.
    apply filter_In in Hin as [Hin Hlt]. split; [exact Hin|]. split.
    + now apply Qltb_lt.
    + intros y Hy Hyp. apply Hmax. apply filter_In. split; [exact Hy|now apply Qltb_lt].
Qed.

Lemma py_min_above (resistances : list Q) (p : Q) :
  is_closest_resistance resistances p
    (py_min (List.filter (fun level => fgt (Num level) (Num p)) resistances)).
Proof.
  unfold py_min.
  destruct (List.filter _ resistances) as [|x t] eqn:E; simpl.
  - intros y Hy Hlt.
    assert (Hin : In y (List.filter (fun level => fgt (Num level) (Num p)) resistances))
      by (apply filter_In; split; [exact Hy|now apply Qltb_lt]).
    rewrite E in Hin. destruct Hin.
  - destruct (foldl_min_spec t x) as [Hin Hmin].
    rewrite <- E in Hin, Hmin.
    apply filter_In in Hin as [Hin Hlt]. split; [exact Hin|]. split.
    + now apply Qltb_lt.
    + intros y Hy Hyp. apply Hmin. apply filter_In. split; [exact Hy|now apply Qltb_lt].
Qed.

(** The summary's support/resistance entries are [find_levels] of the
    identified levels at the summary's price. *)
Lemma summary_levels ta signals s :
  get_signal_summary ta signals = Some s ->
  sr s = find_levels (identify_support_resistance ta 10) (price s).
Proof.
  unfold get_signal_summary.
  destruct ta as [d|]; [|discriminate].
  destruct (match signals with None => _ | Some s0 => _ end) as [sig|]; [|discriminate].
  destruct (df_empty sig); [discriminate|].
  destruct (latest sig "Signal"); [|discriminate]. simpl.
  destruct (latest sig "Close"); [|discriminate]. simpl.
  destruct (latest sig "RSI"); [|discriminate]. simpl.
  destruct (latest sig "MACD"); [|discriminate]. simpl.
  destruct (latest sig "MACD_Signal"); [|discriminate]. simpl.
  destruct (latest sig "MACD_Histogram"); [|discriminate]. simpl.
  now intros [= <-].
Qed.

End Levels.

(** C8, as stated, fails: on the V-shaped series the one support level, 500,
    lies strictly below the price 1000, yet the summary carries no closest
    support, because no resistance level was identified. *)
Lemma closest_levels_counterexample :
  ~ LevelsSpec.closest_levels_independent LevelsSpec.v_series.
Proof.
  intros H.
  assert (Hsr : TechnicalAnalysis.identify_support_resistance LevelsSpec.v_series 10
                = Some ([500%Q], [])) by (vm_compute; reflexivity).
  assert (Hs : (fun s => (TechnicalAnalysis.price s, TechnicalAnalysis.sr s))
                 <$> TechnicalAnalysis.get_signal_summary LevelsSpec.v_series None
               = Some (Num 1000, None)) by (vm_compute; reflexivity).
  destruct (TechnicalAnalysis.get_signal_summary LevelsSpec.v_series None) as [s|] eqn:E;
    [|discriminate].
  simpl in Hs. injection Hs as Hprice Hnone.
  destruct (H s [500%Q] [] 1000%Q E Hsr Hprice) as [Hsup _].
  unfold LevelsSpec.summary_closest_support in Hsup. rewrite Hnone in Hsup.
  simpl in Hsup. apply (Hsup 500%Q); [now left|reflexivity].
Qed.

(** C8, amended.  In a summary with a finite price: when both a support and
    a resistance level were identified, closest_support is the maximum
    support level strictly below the price (absent when none is) and
    closest_resistance is the minimum resistance level strictly above it
    (absent when none is); when no level of one of the two kinds was
    identified, or the series is too short to identify levels, neither entry
    is written. *)
Theorem closest_levels_need_both_kinds
    (ta : TechnicalAnalysis.t) (signals : option (gmap string (list fval)))
    (s : TechnicalAnalysis.summary) (p : Q) :
  TechnicalAnalysis.get_signal_summary ta signals = Some s ->
  TechnicalAnalysis.price s = Num p ->
  match TechnicalAnalysis.identify_support_resistance ta 10 with
  | Some (x :: supports, y :: resistances) =>
      exists lv,
        TechnicalAnalysis.sr s = Some lv
        /\ TechnicalAnalysis.support_levels lv = x :: supports
        /\ TechnicalAnalysis.resistance_levels lv = y :: resistances
        /\ LevelsSpec.is_closest_support (x :: supports) p
             (TechnicalAnalysis.closest_support lv)
        /\ LevelsSpec.is_closest_resistance (y :: resistances) p
             (TechnicalAnalysis.closest_resistance lv)
  | _ => TechnicalAnalysis.sr s = None
  end.
Proof.
  intros Hs Hp. rewrite (summary_levels ta signals s Hs), Hp.
  destruct (TechnicalAnalysis.identify_support_resistance ta 10)
    as [[[|x supports] [|y resistances]]|]; try reflexivity.
  unfold TechnicalAnalysis.find_levels.
  rewrite !bool_decide_eq_false_2 by discriminate. simpl negb. cbv iota. simpl andb. cbv iota.
  eexists. split; [reflexivity|]. simpl.
  split; [reflexivity|]. split; [reflexivity|]. split.
  - apply (py_max_below (x :: supports) p).
  - apply (py_min_above (y :: resistances) p).
Qed.

Lemma closest_levels_need_both_kinds_witness :
  exists s lv,
    TechnicalAnalysis.get_signal_summary SignalSpec.ta_up None = Some s
    /\ TechnicalAnalysis.sr s = Some lv
    /\ LevelsSpec.is_closest_support (TechnicalAnalysis.support_levels lv) 1001
         (TechnicalAnalysis.closest_support lv)
    /\ LevelsSpec.is_closest_resistance (TechnicalAnalysis.resistance_levels lv) 1001
         (TechnicalAnalysis.closest_resistance lv).
Proof.
  assert (Hp : TechnicalAnalysis.price
                 <$> TechnicalAnalysis.get_signal_summary SignalSpec.ta_up None
               = Some (Num 1001)) by (vm_compute; reflexivity).
  destruct (TechnicalAnalysis.get_signal_summary SignalSpec.ta_up None) as [s|] eqn:E;
    [|discriminate].
  simpl in Hp. injection Hp as Hp.
  pose proof (closest_levels_need_both_kinds SignalSpec.ta_up None s 1001 E Hp) as H.
  assert (Hsr : exists x supports y resistances,
             TechnicalAnalysis.identify_support_resistance SignalSpec.ta_up 10
             = Some (x :: supports, y :: resistances))
    by (vm_compute; do 4 eexists; reflexivity).
  destruct Hsr as (x & supports & y & resistances & Hsr). rewrite Hsr in H.
  destruct H as (lv & Hlv & Hsup & Hres & H1 & H2).
  exists s, lv. rewrite Hsup, Hres. auto.
Defined.

(** ** Relative strength index *)

Section Rsi.

Import TechnicalAnalysis RsiSpec.

Lemma lookup_map {A B : Type} (f : A -> B) (l : list A) (i : nat) :
  map f l !! i = f <$> (l !! i).
Proof. exact (list_lookup_fmap f l i). Qed.

Lemma diff_from_shape (s : Series) : forall prev,
  is_num prev -> Forall is_num s -> Forall num_or_nan (diff_from prev s).
Proof.
  induction s as [|x s IH]; intros prev [p ->] Hs; simpl; [constructor|].
  inversion Hs as [|? ? [q ->] Hs']; subst. constructor.
  - right. eexists. reflexivity.
  - apply IH; [eexists; reflexivity|exact Hs'].
Qed.

Lemma diff_shape (s : Series) : Forall is_num s -> Forall num_or_nan (diff s).
Proof.
  destruct s as [|x s]; intros Hs; simpl; [constructor|].
  inversion Hs as [|? ? Hx Hs']; subst. constructor; [now left|].
  now apply diff_from_shape.
Qed.

Lemma length_diff_from (s : Series) : forall prev, length (diff_from prev s) = length s.
Proof. induction s as [|x s IH]; intros prev; simpl; [reflexivity|]. now rewrite IH. Qed.

Lemma length_diff (s : Series) : length (diff s) = length s.
Proof. destruct s; simpl; [reflexivity|]. now rewrite length_diff_from. Qed.

Lemma close_col_is_num (d : list bar) : Forall is_num (close_col d).
Proof.
  unfold close_col. induction d as [|b d IH]; simpl; constructor; [|exact IH].
  eexists. reflexivity.
Qed.

Lemma Qred_opp_zero_nonneg : (0 <= Qred (- 0))%Q.
Proof. rewrite Qred_correct. discriminate. Qed.

Lemma gain_nonneg (delta : Series) :
  Forall num_or_nan delta ->
  Forall nonneg (where_ (fun x => fgt x (Num 0)) (Num 0) delta).
Proof.
  unfold where_. induction 1 as [|x delta Hx _ IH]; simpl; constructor; [|exact IH].
  destruct Hx as [->|[q ->]]; simpl.
  - exists 0%Q. split; [reflexivity|apply Qle_refl].
  - unfold fgt, flt. destruct (Qltb 0 q) eqn:E.
    + exists q. split; [reflexivity|]. apply Qlt_le_weak. now apply Qltb_lt.
    + exists 0%Q. split; [reflexivity|apply Qle_refl].
Qed.

Lemma loss_nonneg (delta : Series) :
  Forall num_or_nan delta ->
  Forall nonneg (map fneg (where_ (fun x => flt x (Num 0)) (Num 0) delta)).
Proof.
  unfold where_. induction 1 as [|x delta Hx _ IH]; simpl; constructor; [|exact IH].
  destruct Hx as [->|[q ->]]; simpl.
  - eexists. split; [reflexivity|apply Qred_opp_zero_nonneg].
  - destruct (Qltb q 0) eqn:E; simpl.
    + eexists. split; [reflexivity|]. rewrite Qred_correct.
      apply Qltb_lt in E. apply Qlt_le_weak in E.
      apply Qopp_le_compat in E. exact E.
    + eexists. split; [reflexivity|apply Qred_opp_zero_nonneg].
Qed.

Lemma fsum_nonneg (l : Series) : Forall nonneg l -> nonneg (fsum l).
Proof.
  unfold fsum. induction 1 as [|x l (q & -> & Hq) _ (r & IH & Hr)]; simpl.
  - exists 0%Q. split; [reflexivity|apply Qle_refl].
  - rewrite IH. simpl. eexists. split; [reflexivity|].
    rewrite Qred_correct.
    replace 0%Q with (0 + 0)%Q by reflexivity. now apply Qplus_le_compat.
Qed.

Lemma observations_all (l : Series) :
  Forall nonneg l -> filter (fun x => is_nan x = false) l = l.
Proof.
  induction 1 as [|x l (q & -> & _) _ IH]; [reflexivity|].
  rewrite filter_cons_True by reflexivity. now f_equal.
Qed.

Lemma window_nonneg (w i : nat) (s : Series) :
  Forall nonneg s -> Forall nonneg (window w s i).
Proof. intros H. unfold window. now apply Forall_take, Forall_drop. Qed.

Lemma length_window (w i : nat) (s : Series) :
  (i < length s)%nat -> length (window w s i) = Nat.min w (S i).
Proof. intros H. unfold window. rewrite length_take, length_drop. lia. Qed.

Lemma rolling_mean_lookup (w i : nat) (s : Series) :
  (i < length s)%nat ->
  rolling_mean w s !! i = Some (window_mean w (window w s i)).
Proof.
  intros H. unfold rolling_mean. rewrite lookup_map.
  now rewrite (lookup_seq_lt 0 (length s) i H).
Qed.

Lemma rolling_mean_length (w : nat) (s : Series) : length (rolling_mean w s) = length s.
Proof. unfold rolling_mean. now rewrite length_map, length_seq. Qed.

Lemma inject_Z_of_nat_pos (n : nat) : (0 < n)%nat -> (0 < inject_Z (Z.of_nat n))%Q.
Proof.
  intros H. replace 0%Q with (inject_Z 0) by reflexivity.
  rewrite <- Zlt_Qlt. lia.
Qed.

(** Over finite non-negative entries, the rolling mean at bar [i] is a
    finite non-negative number when the window is full, NaN otherwise. *)
Lemma rolling_mean_nonneg (w i : nat) (s : Series) :
  Forall nonneg s -> (i < length s)%nat ->
  ((0 < w <= S i)%nat -> exists m, rolling_mean w s !! i = Some (Num m) /\ (0 <= m)%Q)
  /\ (~ (0 < w <= S i)%nat -> rolling_mean w s !! i = Some NaN).
Proof.
  intros Hs Hi. rewrite (rolling_mean_lookup w i s Hi).
  pose proof (window_nonneg w i s Hs) as Hwin.
  pose proof (length_window w i s Hi) as Hlen.
  unfold window_mean. rewrite (observations_all _ Hwin), Hlen.
  split.
  - intros [Hw0 Hwi].
    destruct (fsum_nonneg _ Hwin) as (q & -> & Hq).
    rewrite Nat.min_l by lia.
    rewrite Nat.ltb_irrefl. unfold of_Z, fdiv.
    pose proof (inject_Z_of_nat_pos w Hw0) as Hpos.
    destruct (Qeq_bool (inject_Z (Z.of_nat w)) 0) eqn:E.
    + apply Qeq_bool_iff in E. rewrite E in Hpos. now apply Qlt_irrefl in Hpos.
    + eexists. split; [reflexivity|]. rewrite Qred_correct.
      apply Qle_shift_div_l; [exact Hpos|]. now rewrite Qmult_0_l.
  - intros Hw.
    destruct (Nat.ltb_spec (Nat.min w (S i)) w) as [_|Hge]; [reflexivity|].
    assert (w = 0)%nat as -> by lia. reflexivity.
Qed.

Lemma rsi_columns_lengths (d : list bar) (period : nat) :
  length (rsi_columns d period).1.1 = length d
  /\ length (rsi_columns d period).1.2 = length d.
Proof.
  unfold rsi_columns, where_. cbn [fst snd].
  rewrite !rolling_mean_length, !length_map, length_diff.
  unfold close_col. now rewrite length_map.
Qed.

Lemma rsi_formula_bounds (ag al : Q) :
  (0 <= ag)%Q -> (0 < al)%Q ->
  exists r,
    fsub (Num 100) (fdiv (Num 100) (fadd (Num 1) (fdiv (Num ag) (Num al)))) = Num r
    /\ (0 <= r <= 100)%Q.
Proof.
  intros Hag Hal. unfold fdiv at 2.
  destruct (Qeq_bool al 0) eqn:E.
  { apply Qeq_bool_iff in E. rewrite E in Hal. now apply Qlt_irrefl in Hal. }
  set (rs := Qred (ag / al)).
  assert (Hrs : (0 <= rs)%Q).
  { unfold rs. rewrite Qred_correct. apply Qle_shift_div_l; [exact Hal|].
    now rewrite Qmult_0_l. }
  simpl fadd. set (den := Qred (1 + rs)).
  assert (Hden : (1 <= den)%Q).
  { unfold den. rewrite Qred_correct. lra. }
  unfold fdiv.
  destruct (Qeq_bool den 0) eqn:E'.
  { apply Qeq_bool_iff in E'. rewrite E' in Hden. lra. }
  unfold fsub, fneg, fadd. eexists. split; [reflexivity|].
  rewrite !Qred_correct.
  assert (Hq1 : (0 <= 100 / den)%Q).
  { apply Qle_shift_div_l; [lra|]. lra. }
  assert (Hq2 : (100 / den <= 100)%Q).
  { apply Qle_shift_div_r; [lra|]. nra. }
  split; lra.
Qed.

Lemma rsi_formula_no_loss (ag al : Q) :
  (0 < ag)%Q -> (al == 0)%Q ->
  fsub (Num 100) (fdiv (Num 100) (fadd (Num 1) (fdiv (Num ag) (Num al)))) = Num 100.
Proof.
  intros Hag Hal. unfold fdiv at 2.
  apply Qeq_bool_iff in Hal. rewrite Hal.
  destruct (Qeq_bool ag 0) eqn:E.
  { apply Qeq_bool_iff in E. rewrite E in Hag. now apply Qlt_irrefl in Hag. }
  apply Qltb_lt in Hag. rewrite Hag. reflexivity.
Qed.

End Rsi.

(** C9.  On a series long enough for calculate_rsi to return, at every bar
    where the average loss is a positive number the RSI is a number between
    0 and 100, and at every bar where the average loss is zero and the
    average gain is positive the RSI is 100. *)
Theorem rsi_within_bounds (d : list TechnicalAnalysis.bar) (period i : nat) (al : Q) :
  (period + 1 <= length d)%nat ->
  (TechnicalAnalysis.rsi_columns d period).1.2 !! i = Some (Num al) ->
  exists rsi ag,
    TechnicalAnalysis.calculate_rsi (Some d) period = Some rsi
    /\ (TechnicalAnalysis.rsi_columns d period).1.1 !! i = Some (Num ag)
    /\ ((0 < al)%Q -> exists r, rsi !! i = Some (Num r) /\ (0 <= r <= 100)%Q)
    /\ ((al == 0)%Q -> (0 < ag)%Q -> rsi !! i = Some (Num 100)).
Proof.
  intros Hlen Hal.
  unfold TechnicalAnalysis.calculate_rsi.
  destruct (Nat.ltb_spec (length d) (period + 1)) as [?|_]; [lia|].
  pose proof (diff_shape _ (close_col_is_num d)) as Hdelta.
  pose proof (gain_nonneg _ Hdelta) as Hgain.
  pose proof (loss_nonneg _ Hdelta) as Hloss.
  unfold TechnicalAnalysis.rsi_columns in *. cbn [fst snd] in *.
  set (gain := where_ (fun x => fgt x (Num 0)) (Num 0)
                 (diff (TechnicalAnalysis.close_col d))) in *.
  set (loss := map fneg (where_ (fun x => flt x (Num 0)) (Num 0)
                 (diff (TechnicalAnalysis.close_col d)))) in *.
  assert (Hi : (i < length loss)%nat).
  { apply lookup_lt_Some in Hal. now rewrite rolling_mean_length in Hal. }
  assert (Hlg : length gain = length loss).
  { unfold gain, loss, where_. now rewrite !length_map. }
  destruct (rolling_mean_nonneg period i loss Hloss Hi) as [Hfull Hpart].
  assert (Hw : (0 < period <= S i)%nat).
  { destruct (decide (0 < period <= S i)%nat) as [H|H]; [exact H|].
    rewrite (Hpart H) in Hal. discriminate. }
  destruct (rolling_mean_nonneg period i gain Hgain ltac:(lia)) as [Hgfull _].
  destruct (Hgfull Hw) as (ag & Hag & Hag0).
  eexists _, ag. split; [reflexivity|]. split; [exact Hag|].
  rewrite lookup_map. unfold div_cols. rewrite lookup_zip_with, Hag, Hal.
  cbn -[fsub fdiv fadd].
  split.
  - intros Hpos. destruct (rsi_formula_bounds ag al Hag0 Hpos) as (r & -> & Hr).
    eauto.
  - intros Hz Hpos. now rewrite (rsi_formula_no_loss ag al Hpos Hz).
Qed.

Lemma rsi_within_bounds_witness :
  exists rsi ag,
    TechnicalAnalysis.calculate_rsi (Some (SignalSpec.ticked 20 999)) 14 = Some rsi
    /\ (TechnicalAnalysis.rsi_columns (SignalSpec.ticked 20 999) 14).1.1 !! 20%nat
       = Some (Num ag)
    /\ ((0 < 1 # 14)%Q -> exists r, rsi !! 20%nat = Some (Num r) /\ (0 <= r <= 100)%Q)
    /\ ((1 # 14 == 0)%Q -> (0 < ag)%Q -> rsi !! 20%nat = Some (Num 100)).
Proof.
  apply (rsi_within_bounds (SignalSpec.ticked 20 999) 14 20 (1 # 14)).
  - vm_compute. lia.
  - vm_compute. reflexivity.
Defined.
(** ** Composite signal *)

Section Frames.

Import TechnicalAnalysis.

Implicit Types (df : DataFrame) (k : string) (v : list fval).

Lemma col_assign_eq k v df : col (assign k v df) k = v.
Proof. unfold col, assign. now rewrite lookup_insert_eq. Qed.

Lemma col_assign_ne k k' v df : k ≠ k' -> col (assign k v df) k' = col df k'.
Proof. intros H. unfold col, assign. now rewrite lookup_insert_ne. Qed.

Lemma has_col_assign_eq k v df : has_col (assign k v df) k = true.
Proof.
  unfold has_col, assign. apply bool_decide_eq_true_2.
  rewrite lookup_insert_eq. eauto.
Qed.

Lemma has_col_assign_ne k k' v df :
  k ≠ k' -> has_col (assign k v df) k' = has_col df k'.
Proof. intros H. unfold has_col, assign. now rewrite lookup_insert_ne. Qed.

Lemma col_loc_assign_eq mask k (x : fval) df :
  col (loc_assign mask k x df) k = loc_set (mask df) x (col df k).
Proof. apply col_assign_eq. Qed.

Lemma col_loc_assign_ne mask k k' (x : fval) df :
  k ≠ k' -> col (loc_assign mask k x df) k' = col df k'.
Proof. apply col_assign_ne. Qed.

Lemma has_col_loc_assign_eq mask k (x : fval) df :
  has_col (loc_assign mask k x df) k = true.
Proof. apply has_col_assign_eq. Qed.

Lemma has_col_loc_assign_ne mask k k' (x : fval) df :
  k ≠ k' -> has_col (loc_assign mask k x df) k' = has_col df k'.
Proof. apply has_col_assign_ne. Qed.

Lemma col_add_assign_eq k other df :
  col (add_assign k other df) k = add_cols (col df k) (col df other).
Proof. apply col_assign_eq. Qed.

Lemma col_add_assign_ne k k' other df :
  k ≠ k' -> col (add_assign k other df) k' = col df k'.
Proof. apply col_assign_ne. Qed.

Lemma has_col_add_assign_eq k other df : has_col (add_assign k other df) k = true.
Proof. apply has_col_assign_eq. Qed.

Lemma has_col_add_assign_ne k k' other df :
  k ≠ k' -> has_col (add_assign k other df) k' = has_col df k'.
Proof. apply has_col_assign_ne. Qed.

Lemma when_cols_true names body df :
  forallb (has_col df) names = true -> when_cols names body df = body df.
Proof. intros H. unfold when_cols. now rewrite H. Qed.

Lemma normalize_three df :
  has_col df "RSI_Signal" = true ->
  has_col df "MACD_Cross_Signal" = true ->
  has_col df "MA_Cross_Signal" = true ->
  col (normalize_signal df) "Signal"
  = map (fun x => fdiv x (of_Z 3)) (col df "Signal").
Proof.
  intros H1 H2 H3. unfold normalize_signal, sub_signal_names.
  cbn [List.filter]. rewrite H1, H2, H3. cbn [length Nat.ltb Nat.leb].
  apply col_assign_eq.
Qed.

Lemma union_assign k v (m : DataFrame) df : assign k v m ∪ df = assign k v (m ∪ df).
Proof. unfold assign. now rewrite insert_union_l. Qed.

Lemma union_empty_frame df : (∅ : DataFrame) ∪ df = df.
Proof. apply (left_id_L ∅ (∪)). Qed.

Lemma ma_names : ma_name 20 = "MA20"%string /\ ma_name 50 = "MA50"%string
                 /\ ma_name 200 = "MA200"%string.
Proof. vm_compute. auto. Qed.

End Frames.

(** Resolve column reads and column tests along a chain of assignments. *)
Ltac frame :=
  repeat first
    [ rewrite has_col_assign_eq
    | rewrite has_col_loc_assign_eq
    | rewrite has_col_add_assign_eq
    | rewrite has_col_assign_ne by discriminate
    | rewrite has_col_loc_assign_ne by discriminate
    | rewrite has_col_add_assign_ne by discriminate
    | rewrite col_assign_eq
    | rewrite col_loc_assign_eq
    | rewrite col_add_assign_eq
    | rewrite col_assign_ne by discriminate
    | rewrite col_loc_assign_ne by discriminate
    | rewrite col_add_assign_ne by discriminate ].

Section Composite.

Import TechnicalAnalysis CompositeSpec.

Lemma generate_signals_long (d : list bar) :
  (200 <= length d)%nat ->
  exists signals rsi macd sig hist,
    generate_signals (Some d) = Some signals
    /\ calculate_rsi (Some d) 14 = Some rsi
    /\ calculate_macd (Some d) 12 26 9 = Some (macd, sig, hist)
    /\ calculate_moving_averages (Some d) default_periods
       = Some (assign "MA200" (rolling_mean 200 (close_col d))
                 (assign "MA50" (rolling_mean 50 (close_col d))
                    (assign "MA20" (rolling_mean 20 (close_col d)) ∅)))
    /\ col signals "Signal"
       = signal_col (length d) rsi macd sig
           (rolling_mean 20 (close_col d)) (rolling_mean 50 (close_col d)).
Proof.
  intros Hlen. unfold generate_signals.
  assert (Hrsi : exists rsi, calculate_rsi (Some d) 14 = Some rsi).
  { unfold calculate_rsi. destruct (Nat.ltb_spec (length d) (14 + 1)); [lia|eauto]. }
  assert (Hmacd : exists m, calculate_macd (Some d) 12 26 9 = Some m).
  { unfold calculate_macd. destruct (Nat.ltb_spec (length d) (26 + 9)); [lia|eauto]. }
  destruct Hrsi as [rsi Hrsi], Hmacd as [[[macd sig] hist] Hmacd].
  rewrite Hrsi, Hmacd.
  unfold calculate_moving_averages.
  change (max_list default_periods) with 200%nat.
  destruct (Nat.ltb_spec (length d) 200) as [?|_]; [lia|].
  eexists. exists rsi, macd, sig, hist. split; [reflexivity|].
  split; [reflexivity|]. split; [reflexivity|].
  unfold default_periods. cbn [foldl].
  destruct ma_names as (-> & -> & ->).
  split; [reflexivity|].
  rewrite !union_assign, union_empty_frame.
  rewrite (when_cols_true ["MA20"; "MA50"]%string)
    by (cbn [forallb]; frame; reflexivity).
  rewrite (when_cols_true ["RSI_Signal"]%string)
    by (cbn [forallb]; frame; reflexivity).
  rewrite (when_cols_true ["MACD_Cross_Signal"]%string)
    by (cbn [forallb]; frame; reflexivity).
  rewrite (when_cols_true ["MA_Cross_Signal"]%string)
    by (cbn [forallb]; frame; reflexivity).
  rewrite normalize_three by (frame; reflexivity).
  frame. reflexivity.
Qed.

Lemma loc_set_lookup (mask : list bool) (x : fval) (c : list fval) (i : nat)
    (b : bool) (y : fval) :
  mask !! i = Some b -> c !! i = Some y ->
  loc_set mask x c !! i = Some (if b then x else y).
Proof.
  intros Hm Hc. unfold loc_set. rewrite lookup_zip_with, Hm. simpl. now rewrite Hc.
Qed.

Lemma const_col_lookup (n i : nat) (x : fval) :
  (i < n)%nat -> const_col n x !! i = Some x.
Proof. intros H. unfold const_col. now apply lookup_replicate_2. Qed.

Lemma rsi_signal_col_lookup (n i : nat) (rsi : list fval) r :
  (i < n)%nat -> rsi !! i = Some r ->
  rsi_signal_col n rsi !! i = Some (of_Z (rsi_vote r)).
Proof.
  intros Hi Hr. unfold rsi_signal_col.
  erewrite loc_set_lookup; cycle 1.
  - unfold gt_scalar. rewrite lookup_map, Hr. reflexivity.
  - erewrite loc_set_lookup; [reflexivity| |now apply const_col_lookup].
    unfold lt_scalar. rewrite lookup_map, Hr. reflexivity.
  - unfold rsi_vote. destruct (fgt r (Num 70)); [reflexivity|].
    now destruct (flt r (Num 30)).
Qed.

Lemma cross_signal_col_lookup (n i : nat) (a b : list fval) x y :
  (i < n)%nat -> a !! i = Some x -> b !! i = Some y ->
  cross_signal_col n a b !! i = Some (of_Z (cross_vote x y)).
Proof.
  intros Hi Ha Hb. unfold cross_signal_col.
  erewrite loc_set_lookup; cycle 1.
  - unfold lt_cols. rewrite lookup_zip_with, Ha. simpl. rewrite Hb. reflexivity.
  - erewrite loc_set_lookup; [reflexivity| |now apply const_col_lookup].
    unfold gt_cols. rewrite lookup_zip_with, Ha. simpl. rewrite Hb. reflexivity.
  - unfold cross_vote. destruct (flt x y); [reflexivity|].
    now destruct (fgt x y).
Qed.

Lemma vote_average (a b c : Z) :
  exists q,
    fdiv (fadd (fadd (fadd (Num 0) (of_Z a)) (of_Z b)) (of_Z c)) (of_Z 3) = Num q
    /\ (q == inject_Z (a + b + c) / 3)%Q.
Proof.
  unfold of_Z, fadd, fdiv.
  change (Qeq_bool (inject_Z 3) 0) with false. cbv iota.
  eexists. split; [reflexivity|].
  rewrite !Qred_correct, !inject_Z_plus.
  change (inject_Z 3) with 3%Q. field.
Qed.

Lemma signal_col_lookup (n i : nat) (rsi macd sig m20 m50 : list fval) r m s a b :
  (i < n)%nat ->
  rsi !! i = Some r -> macd !! i = Some m -> sig !! i = Some s ->
  m20 !! i = Some a -> m50 !! i = Some b ->
  exists q,
    signal_col n rsi macd sig m20 m50 !! i = Some (Num q)
    /\ (q == inject_Z (rsi_vote r + cross_vote m s + cross_vote a b) / 3)%Q.
Proof.
  intros Hi Hr Hm Hs Ha Hb.
  destruct (vote_average (rsi_vote r) (cross_vote m s) (cross_vote a b)) as (q & Hq & Hv).
  exists q. split; [|exact Hv].
  unfold signal_col, add_cols.
  rewrite lookup_map, !lookup_zip_with.
  rewrite (const_col_lookup n i _ Hi).
  rewrite (rsi_signal_col_lookup n i rsi r Hi Hr).
  rewrite (cross_signal_col_lookup n i macd sig m s Hi Hm Hs).
  rewrite (cross_signal_col_lookup n i m20 m50 a b Hi Ha Hb).
  cbn -[fdiv fadd of_Z]. now rewrite Hq.
Qed.

(** Column lengths. *)
Lemma length_ewm_from (a : Q) (s : list Q) : forall prev, length (ewm_from a prev s) = length s.
Proof. induction s as [|x s IH]; intros prev; simpl; [reflexivity|]. now rewrite IH. Qed.

Lemma length_ewm_mean (span : nat) (s : list Q) : length (ewm_mean span s) = length s.
Proof. destruct s; simpl; [reflexivity|]. now rewrite length_ewm_from. Qed.

Lemma calculate_rsi_length (d : list bar) (period : nat) rsi :
  calculate_rsi (Some d) period = Some rsi -> length rsi = length d.
Proof.
  unfold calculate_rsi. destruct (length d <? period + 1)%nat; [discriminate|].
  intros H. assert (rsi = (rsi_columns d period).2) as -> by congruence. clear H.
  unfold rsi_columns, div_cols, where_. cbn [snd].
  rewrite length_map, length_zip_with, !rolling_mean_length, !length_map, length_diff.
  unfold close_col. rewrite length_map. lia.
Qed.

Lemma calculate_macd_length (d : list bar) (f s g : nat) macd sig hist :
  calculate_macd (Some d) f s g = Some (macd, sig, hist) ->
  length macd = length d /\ length sig = length d.
Proof.
  unfold calculate_macd. destruct (length d <? s + g)%nat; [discriminate|].
  intros [= <- <- <-].
  rewrite !length_map, !length_ewm_mean, !length_zip_with, !length_ewm_mean, !length_map.
  lia.
Qed.

(** Before the window is full the rolling mean is undefined, whatever the
    entries. *)
Lemma rolling_mean_warmup (w i : nat) (s : list fval) :
  (i < length s)%nat -> (S i < w)%nat -> rolling_mean w s !! i = Some NaN.
Proof.
  intros Hi Hw. rewrite (rolling_mean_lookup w i s Hi). unfold window_mean.
  pose proof (length_filter (fun x => is_nan x = false) (window w s i)) as Hle.
  rewrite (length_window w i s Hi) in Hle.
  destruct (Nat.ltb_spec (length (filter (fun x => is_nan x = false) (window w s i))) w);
    [reflexivity|lia].
Qed.

Lemma rsi_warmup (d : list bar) (period i : nat) rsi :
  calculate_rsi (Some d) period = Some rsi ->
  (i < length d)%nat -> (S i < period)%nat -> rsi !! i = Some NaN.
Proof.
  unfold calculate_rsi. destruct (length d <? period + 1)%nat; [discriminate|].
  intros H Hi Hw.
  assert (rsi = (rsi_columns d period).2) as -> by congruence. clear H.
  unfold rsi_columns, div_cols. cbn [snd].
  assert (Hlen : forall c, length (where_ c (Num 0) (diff (close_col d))) = length d).
  { intros c. unfold where_, close_col. now rewrite length_map, length_diff, length_map. }
  set (gain := where_ (fun x => fgt x (Num 0)) (Num 0) (diff (close_col d))).
  rewrite lookup_map, lookup_zip_with.
  set (loss := map fneg (where_ (fun x => flt x (Num 0)) (Num 0) (diff (close_col d)))).
  rewrite (rolling_mean_warmup period i gain) by (unfold gain; rewrite ?Hlen; lia).
  rewrite (rolling_mean_warmup period i loss)
    by (unfold loss; rewrite ?length_map, ?Hlen; lia).
  reflexivity.
Qed.

End Composite.

(** C2, as stated, fails: on 50 bars the RSI and MACD sub-signals have
    their inputs at the last bar and only the moving averages lack theirs,
    yet generate_signals yields no composite signal at all. *)
Lemma composite_all_or_nothing_counterexample :
  ~ CompositeSpec.composite_excludes_missing CompositeSpec.fifty_bars.
Proof.
  intros H. specialize (H 49%nat).
  assert (Hcode : CompositeSpec.code_composite_at CompositeSpec.fifty_bars 49 = None)
    by (vm_compute; reflexivity).
  assert (Hspec : CompositeSpec.spec_composite_at CompositeSpec.fifty_bars 49 = Some (0 # 2))
    by (vm_compute; reflexivity).
  rewrite Hcode, Hspec in H. exact H.
Qed.

(** C2, amended.  With fewer than 200 bars generate_signals yields no signal
    at all.  With 200 bars or more, the composite signal on every bar is the
    sum of the three sub-signals divided by 3: the divisor is the number of
    sub-signal columns, which is always 3, and a sub-signal whose indicator
    is undefined on that bar contributes 0 to the sum and still counts in
    the divisor (the RSI sub-signal on the first 13 bars, the moving-average
    sub-signal on the first 19). *)
Theorem composite_is_sum_over_three (d : list TechnicalAnalysis.bar) :
  ((length d < 200)%nat -> TechnicalAnalysis.generate_signals (Some d) = None)
  /\ ((200 <= length d)%nat ->
      exists signals rsi macd sig hist ma,
        TechnicalAnalysis.generate_signals (Some d) = Some signals
        /\ TechnicalAnalysis.calculate_rsi (Some d) 14 = Some rsi
        /\ TechnicalAnalysis.calculate_macd (Some d) 12 26 9 = Some (macd, sig, hist)
        /\ TechnicalAnalysis.calculate_moving_averages (Some d)
             TechnicalAnalysis.default_periods = Some ma
        /\ forall i, (i < length d)%nat ->
             exists r m s a b q,
               rsi !! i = Some r /\ macd !! i = Some m /\ sig !! i = Some s
               /\ TechnicalAnalysis.col ma "MA20" !! i = Some a
               /\ TechnicalAnalysis.col ma "MA50" !! i = Some b
               /\ TechnicalAnalysis.col signals "Signal" !! i = Some (Num q)
               /\ (q == inject_Z (CompositeSpec.rsi_vote r + CompositeSpec.cross_vote m s
                                  + CompositeSpec.cross_vote a b) / 3)%Q
               /\ ((i < 13)%nat -> r = NaN /\ CompositeSpec.rsi_vote r = 0%Z)
               /\ ((i < 19)%nat -> a = NaN /\ CompositeSpec.cross_vote a b = 0%Z)).
Proof.
  split; [apply generate_signals_short|].
  intros Hlen.
  destruct (generate_signals_long d Hlen)
    as (signals & rsi & macd & sig & hist & Hgen & Hrsi & Hmacd & Hma & Hcol).
  exists signals, rsi, macd, sig, hist. eexists.
  split; [exact Hgen|]. split; [exact Hrsi|]. split; [exact Hmacd|]. split; [exact Hma|].
  intros i Hi.
  pose proof (calculate_rsi_length d 14 rsi Hrsi) as Lrsi.
  destruct (calculate_macd_length d 12 26 9 macd sig hist Hmacd) as [Lmacd Lsig].
  assert (Lclose : length (TechnicalAnalysis.close_col d) = length d)
    by (unfold TechnicalAnalysis.close_col; apply length_map).
  destruct (lookup_lt_is_Some_2 rsi i ltac:(lia)) as [r Hr].
  destruct (lookup_lt_is_Some_2 macd i ltac:(lia)) as [m Hm].
  destruct (lookup_lt_is_Some_2 sig i ltac:(lia)) as [s Hs].
  destruct (lookup_lt_is_Some_2 (rolling_mean 20 (TechnicalAnalysis.close_col d)) i
              ltac:(rewrite rolling_mean_length; lia)) as [a Ha].
  destruct (lookup_lt_is_Some_2 (rolling_mean 50 (TechnicalAnalysis.close_col d)) i
              ltac:(rewrite rolling_mean_length; lia)) as [b Hb].
  destruct (signal_col_lookup (length d) i rsi macd sig _ _ r m s a b Hi Hr Hm Hs Ha Hb)
    as (q & Hq & Hv).
  exists r, m, s, a, b, q.
  split; [exact Hr|]. split; [exact Hm|]. split; [exact Hs|].
  split; [frame; exact Ha|]. split; [frame; exact Hb|].
  split; [rewrite Hcol; exact Hq|]. split; [exact Hv|]. split.
  - intros H13. rewrite (rsi_warmup d 14 i rsi Hrsi Hi ltac:(lia)) in Hr.
    injection Hr as <-. split; reflexivity.
  - intros H19.
    rewrite (rolling_mean_warmup 20 i (TechnicalAnalysis.close_col d)
               ltac:(lia) ltac:(lia)) in Ha.
    injection Ha as <-. split; [reflexivity|]. now destruct b.
Qed.

Lemma composite_is_sum_over_three_witness :
  exists signals rsi macd sig hist ma,
    TechnicalAnalysis.generate_signals SignalSpec.ta_up = Some signals
    /\ TechnicalAnalysis.calculate_rsi SignalSpec.ta_up 14 = Some rsi
    /\ TechnicalAnalysis.calculate_macd SignalSpec.ta_up 12 26 9 = Some (macd, sig, hist)
    /\ TechnicalAnalysis.calculate_moving_averages SignalSpec.ta_up
         TechnicalAnalysis.default_periods = Some ma
    /\ forall i, (i < length (SignalSpec.ticked 199 1001))%nat ->
         exists r m s a b q,
           rsi !! i = Some r /\ macd !! i = Some m /\ sig !! i = Some s
           /\ TechnicalAnalysis.col ma "MA20" !! i = Some a
           /\ TechnicalAnalysis.col ma "MA50" !! i = Some b
           /\ TechnicalAnalysis.col signals "Signal" !! i = Some (Num q)
           /\ (q == inject_Z (CompositeSpec.rsi_vote r + CompositeSpec.cross_vote m s
                              + CompositeSpec.cross_vote a b) / 3)%Q
           /\ ((i < 13)%nat -> r = NaN /\ CompositeSpec.rsi_vote r = 0%Z)
           /\ ((i < 19)%nat -> a = NaN /\ CompositeSpec.cross_vote a b = 0%Z).
Proof.
  apply (proj2 (composite_is_sum_over_three (SignalSpec.ticked 199 1001))).
  vm_compute. lia.
Defined.

Section Warmup.

Import TechnicalAnalysis CompositeSpec.

Lemma macd_second_bar (rest : list bar) (macd sig hist : list fval) :
  calculate_macd (Some (SignalSpec.flat_bar 1000 :: SignalSpec.flat_bar 1001 :: rest))
    12 26 9 = Some (macd, sig, hist) ->
  macd !! 1%nat = Some (Num (28 # 351)) /\ sig !! 1%nat = Some (Num (28 # 1755)).
Proof.
  unfold calculate_macd.
  destruct (length _ <? 26 + 9)%nat; [discriminate|].
  intros H. injection H as <- <- <-. split; vm_compute; reflexivity.
Qed.

End Warmup.

(** The warmup side of C2: on 200 bars stepping from 1000 to 1001 at bar 1,
    only the MACD sub-signal has its inputs on bar 1 and it is +1; the code's
    composite there is 1/3, not 1. *)
Lemma composite_warmup_counted :
  ~ CompositeSpec.composite_excludes_missing CompositeSpec.early_step.
Proof.
  intros H. specialize (H 1%nat). revert H.
  unfold CompositeSpec.early_step.
  set (d := SignalSpec.flat_bar 1000 :: replicate 199 (SignalSpec.flat_bar 1001)).
  assert (Hlen : length d = 200%nat)
    by (unfold d; cbn [length]; now rewrite length_replicate).
  destruct (generate_signals_long d ltac:(lia))
    as (signals & rsi & macd & sig & hist & Hgen & Hrsi & Hmacd & Hma & Hcol).
  rewrite Hlen in Hcol.
  assert (Hclose : length (TechnicalAnalysis.close_col d) = 200%nat)
    by (unfold TechnicalAnalysis.close_col; now rewrite length_map).
  pose proof (rsi_warmup d 14 1 rsi Hrsi ltac:(lia) ltac:(lia)) as Hr.
  pose proof (rolling_mean_warmup 20 1 (TechnicalAnalysis.close_col d)
                ltac:(lia) ltac:(lia)) as Ha.
  pose proof (rolling_mean_warmup 50 1 (TechnicalAnalysis.close_col d)
                ltac:(lia) ltac:(lia)) as Hb.
  destruct (macd_second_bar (replicate 198 (SignalSpec.flat_bar 1001)) macd sig hist Hmacd)
    as [Hm Hs].
  destruct (signal_col_lookup 200 1 rsi macd sig _ _ _ _ _ _ _ ltac:(lia) Hr Hm Hs Ha Hb)
    as (q & Hq & Hv).
  unfold CompositeSpec.code_composite_at, CompositeSpec.spec_composite_at.
  rewrite Hgen, Hrsi, Hmacd, Hma.
  unfold CompositeSpec.indicator_at, TechnicalAnalysis.assign.
  cbn [mbind option_bind fmap option_fmap option_map fst snd].
  rewrite Hcol, Hq, Hr, Hm, Hs.
  rewrite lookup_insert_ne by discriminate.
  rewrite lookup_insert_ne by discriminate.
  rewrite lookup_insert_eq.
  rewrite lookup_insert_ne by discriminate.
  rewrite lookup_insert_eq.
  cbn [mbind option_bind]. rewrite Ha, Hb.
  assert (Hspec :
    CompositeSpec.spec_composite
      [CompositeSpec.spec_rsi_signal (CompositeSpec.present (Some NaN));
       CompositeSpec.spec_macd_signal (CompositeSpec.present (Some (Num (28 # 351))))
         (CompositeSpec.present (Some (Num (28 # 1755))));
       CompositeSpec.spec_ma_signal (CompositeSpec.present (Some NaN))
         (CompositeSpec.present (Some NaN))]
    = Some (1 # 1)) by (vm_compute; reflexivity).
  rewrite Hspec. unfold CompositeSpec.agrees.
  assert (Hval :
    (inject_Z (CompositeSpec.rsi_vote NaN
               + CompositeSpec.cross_vote (Num (28 # 351)) (Num (28 # 1755))
               + CompositeSpec.cross_vote NaN NaN) / 3 == 1 # 3)%Q)
    by (vm_compute; reflexivity).
  rewrite Hval in Hv. intros H. rewrite Hv in H. vm_compute in H. discriminate.
Qed.
(** * Further properties *)

(** ** Support and resistance *)

Section SupportResistance.

Import TechnicalAnalysis IndicatorSpec.

Lemma is_local_min_spec (w : nat) (xs : list Q) (i : nat) :
  is_local_min w xs i = true <-> local_min w xs i.
Proof.
  unfold is_local_min, local_min, Qleb.
  rewrite andb_true_iff, !forallb_forall. split.
  - intros [H1 H2] j Hj.
    assert (Hin : In j (seq 1 w)) by (apply in_seq; lia).
    split; apply Qle_bool_iff; auto.
  - intros H. split; intros j Hj; apply in_seq in Hj;
      apply Qle_bool_iff; apply H; lia.
Qed.

Lemma is_local_max_spec (w : nat) (xs : list Q) (i : nat) :
  is_local_max w xs i = true <-> local_max w xs i.
Proof.
  unfold is_local_max, local_max, Qleb.
  rewrite andb_true_iff, !forallb_forall. split.
  - intros [H1 H2] j Hj.
    assert (Hin : In j (seq 1 w)) by (apply in_seq; lia).
    split; apply Qle_bool_iff; auto.
  - intros H. split; intros j Hj; apply in_seq in Hj;
      apply Qle_bool_iff; apply H; lia.
Qed.

Lemma levels_of_indices (f : nat -> bool) (xs : list Q) (lo len : nat) (x : Q) :
  In x (map (fun i => nth i xs 0%Q) (List.filter f (seq lo len)))
  <-> exists i, (lo <= i < lo + len)%nat /\ f i = true /\ nth i xs 0%Q = x.
Proof.
  rewrite in_map_iff. split.
  - intros (i & Hx & Hi). apply filter_In in Hi as [Hi Hf].
    apply in_seq in Hi. eauto.
  - intros (i & Hi & Hf & Hx). exists i. split; [exact Hx|].
    apply filter_In. split; [now apply in_seq|exact Hf].
Qed.

End SupportResistance.

(** X1.  identify_support_resistance returns nothing below 2*window bars.
    Otherwise its support levels are exactly the lows of the bars, at least
    window bars away from both ends, whose low is at most the low of each of
    the window bars on either side; its resistance levels are the highs of
    the bars whose high is at least those of their neighbours.  With exactly
    2*window bars no bar qualifies and both lists are empty. *)
Theorem support_resistance_are_local_extrema
    (d : list TechnicalAnalysis.bar) (w : nat) :
  ((length d < w * 2)%nat ->
   TechnicalAnalysis.identify_support_resistance (Some d) w = None)
  /\ ((w * 2 <= length d)%nat ->
      exists supports resistances,
        TechnicalAnalysis.identify_support_resistance (Some d) w
        = Some (supports, resistances)
        /\ (forall x, In x supports <->
              exists i, (w <= i < length d - w)%nat
                        /\ IndicatorSpec.local_min w (map TechnicalAnalysis.Low d) i
                        /\ nth i (map TechnicalAnalysis.Low d) 0%Q = x)
        /\ (forall x, In x resistances <->
              exists i, (w <= i < length d - w)%nat
                        /\ IndicatorSpec.local_max w (map TechnicalAnalysis.High d) i
                        /\ nth i (map TechnicalAnalysis.High d) 0%Q = x)
        /\ (length d = (w * 2)%nat -> supports = [] /\ resistances = [])).
Proof.
  unfold TechnicalAnalysis.identify_support_resistance. split.
  - intros H. now apply Nat.ltb_lt in H as ->.
  - intros H. destruct (Nat.ltb_spec (length d) (w * 2)) as [?|_]; [lia|].
    do 2 eexists. split; [reflexivity|]. split; [|split].
    + intros x. rewrite levels_of_indices. split.
      * intros (i & Hi & Hf & Hx). exists i. split; [lia|].
        split; [now apply is_local_min_spec|exact Hx].
      * intros (i & Hi & Hf & Hx). exists i. split; [lia|].
        split; [now apply is_local_min_spec|exact Hx].
    + intros x. rewrite levels_of_indices. split.
      * intros (i & Hi & Hf & Hx). exists i. split; [lia|].
        split; [now apply is_local_max_spec|exact Hx].
      * intros (i & Hi & Hf & Hx). exists i. split; [lia|].
        split; [now apply is_local_max_spec|exact Hx].
    + intros Hlen. replace (length d - w - w)%nat with 0%nat by lia. now split.
Qed.

Lemma support_resistance_are_local_extrema_witness :
  exists supports resistances,
    TechnicalAnalysis.identify_support_resistance LevelsSpec.v_series 10
    = Some (supports, resistances)
    /\ In 500%Q supports.
Proof.
  destruct (proj2 (support_resistance_are_local_extrema (map LevelsSpec.v_bar (seq 0 201)) 10))
    as (supports & resistances & Hsr & Hsup & _).
  - vm_compute. lia.
  - exists supports, resistances. split; [exact Hsr|].
    apply Hsup. exists 100%nat. split; [vm_compute; lia|].
    split; [|vm_compute; reflexivity].
    apply is_local_min_spec. vm_compute. reflexivity.
Defined.
(** ** Exponential averages and MACD *)

Section Ema.

Import TechnicalAnalysis IndicatorSpec.

Lemma alpha_bounds (span : nat) : (1 <= span)%nat -> (0 < alpha span /\ alpha span <= 1)%Q.
Proof.
  intros H. unfold alpha. rewrite Qred_correct.
  replace (span + 1)%nat with (S span) by lia.
  rewrite <- Pos.of_nat_succ.
  unfold Qlt, Qle. simpl. rewrite Zpos_P_of_succ_nat. lia.
Qed.

Lemma ewm_step_within (a lo hi prev x : Q) :
  (0 <= a <= 1)%Q -> (lo <= prev <= hi)%Q -> (lo <= x <= hi)%Q ->
  (lo <= Qred ((1 - a) * prev + a * x) <= hi)%Q.
Proof. intros Ha Hp Hx. rewrite Qred_correct. split; nra. Qed.

Lemma ewm_from_within (a lo hi : Q) (s : list Q) : forall prev,
  (0 <= a <= 1)%Q -> (lo <= prev <= hi)%Q ->
  Forall (fun x => lo <= x <= hi)%Q s ->
  Forall (fun x => lo <= x <= hi)%Q (ewm_from a prev s).
Proof.
  induction s as [|x s IH]; intros prev Ha Hp Hs; simpl; [constructor|].
  inversion Hs as [|? ? Hx Hs']; subst.
  pose proof (ewm_step_within a lo hi prev x Ha Hp Hx) as Hy.
  constructor; [exact Hy|]. now apply IH.
Qed.

(** An exponential average with span at least 1 stays between the bounds of
    its input. *)
Lemma ewm_mean_within (span : nat) (lo hi : Q) (s : list Q) :
  (1 <= span)%nat ->
  Forall (fun x => lo <= x <= hi)%Q s ->
  Forall (fun x => lo <= x <= hi)%Q (ewm_mean span s).
Proof.
  intros Hspan Hs. destruct s as [|x s]; simpl; [constructor|].
  inversion Hs as [|? ? Hx Hs']; subst.
  assert (Hx' : (lo <= Qred x <= hi)%Q) by now rewrite Qred_correct.
  constructor; [exact Hx'|].
  apply ewm_from_within; [|exact Hx'|exact Hs'].
  destruct (alpha_bounds span Hspan). split; [now apply Qlt_le_weak|assumption].
Qed.

Lemma Forall_zip_with_both {A B C : Type} (P : A -> Prop) (R : B -> Prop) (S : C -> Prop)
    (f : A -> B -> C) (l : list A) (k : list B) :
  (forall x y, P x -> R y -> S (f x y)) ->
  Forall P l -> Forall R k -> Forall S (zip_with f l k).
Proof.
  intros Hf Hl. revert k. induction Hl as [|x l Hx _ IH]; intros k Hk; [constructor|].
  destruct Hk as [|y k Hy Hk]; simpl; [constructor|].
  constructor; [now apply Hf|now apply IH].
Qed.

Lemma Forall_map_Num (lo hi : Q) (l : list Q) :
  Forall (fun x => lo <= x <= hi)%Q l -> Forall (within lo hi) (map Num l).
Proof.
  induction 1 as [|x l Hx _ IH]; simpl; constructor; [|exact IH].
  exists x. now split.
Qed.

Lemma closes_within (lo hi : Q) (d : list bar) :
  Forall (fun b => lo <= Close b <= hi)%Q d ->
  Forall (fun x => lo <= x <= hi)%Q (map Close d).
Proof. induction 1; simpl; constructor; assumption. Qed.

Lemma macd_lines_within (lo hi : Q) (d : list bar) (f s g : nat) macd sig hist :
  (1 <= f)%nat -> (1 <= s)%nat -> (1 <= g)%nat ->
  Forall (fun b => lo <= Close b <= hi)%Q d ->
  calculate_macd (Some d) f s g = Some (macd, sig, hist) ->
  Forall (within (lo - hi) (hi - lo)) macd
  /\ Forall (within (lo - hi) (hi - lo)) sig
  /\ Forall (within (2 * (lo - hi)) (2 * (hi - lo))) hist.
Proof.
  intros Hf Hs Hg Hd. unfold calculate_macd.
  destruct (length d <? s + g)%nat; [discriminate|].
  intros H.
  set (fast := ewm_mean f (map Close d)) in H.
  set (slow := ewm_mean s (map Close d)) in H.
  set (line := zip_with (fun x y => Qred (x - y)) fast slow) in H.
  set (sline := ewm_mean g line) in H.
  assert (Hfast : Forall (fun x => lo <= x <= hi)%Q fast)
    by (apply ewm_mean_within; [exact Hf|now apply closes_within]).
  assert (Hslow : Forall (fun x => lo <= x <= hi)%Q slow)
    by (apply ewm_mean_within; [exact Hs|now apply closes_within]).
  assert (Hline : Forall (fun x => lo - hi <= x <= hi - lo)%Q line).
  { refine (Forall_zip_with_both _ _ _ _ _ _ _ Hfast Hslow).
    intros x y Hx Hy. cbv beta in *. rewrite Qred_correct. split; lra. }
  assert (Hsline : Forall (fun x => lo - hi <= x <= hi - lo)%Q sline)
    by (apply ewm_mean_within; assumption).
  assert (Hhist : Forall (fun x => 2 * (lo - hi) <= x <= 2 * (hi - lo))%Q
                    (zip_with (fun m s0 => Qred (m - s0)) line sline)).
  { refine (Forall_zip_with_both _ _ _ _ _ _ _ Hline Hsline).
    intros x y Hx Hy. cbv beta in *. rewrite Qred_correct. split; lra. }
  assert (macd = map Num line) as -> by congruence.
  assert (sig = map Num sline) as -> by congruence.
  assert (hist = map Num (zip_with (fun m s0 => Qred (m - s0)) line sline)) as ->
    by congruence.
  repeat split; now apply Forall_map_Num.
Qed.

End Ema.

(** X2.  When every close lies between lo and hi and the three spans are at
    least 1, every entry of the MACD line and of the signal line is a finite
    number of magnitude at most hi - lo, and every histogram entry one of
    magnitude at most 2 (hi - lo). *)
Theorem macd_bounded_by_price_range (lo hi : Q) (d : list TechnicalAnalysis.bar)
    (f s g : nat) (macd sig hist : list fval) :
  (1 <= f)%nat -> (1 <= s)%nat -> (1 <= g)%nat ->
  Forall (fun b => lo <= TechnicalAnalysis.Close b <= hi)%Q d ->
  TechnicalAnalysis.calculate_macd (Some d) f s g = Some (macd, sig, hist) ->
  Forall (IndicatorSpec.within (lo - hi) (hi - lo)) macd
  /\ Forall (IndicatorSpec.within (lo - hi) (hi - lo)) sig
  /\ Forall (IndicatorSpec.within (2 * (lo - hi)) (2 * (hi - lo))) hist.
Proof. apply macd_lines_within. Qed.

Lemma macd_bounded_by_price_range_witness :
  exists macd sig hist,
    TechnicalAnalysis.calculate_macd (Some (SignalSpec.ticked 49 1001)) 12 26 9
    = Some (macd, sig, hist)
    /\ Forall (IndicatorSpec.within (1000 - 1001) (1001 - 1000)) macd.
Proof.
  assert (H : exists m,
             TechnicalAnalysis.calculate_macd (Some (SignalSpec.ticked 49 1001)) 12 26 9
             = Some m) by (vm_compute; eexists; reflexivity).
  destruct H as [[[macd sig] hist] H]. exists macd, sig, hist. split; [exact H|].
  refine (proj1 (macd_bounded_by_price_range 1000 1001 (SignalSpec.ticked 49 1001)
                   12 26 9 macd sig hist _ _ _ _ H)); try lia.
  unfold SignalSpec.ticked. apply Forall_app. split.
  - apply Forall_replicate. simpl. lra.
  - constructor; [simpl; lra|constructor].
Defined.
(** ** Moving averages *)

Section MovingAverages.

Import TechnicalAnalysis IndicatorSpec.

Lemma fsum_within (lo hi : Q) (l : list fval) :
  Forall (within lo hi) l ->
  exists q, fsum l = Num q
            /\ (inject_Z (Z.of_nat (length l)) * lo <= q
                <= inject_Z (Z.of_nat (length l)) * hi)%Q.
Proof.
  unfold fsum. induction 1 as [|x l (q & -> & Hq) _ (r & IH & Hr)].
  - exists 0%Q. split; [reflexivity|].
    change (inject_Z (Z.of_nat (length (@nil fval)))) with 0%Q. lra.
  - cbn [foldr]. rewrite IH. cbn [fadd]. eexists. split; [reflexivity|].
    rewrite Qred_correct. cbn [length]. rewrite Nat2Z.inj_succ.
    unfold Z.succ. rewrite inject_Z_plus. change (inject_Z 1) with 1%Q.
    set (n := inject_Z (Z.of_nat (length l))) in *. split; nra.
Qed.

Lemma observations_all_within (lo hi : Q) (l : list fval) :
  Forall (within lo hi) l -> filter (fun x => is_nan x = false) l = l.
Proof.
  induction 1 as [|x l (q & -> & _) _ IH]; [reflexivity|].
  rewrite filter_cons_True by reflexivity. now f_equal.
Qed.

Lemma window_within (lo hi : Q) (w i : nat) (s : list fval) :
  Forall (within lo hi) s -> Forall (within lo hi) (window w s i).
Proof. intros H. unfold window. now apply Forall_take, Forall_drop. Qed.

(** Once the window is full, the rolling mean of entries between two bounds
    lies between them. *)
Lemma rolling_mean_within (lo hi : Q) (w i : nat) (s : list fval) :
  Forall (within lo hi) s -> (i < length s)%nat -> (0 < w <= S i)%nat ->
  exists q, rolling_mean w s !! i = Some (Num q) /\ (lo <= q <= hi)%Q.
Proof.
  intros Hs Hi [Hw0 Hwi]. rewrite (rolling_mean_lookup w i s Hi).
  pose proof (window_within lo hi w i s Hs) as Hwin.
  pose proof (length_window w i s Hi) as Hlen.
  unfold window_mean. rewrite (observations_all_within lo hi _ Hwin).
  destruct (fsum_within lo hi _ Hwin) as (q & -> & Hq).
  rewrite Hlen, Nat.min_l in * by lia.
  rewrite Nat.ltb_irrefl. unfold of_Z, fdiv.
  pose proof (inject_Z_of_nat_pos w Hw0) as Hpos.
  destruct (Qeq_bool (inject_Z (Z.of_nat w)) 0) eqn:E.
  { apply Qeq_bool_iff in E. rewrite E in Hpos. now apply Qlt_irrefl in Hpos. }
  eexists. split; [reflexivity|]. rewrite Qred_correct.
  set (n := inject_Z (Z.of_nat w)) in *. split.
  - apply Qle_shift_div_l; [exact Hpos|]. lra.
  - apply Qle_shift_div_r; [exact Hpos|]. lra.
Qed.

Lemma close_col_within (lo hi : Q) (d : list bar) :
  Forall (fun b => lo <= Close b <= hi)%Q d -> Forall (within lo hi) (close_col d).
Proof.
  unfold close_col. induction 1 as [|b d Hb _ IH]; simpl; constructor; [|exact IH].
  eexists. split; [reflexivity|]. now rewrite Qred_correct.
Qed.

Lemma ma_name_inj (p q : nat) : ma_name p = ma_name q -> p = q.
Proof.
  unfold ma_name. intros H. cbn [String.append] in H.
  injection H as H. now apply (inj pretty).
Qed.

Lemma ma_dict_lookup (closes : list fval) (periods : list nat) (p : nat) :
  forall acc : DataFrame,
    In p periods \/ acc !! ma_name p = Some (rolling_mean p closes) ->
    foldl (fun (ma_dict : DataFrame) period =>
             <[ma_name period := rolling_mean period closes]> ma_dict) acc periods
    !! ma_name p = Some (rolling_mean p closes).
Proof.
  induction periods as [|q periods IH]; intros acc H; simpl.
  - destruct H as [[]|H]. exact H.
  - apply IH. destruct (decide (q = p)) as [->|Hne].
    + right. apply lookup_insert_eq.
    + destruct H as [[?|H]|H]; [contradiction|now left|].
      right. rewrite lookup_insert_ne; [exact H|].
      intros Heq. apply Hne. now apply ma_name_inj.
Qed.

End MovingAverages.

(** X3.  calculate_moving_averages returns nothing when the series is
    shorter than the largest period.  Otherwise, for each requested period
    p >= 1 the dict holds a column named MA<p> as long as the series, which
    is undefined on the first p - 1 bars and from then on is a finite number
    between any two bounds that hold for all closes. *)
Theorem moving_averages_columns (d : list TechnicalAnalysis.bar) (periods : list nat)
    (lo hi : Q) :
  ((length d < max_list periods)%nat ->
   TechnicalAnalysis.calculate_moving_averages (Some d) periods = None)
  /\ ((max_list periods <= length d)%nat ->
      Forall (fun b => lo <= TechnicalAnalysis.Close b <= hi)%Q d ->
      exists ma,
        TechnicalAnalysis.calculate_moving_averages (Some d) periods = Some ma
        /\ forall p, In p periods -> (1 <= p)%nat ->
             exists c,
               ma !! TechnicalAnalysis.ma_name p = Some c
               /\ length c = length d
               /\ forall i, (i < length d)%nat ->
                    ((S i < p)%nat -> c !! i = Some NaN)
                    /\ ((p <= S i)%nat ->
                        exists q, c !! i = Some (Num q) /\ (lo <= q <= hi)%Q)).
Proof.
  unfold TechnicalAnalysis.calculate_moving_averages. split.
  - intros H. now apply Nat.ltb_lt in H as ->.
  - intros H Hd. destruct (Nat.ltb_spec (length d) (max_list periods)) as [?|_]; [lia|].
    eexists. split; [reflexivity|]. intros p Hp Hp1.
    exists (rolling_mean p (TechnicalAnalysis.close_col d)).
    assert (Hlen : length (TechnicalAnalysis.close_col d) = length d)
      by (unfold TechnicalAnalysis.close_col; apply length_map).
    split; [apply ma_dict_lookup; now left|].
    split; [now rewrite rolling_mean_length|].
    intros i Hi. split.
    + intros Hw. apply rolling_mean_warmup; lia.
    + intros Hw. apply rolling_mean_within; [now apply close_col_within|lia|lia].
Qed.

Lemma moving_averages_columns_witness :
  exists ma,
    TechnicalAnalysis.calculate_moving_averages (Some (SignalSpec.ticked 199 1001))
      TechnicalAnalysis.default_periods = Some ma
    /\ exists c, ma !! TechnicalAnalysis.ma_name 20 = Some c /\ length c = 200%nat.
Proof.
  destruct (proj2 (moving_averages_columns (SignalSpec.ticked 199 1001)
                     TechnicalAnalysis.default_periods 1000 1001))
    as (ma & Hma & Hcols).
  - vm_compute. lia.
  - unfold SignalSpec.ticked. apply Forall_app. split.
    + apply Forall_replicate. simpl. lra.
    + constructor; [simpl; lra|constructor].
  - exists ma. split; [exact Hma|].
    destruct (Hcols 20%nat) as (c & Hc & Hlen & _).
    + simpl. auto.
    + lia.
    + exists c. split; [exact Hc|]. rewrite Hlen. vm_compute. reflexivity.
Defined.
(** ** The signals frame *)

Section SignalsFrame.

Import TechnicalAnalysis CompositeSpec IndicatorSpec.

(** The columns of the frame generate_signals returns on 200 bars or more. *)
Lemma generate_signals_frame (d : list bar) :
  (200 <= length d)%nat ->
  exists signals rsi macd sig hist,
    generate_signals (Some d) = Some signals
    /\ calculate_rsi (Some d) 14 = Some rsi
    /\ calculate_macd (Some d) 12 26 9 = Some (macd, sig, hist)
    /\ signals !! "Close"%string = Some (close_col d)
    /\ signals !! "RSI"%string = Some rsi
    /\ signals !! "MACD"%string = Some macd
    /\ signals !! "MACD_Signal"%string = Some sig
    /\ signals !! "MACD_Histogram"%string = Some hist
    /\ signals !! "Signal"%string
       = Some (signal_col (length d) rsi macd sig
                 (rolling_mean 20 (close_col d)) (rolling_mean 50 (close_col d))).
Proof.
  intros Hlen. unfold generate_signals.
  assert (Hrsi : exists rsi, calculate_rsi (Some d) 14 = Some rsi).
  { unfold calculate_rsi. destruct (Nat.ltb_spec (length d) (14 + 1)); [lia|eauto]. }
  assert (Hmacd : exists m, calculate_macd (Some d) 12 26 9 = Some m).
  { unfold calculate_macd. destruct (Nat.ltb_spec (length d) (26 + 9)); [lia|eauto]. }
  destruct Hrsi as [rsi Hrsi], Hmacd as [[[macd sig] hist] Hmacd].
  rewrite Hrsi, Hmacd.
  unfold calculate_moving_averages.
  change (max_list default_periods) with 200%nat.
  destruct (Nat.ltb_spec (length d) 200) as [?|_]; [lia|].
  eexists. exists rsi, macd, sig, hist. split; [reflexivity|].
  split; [reflexivity|]. split; [reflexivity|].
  clear Hrsi Hmacd Hlen.
  generalize (length d) as n. generalize (close_col d) as closes.
  intros closes n.
  repeat split; vm_compute; reflexivity.
Qed.

End SignalsFrame.

Section SignalRows.

Import TechnicalAnalysis CompositeSpec IndicatorSpec.

Lemma rsi_vote_range (r : fval) : (-1 <= rsi_vote r <= 1)%Z.
Proof. unfold rsi_vote. destruct (fgt r (Num 70)), (flt r (Num 30)); lia. Qed.

Lemma cross_vote_range (a b : fval) : (-1 <= cross_vote a b <= 1)%Z.
Proof. unfold cross_vote. destruct (flt a b), (fgt a b); lia. Qed.

Lemma signal_col_length (n : nat) (rsi macd sig m20 m50 : list fval) :
  (length (signal_col n rsi macd sig m20 m50) <= n)%nat.
Proof.
  unfold signal_col, add_cols, const_col.
  rewrite length_map, !length_zip_with, length_replicate. lia.
Qed.

(** Every row of the frame: the composite entry is the vote sum over 3. *)
Lemma signal_col_row (d : list bar) (rsi macd sig hist : list fval) (i : nat) :
  calculate_rsi (Some d) 14 = Some rsi ->
  calculate_macd (Some d) 12 26 9 = Some (macd, sig, hist) ->
  (i < length d)%nat ->
  exists k q,
    vote_sum rsi macd sig (rolling_mean 20 (close_col d)) (rolling_mean 50 (close_col d)) i
    = Some k
    /\ signal_col (length d) rsi macd sig
         (rolling_mean 20 (close_col d)) (rolling_mean 50 (close_col d)) !! i = Some (Num q)
    /\ (q == inject_Z k / 3)%Q /\ (-3 <= k <= 3)%Z.
Proof.
  intros Hrsi Hmacd Hi.
  pose proof (calculate_rsi_length d 14 rsi Hrsi) as Lrsi.
  destruct (calculate_macd_length d 12 26 9 macd sig hist Hmacd) as [Lmacd Lsig].
  assert (Lclose : length (close_col d) = length d)
    by (unfold close_col; apply length_map).
  destruct (lookup_lt_is_Some_2 rsi i ltac:(lia)) as [r Hr].
  destruct (lookup_lt_is_Some_2 macd i ltac:(lia)) as [m Hm].
  destruct (lookup_lt_is_Some_2 sig i ltac:(lia)) as [s Hs].
  destruct (lookup_lt_is_Some_2 (rolling_mean 20 (close_col d)) i
              ltac:(rewrite rolling_mean_length; lia)) as [a Ha].
  destruct (lookup_lt_is_Some_2 (rolling_mean 50 (close_col d)) i
              ltac:(rewrite rolling_mean_length; lia)) as [b Hb].
  destruct (signal_col_lookup (length d) i rsi macd sig _ _ r m s a b Hi Hr Hm Hs Ha Hb)
    as (q & Hq & Hv).
  exists (rsi_vote r + cross_vote m s + cross_vote a b)%Z, q.
  split; [unfold vote_sum; rewrite Hr, Hm, Hs, Ha, Hb; reflexivity|].
  split; [exact Hq|]. split; [exact Hv|].
  pose proof (rsi_vote_range r). pose proof (cross_vote_range m s).
  pose proof (cross_vote_range a b). lia.
Qed.

Lemma third_range (q : Q) (k : Z) :
  (q == inject_Z k / 3)%Q -> (-3 <= k <= 3)%Z -> (-1 <= q <= 1)%Q.
Proof.
  intros Hq [Hlo Hhi]. rewrite Hq.
  rewrite Zle_Qle in Hlo, Hhi. change (inject_Z (-3)) with (-3)%Q in Hlo.
  change (inject_Z 3) with 3%Q in Hhi.
  split; [apply Qle_shift_div_l|apply Qle_shift_div_r]; lra.
Qed.

End SignalRows.

(** X4.  Every entry of the Signal column generate_signals returns is a
    finite number k/3 with k an integer between -3 and 3, hence between -1
    and 1. *)
Theorem composite_signal_in_unit_range (d : list TechnicalAnalysis.bar)
    (signals : gmap string (list fval)) (i : nat) (x : fval) :
  TechnicalAnalysis.generate_signals (Some d) = Some signals ->
  TechnicalAnalysis.col signals "Signal" !! i = Some x ->
  exists q k, x = Num q /\ (q == inject_Z k / 3)%Q /\ (-3 <= k <= 3)%Z
              /\ (-1 <= q <= 1)%Q.
Proof.
  intros Hgen Hx.
  destruct (Nat.lt_ge_cases (length d) 200) as [Hshort|Hlen].
  { rewrite (generate_signals_short d Hshort) in Hgen. discriminate. }
  destruct (generate_signals_frame d Hlen)
    as (signals' & rsi & macd & sig & hist & Hgen' & Hrsi & Hmacd & _ & _ & _ & _ & _ & Hcol).
  assert (signals' = signals) as -> by congruence.
  unfold TechnicalAnalysis.col in Hx. rewrite Hcol in Hx. simpl in Hx.
  assert (Hi : (i < length d)%nat).
  { apply lookup_lt_Some in Hx. pose proof (signal_col_length (length d) rsi macd sig
      (rolling_mean 20 (TechnicalAnalysis.close_col d))
      (rolling_mean 50 (TechnicalAnalysis.close_col d))). lia. }
  destruct (signal_col_row d rsi macd sig hist i Hrsi Hmacd Hi) as (k & q & _ & Hq & Hv & Hk).
  rewrite Hq in Hx. injection Hx as <-.
  exists q, k. repeat split; try lia; try exact Hv; eapply third_range; eauto.
Qed.

Lemma composite_signal_in_unit_range_witness :
  exists q k, Num (1 # 3) = Num q /\ (q == inject_Z k / 3)%Q /\ (-3 <= k <= 3)%Z
              /\ (-1 <= q <= 1)%Q.
Proof.
  assert (H : (TechnicalAnalysis.generate_signals (Some (SignalSpec.ticked 199 1001))
               ≫= fun signals => TechnicalAnalysis.col signals "Signal" !! 199%nat)
              = Some (Num (1 # 3)))
    by (vm_compute; reflexivity).
  destruct (TechnicalAnalysis.generate_signals (Some (SignalSpec.ticked 199 1001)))
    as [signals|] eqn:Hgen; [|discriminate].
  exact (composite_signal_in_unit_range (SignalSpec.ticked 199 1001) signals 199
           (Num (1 # 3)) Hgen H).
Defined.

(** ** The signal summary *)

Section Summary.

Import TechnicalAnalysis CompositeSpec IndicatorSpec.

Lemma latest_of_column (signals : DataFrame) (name : string) (c : list fval) (n : nat) :
  signals !! name = Some c -> length c = n -> (0 < n)%nat ->
  exists x, latest signals name = Some x /\ c !! (n - 1)%nat = Some x.
Proof.
  intros Hc Hlen Hn. unfold latest, iloc_last. rewrite Hc. cbn [mbind option_bind].
  rewrite last_lookup, Hlen.
  replace (Nat.pred n) with (n - 1)%nat by lia.
  destruct (lookup_lt_is_Some_2 c (n - 1)%nat ltac:(lia)) as [x Hx]. eauto.
Qed.

Lemma df_not_empty (signals : DataFrame) (name : string) (c : list fval) :
  signals !! name = Some c -> c <> [] -> df_empty signals = false.
Proof.
  intros Hc Hne. unfold df_empty. apply bool_decide_eq_false_2.
  intros H. apply Hne. exact (H name c Hc).
Qed.

Lemma classify_third (q : Q) (k : Z) :
  (q == inject_Z k / 3)%Q ->
  fgt (Num q) (Num (2 # 10)) = (0 <? k)%Z
  /\ flt (Num q) (Num (- 2 # 10)) = (k <? 0)%Z.
Proof.
  intros Hq. unfold fgt, flt.
  assert (Hq3 : (q * 3 == inject_Z k)%Q) by (rewrite Hq; field).
  split.
  - destruct (Z.ltb_spec 0 k) as [Hk|Hk].
    + apply Qltb_lt. assert (H : (1 <= k)%Z) by lia.
      rewrite Zle_Qle in H. change (inject_Z 1) with 1%Q in H. lra.
    + apply Qltb_ge. rewrite Zle_Qle in Hk. change (inject_Z 0) with 0%Q in Hk. lra.
  - destruct (Z.ltb_spec k 0) as [Hk|Hk].
    + apply Qltb_lt. assert (H : (k <= -1)%Z) by lia.
      rewrite Zle_Qle in H. change (inject_Z (-1)) with (-1)%Q in H. lra.
    + apply Qltb_ge. rewrite Zle_Qle in Hk. change (inject_Z 0) with 0%Q in Hk. lra.
Qed.

Lemma strength_third (q : Q) (k : Z) :
  (q == inject_Z k / 3)%Q -> (Qred (Qabs q) == inject_Z (Z.abs k) / 3)%Q.
Proof.
  intros Hq. rewrite Qred_correct.
  assert (Hq3 : (q * 3 == inject_Z k)%Q) by (rewrite Hq; field).
  destruct (Z.le_ge_cases 0 k) as [Hk|Hk].
  - rewrite Z.abs_eq by exact Hk.
    rewrite Zle_Qle in Hk. change (inject_Z 0) with 0%Q in Hk.
    rewrite Qabs_pos by lra. exact Hq.
  - rewrite Z.abs_neq by exact Hk. rewrite inject_Z_opp.
    rewrite Zle_Qle in Hk. change (inject_Z 0) with 0%Q in Hk.
    rewrite Qabs_neg by lra. rewrite Hq. field.
Qed.

Lemma calculate_macd_hist_length (d : list bar) (f s g : nat) macd sig hist :
  calculate_macd (Some d) f s g = Some (macd, sig, hist) -> length hist = length d.
Proof.
  unfold calculate_macd. destruct (length d <? s + g)%nat; [discriminate|].
  intros [= <- <- <-].
  rewrite !length_map, !length_zip_with, !length_ewm_mean, !length_zip_with,
    !length_ewm_mean, !length_map.
  lia.
Qed.

(** The summary of a series of 200 bars or more, field by field. *)
Lemma summary_of_long_series (d : list bar) :
  (200 <= length d)%nat ->
  exists s rsi macd sig hist k q,
    get_signal_summary (Some d) None = Some s
    /\ calculate_rsi (Some d) 14 = Some rsi
    /\ calculate_macd (Some d) 12 26 9 = Some (macd, sig, hist)
    /\ vote_sum rsi macd sig (rolling_mean 20 (close_col d))
         (rolling_mean 50 (close_col d)) (length d - 1) = Some k
    /\ (q == inject_Z k / 3)%Q /\ (-3 <= k <= 3)%Z
    /\ signal_type s = (if (0 <? k)%Z then BUY else if (k <? 0)%Z then SELL else NEUTRAL)
    /\ signal_strength s = Num (Qred (Qabs q))
    /\ close_col d !! (length d - 1)%nat = Some (price s)
    /\ rsi !! (length d - 1)%nat = Some (TechnicalAnalysis.rsi s)
    /\ macd !! (length d - 1)%nat = Some (TechnicalAnalysis.macd s)
    /\ sig !! (length d - 1)%nat = Some (macd_signal s)
    /\ hist !! (length d - 1)%nat = Some (macd_histogram s).
Proof.
  intros Hlen.
  destruct (generate_signals_frame d Hlen)
    as (signals & rsi & macd & sig & hist & Hgen & Hrsi & Hmacd
        & Hclose & Hr & Hm & Hs & Hh & Hsig).
  pose proof (calculate_rsi_length d 14 rsi Hrsi) as Lrsi.
  destruct (calculate_macd_length d 12 26 9 macd sig hist Hmacd) as [Lmacd Lsig].
  pose proof (calculate_macd_hist_length d 12 26 9 macd sig hist Hmacd) as Lhist.
  assert (Lclose : length (close_col d) = length d)
    by (unfold close_col; apply length_map).
  destruct (signal_col_row d rsi macd sig hist (length d - 1) Hrsi Hmacd ltac:(lia))
    as (k & q & Hk & Hq & Hv & Hkr).
  assert (Lsigcol : length (signal_col (length d) rsi macd sig (rolling_mean 20 (close_col d))
                              (rolling_mean 50 (close_col d))) = length d).
  { unfold signal_col, add_cols, cross_signal_col, rsi_signal_col, loc_set, const_col,
      gt_scalar, lt_scalar, gt_cols, lt_cols.
    rewrite ?length_map, ?length_zip_with, ?length_map, ?length_zip_with,
      ?length_replicate, ?length_map, ?length_zip_with, ?rolling_mean_length.
    rewrite ?length_map, ?length_zip_with, ?length_replicate, ?rolling_mean_length. lia. }
  destruct (latest_of_column signals "Signal" _ (length d) Hsig Lsigcol ltac:(lia)) as (x0 & L0 & E0).
  rewrite Hq in E0. injection E0 as <-.
  destruct (latest_of_column signals "Close" _ (length d) Hclose Lclose ltac:(lia)) as (x1 & L1 & E1).
  destruct (latest_of_column signals "RSI" _ (length d) Hr Lrsi ltac:(lia)) as (x2 & L2 & E2).
  destruct (latest_of_column signals "MACD" _ (length d) Hm Lmacd ltac:(lia)) as (x3 & L3 & E3).
  destruct (latest_of_column signals "MACD_Signal" _ (length d) Hs Lsig ltac:(lia)) as (x4 & L4 & E4).
  destruct (latest_of_column signals "MACD_Histogram" _ (length d) Hh Lhist ltac:(lia))
    as (x5 & L5 & E5).
  assert (Hne : df_empty signals = false).
  { apply (df_not_empty signals "Close" (close_col d) Hclose).
    intros E. rewrite E in Lclose. simpl in Lclose. lia. }
  destruct (classify_third q k Hv) as [Hbuy Hsell].
  eexists. exists rsi, macd, sig, hist, k, q.
  split.
  { unfold get_signal_summary. rewrite Hgen, Hne, L0, L1, L2, L3, L4, L5.
    cbn [mbind option_bind]. reflexivity. }
  cbn [signal_type signal_strength price TechnicalAnalysis.rsi TechnicalAnalysis.macd
       macd_signal macd_histogram].
  split; [exact Hrsi|]. split; [exact Hmacd|]. split; [exact Hk|].
  split; [exact Hv|]. split; [exact Hkr|].
  split; [now rewrite Hbuy, Hsell|].
  repeat split; assumption.
Qed.

End Summary.

(** X5.  On fewer than 200 bars get_signal_summary returns nothing.  On 200
    bars or more it returns a summary read off the last bar: price, rsi,
    macd, macd_signal and macd_histogram are the last entries of their
    columns; signal_type is BUY when the sum of the three sub-signals on the
    last bar is positive, SELL when it is negative, NEUTRAL when it is zero;
    signal_strength is the absolute value of that sum over 3. *)
Theorem summary_reads_last_bar (d : list TechnicalAnalysis.bar) :
  ((length d < 200)%nat -> TechnicalAnalysis.get_signal_summary (Some d) None = None)
  /\ ((200 <= length d)%nat ->
      exists s rsi macd sig hist k,
        TechnicalAnalysis.get_signal_summary (Some d) None = Some s
        /\ TechnicalAnalysis.calculate_rsi (Some d) 14 = Some rsi
        /\ TechnicalAnalysis.calculate_macd (Some d) 12 26 9 = Some (macd, sig, hist)
        /\ IndicatorSpec.vote_sum rsi macd sig
             (rolling_mean 20 (TechnicalAnalysis.close_col d))
             (rolling_mean 50 (TechnicalAnalysis.close_col d)) (length d - 1) = Some k
        /\ TechnicalAnalysis.signal_type s
           = (if (0 <? k)%Z then TechnicalAnalysis.BUY
              else if (k <? 0)%Z then TechnicalAnalysis.SELL
              else TechnicalAnalysis.NEUTRAL)
        /\ (exists q, TechnicalAnalysis.signal_strength s = Num q
                      /\ (q == inject_Z (Z.abs k) / 3)%Q)
        /\ TechnicalAnalysis.close_col d !! (length d - 1)%nat
           = Some (TechnicalAnalysis.price s)
        /\ rsi !! (length d - 1)%nat = Some (TechnicalAnalysis.rsi s)
        /\ macd !! (length d - 1)%nat = Some (TechnicalAnalysis.macd s)
        /\ sig !! (length d - 1)%nat = Some (TechnicalAnalysis.macd_signal s)
        /\ hist !! (length d - 1)%nat = Some (TechnicalAnalysis.macd_histogram s)).
Proof.
  split.
  - intros H. unfold TechnicalAnalysis.get_signal_summary.
    now rewrite (generate_signals_short d H).
  - intros H.
    destruct (summary_of_long_series d H)
      as (s & rsi & macd & sig & hist & k & q & Hs & Hrsi & Hmacd & Hk & Hq & _
          & Hty & Hst & Hp & Hr & Hm & Hsg & Hh).
    exists s, rsi, macd, sig, hist, k.
    repeat (split; [assumption|]).
    split; [|repeat split; assumption].
    exists (Qred (Qabs q)). split; [exact Hst|now apply strength_third].
Qed.

Lemma summary_reads_last_bar_witness :
  exists s rsi macd sig hist k,
    TechnicalAnalysis.get_signal_summary SignalSpec.ta_down None = Some s
    /\ TechnicalAnalysis.calculate_rsi SignalSpec.ta_down 14 = Some rsi
    /\ TechnicalAnalysis.calculate_macd SignalSpec.ta_down 12 26 9 = Some (macd, sig, hist)
    /\ IndicatorSpec.vote_sum rsi macd sig
         (rolling_mean 20 (TechnicalAnalysis.close_col (SignalSpec.ticked 199 999)))
         (rolling_mean 50 (TechnicalAnalysis.close_col (SignalSpec.ticked 199 999)))
         (length (SignalSpec.ticked 199 999) - 1) = Some k
    /\ TechnicalAnalysis.signal_type s
       = (if (0 <? k)%Z then TechnicalAnalysis.BUY
          else if (k <? 0)%Z then TechnicalAnalysis.SELL
          else TechnicalAnalysis.NEUTRAL).
Proof.
  destruct (proj2 (summary_reads_last_bar (SignalSpec.ticked 199 999)))
    as (s & rsi & macd & sig & hist & k & Hs & Hrsi & Hmacd & Hk & Hty & _).
  - vm_compute. lia.
  - exists s, rsi, macd, sig, hist, k. auto.
Defined.

(** ** A flat series *)

Section FlatSeries.

Import TechnicalAnalysis CompositeSpec IndicatorSpec NotificationSystem.

Lemma close_col_flat (c : Q) (d : list bar) :
  Forall (fun b => Close b == c)%Q d ->
  close_col d = replicate (length d) (Num (Qred c)).
Proof.
  unfold close_col. induction 1 as [|b d Hb _ IH]; simpl; [reflexivity|].
  rewrite IH. do 2 f_equal. now apply Qred_complete.
Qed.

Lemma ewm_from_flat (a c : Q) (s : list Q) :
  Forall (fun x => x == c)%Q s ->
  ewm_from a (Qred c) s = replicate (length s) (Qred c).
Proof.
  induction 1 as [|x s Hx _ IH]; simpl; [reflexivity|].
  assert (E : Qred ((1 - a) * Qred c + a * x) = Qred c).
  { apply Qred_complete. rewrite Qred_correct, Hx. ring. }
  rewrite E. now f_equal.
Qed.

Lemma ewm_mean_flat (span : nat) (c : Q) (s : list Q) :
  Forall (fun x => x == c)%Q s ->
  ewm_mean span s = replicate (length s) (Qred c).
Proof.
  destruct 1 as [|x s Hx Hs]; simpl; [reflexivity|].
  assert (E : Qred x = Qred c) by now apply Qred_complete.
  rewrite E. f_equal. now apply ewm_from_flat.
Qed.

Lemma Forall_replicate_eq (c : Q) (n : nat) : Forall (fun x => x == c)%Q (replicate n c).
Proof. apply Forall_replicate. reflexivity. Qed.

Lemma zip_with_replicate_same {A B : Type} (f : A -> A -> B) (n : nat) (x y : A) :
  zip_with f (replicate n x) (replicate n y) = replicate n (f x y).
Proof. induction n as [|n IH]; simpl; [reflexivity|]. now rewrite IH. Qed.

Lemma map_replicate {A B : Type} (f : A -> B) (n : nat) (x : A) :
  map f (replicate n x) = replicate n (f x).
Proof. induction n as [|n IH]; simpl; [reflexivity|]. now rewrite IH. Qed.

(** On a flat series the three MACD columns are zero. *)
Lemma macd_flat (c : Q) (d : list bar) (f s g : nat) macd sig hist :
  Forall (fun b => Close b == c)%Q d ->
  calculate_macd (Some d) f s g = Some (macd, sig, hist) ->
  macd = replicate (length d) (Num 0) /\ sig = replicate (length d) (Num 0)
  /\ hist = replicate (length d) (Num 0).
Proof.
  intros Hd. unfold calculate_macd.
  destruct (length d <? s + g)%nat; [discriminate|].
  assert (Hc : Forall (fun x => x == c)%Q (map Close d))
    by (induction Hd; simpl; constructor; assumption).
  rewrite !(ewm_mean_flat _ c _ Hc), length_map.
  rewrite zip_with_replicate_same.
  assert (E : Qred (Qred c - Qred c) = 0%Q).
  { change 0%Q with (Qred 0). apply Qred_complete. ring. }
  rewrite E.
  rewrite (ewm_mean_flat g 0 _ (Forall_replicate_eq 0 _)), length_replicate.
  change (Qred 0) with 0%Q.
  rewrite zip_with_replicate_same. change (Qred (0 - 0)) with 0%Q.
  rewrite map_replicate. intros [= <- <- <-]. auto.
Qed.

Lemma fsum_zeros (k : nat) : fsum (replicate k (Num 0)) = Num 0.
Proof.
  unfold fsum. induction k as [|k IH]; simpl; [reflexivity|]. now rewrite IH.
Qed.

Lemma rolling_mean_zeros (w n i : nat) (x : fval) :
  rolling_mean w (replicate n (Num 0)) !! i = Some x -> x = NaN \/ x = Num 0.
Proof.
  intros Hx.
  assert (Hi : (i < n)%nat).
  { apply lookup_lt_Some in Hx. now rewrite rolling_mean_length, length_replicate in Hx. }
  rewrite rolling_mean_lookup in Hx by (rewrite length_replicate; lia).
  injection Hx as <-.
  unfold window. rewrite drop_replicate, take_replicate.
  set (k := Nat.min (Nat.min w (S i)) (n - (S i - w))).
  unfold window_mean.
  rewrite (observations_all (replicate k (Num 0))), length_replicate, fsum_zeros.
  - destruct (k <? w)%nat; [now left|].
    unfold of_Z, fdiv. destruct (Qeq_bool (inject_Z (Z.of_nat k)) 0) eqn:E.
    + now left.
    + right. reflexivity.
  - apply Forall_replicate. exists 0%Q. split; [reflexivity|apply Qle_refl].
Qed.

Lemma diff_from_flat (x : Q) (k : nat) :
  diff_from (Num (Qred x)) (replicate k (Num (Qred x))) = replicate k (Num 0).
Proof.
  induction k as [|k IH]; simpl; [reflexivity|]. rewrite IH. do 2 f_equal.
  change 0%Q with (Qred 0). apply Qred_complete. rewrite !Qred_correct. ring.
Qed.

(** On a flat series the RSI is undefined on every bar. *)
Lemma rsi_flat (c : Q) (d : list bar) (period i : nat) rsi (x : fval) :
  Forall (fun b => Close b == c)%Q d ->
  calculate_rsi (Some d) period = Some rsi ->
  rsi !! i = Some x -> x = NaN.
Proof.
  intros Hd. unfold calculate_rsi.
  destruct (length d <? period + 1)%nat; [discriminate|].
  intros H. assert (rsi = (rsi_columns d period).2) as -> by congruence. clear H.
  unfold rsi_columns, div_cols, where_. cbn [snd].
  rewrite (close_col_flat c d Hd).
  destruct (length d) as [|k]; [discriminate|].
  cbn [replicate diff]. rewrite diff_from_flat.
  cbn [map]. rewrite !map_replicate.
  change (if fgt NaN (Num 0) then NaN else Num 0) with (Num 0).
  change (if flt NaN (Num 0) then NaN else Num 0) with (Num 0).
  change (if fgt (Num 0) (Num 0) then Num 0 else Num 0) with (Num 0).
  change (if flt (Num 0) (Num 0) then Num 0 else Num 0) with (Num 0).
  change (fneg (Num 0)) with (Num 0).
  change (Num 0 :: replicate k (Num 0)) with (replicate (S k) (Num 0)).
  rewrite lookup_map, lookup_zip_with.
  destruct (rolling_mean period (replicate (S k) (Num 0)) !! i) as [y|] eqn:Hy;
    [|discriminate].
  cbn [mbind option_bind fmap option_fmap option_map].
  destruct (rolling_mean_zeros _ _ _ _ Hy) as [->| ->]; intros [= <-]; reflexivity.
Qed.

Lemma cross_vote_equal (a b : fval) (c : Q) :
  (a = NaN \/ equals c a) -> (b = NaN \/ equals c b) -> cross_vote a b = 0%Z.
Proof.
  unfold cross_vote, fgt.
  intros [->|(x & -> & Hx)] [->|(y & -> & Hy)]; try reflexivity.
  unfold flt.
  assert (H1 : Qltb x y = false) by (apply Qltb_ge; rewrite Hx, Hy; apply Qle_refl).
  assert (H2 : Qltb y x = false) by (apply Qltb_ge; rewrite Hx, Hy; apply Qle_refl).
  now rewrite H1, H2.
Qed.

Lemma rolling_mean_flat (c : Q) (w n i : nat) (x : fval) :
  rolling_mean w (replicate n (Num (Qred c))) !! i = Some x ->
  x = NaN \/ equals c x.
Proof.
  intros Hx.
  assert (Hi : (i < n)%nat).
  { apply lookup_lt_Some in Hx. now rewrite rolling_mean_length, length_replicate in Hx. }
  assert (Hall : Forall (within c c) (replicate n (Num (Qred c)))).
  { apply Forall_replicate. eexists. split; [reflexivity|].
    rewrite Qred_correct. split; apply Qle_refl. }
  destruct (decide (0 < w <= S i)%nat) as [Hw|Hw].
  - destruct (rolling_mean_within c c w i _ Hall ltac:(rewrite length_replicate; lia) Hw)
      as (q & Hq & Hb).
    rewrite Hq in Hx. injection Hx as <-. right. exists q. split; [reflexivity|].
    apply Qle_antisym; tauto.
  - left. destruct w as [|w].
    + rewrite rolling_mean_lookup in Hx by (rewrite length_replicate; lia).
      injection Hx as <-. reflexivity.
    + rewrite rolling_mean_warmup in Hx by (rewrite ?length_replicate; lia).
      now injection Hx as <-.
Qed.

End FlatSeries.

Section FlatSummary.

Import TechnicalAnalysis CompositeSpec IndicatorSpec NotificationSystem.

Lemma flat_vote_sum (c : Q) (d : list bar) rsi macd sig hist (i : nat) (k : Z) :
  Forall (fun b => Close b == c)%Q d ->
  calculate_rsi (Some d) 14 = Some rsi ->
  calculate_macd (Some d) 12 26 9 = Some (macd, sig, hist) ->
  vote_sum rsi macd sig (rolling_mean 20 (close_col d)) (rolling_mean 50 (close_col d)) i
  = Some k ->
  k = 0%Z.
Proof.
  intros Hd Hrsi Hmacd. unfold vote_sum.
  destruct (rsi !! i) as [r|] eqn:Hr; [|discriminate].
  destruct (macd !! i) as [m|] eqn:Hm; [|discriminate].
  destruct (sig !! i) as [s|] eqn:Hs; [|discriminate].
  destruct (rolling_mean 20 (close_col d) !! i) as [a|] eqn:Ha; [|discriminate].
  destruct (rolling_mean 50 (close_col d) !! i) as [b|] eqn:Hb; [|discriminate].
  cbn [mbind option_bind]. intros [= <-].
  rewrite (rsi_flat c d 14 i rsi r Hd Hrsi Hr).
  destruct (macd_flat c d 12 26 9 macd sig hist Hd Hmacd) as (Em & Es & _).
  rewrite Em in Hm. rewrite Es in Hs.
  apply lookup_replicate in Hm as [-> _]. apply lookup_replicate in Hs as [-> _].
  rewrite (close_col_flat c d Hd) in Ha, Hb.
  rewrite (cross_vote_equal a b c (rolling_mean_flat c _ _ _ _ Ha)
             (rolling_mean_flat c _ _ _ _ Hb)).
  reflexivity.
Qed.

Lemma summary_of_generated (d : list bar) (signals : DataFrame) :
  generate_signals (Some d) = Some signals ->
  get_signal_summary (Some d) (Some signals) = get_signal_summary (Some d) None.
Proof. intros H. unfold get_signal_summary. now rewrite H. Qed.

End FlatSummary.

(** X6.  On 200 bars or more that all close at the same price, every entry
    of the Signal column is zero, the summary is NEUTRAL with strength 0,
    its three MACD fields are 0 and its RSI is undefined, and
    check_technical_signals returns no notification whatever signal type
    was stored. *)
Theorem flat_series_is_neutral (c : Q) (d : list TechnicalAnalysis.bar) :
  (200 <= length d)%nat ->
  Forall (fun b => TechnicalAnalysis.Close b == c)%Q d ->
  exists signals s,
    TechnicalAnalysis.generate_signals (Some d) = Some signals
    /\ (forall i, (i < length d)%nat ->
          exists q, TechnicalAnalysis.col signals "Signal" !! i = Some (Num q)
                    /\ (q == 0)%Q)
    /\ TechnicalAnalysis.get_signal_summary (Some d) None = Some s
    /\ TechnicalAnalysis.signal_type s = TechnicalAnalysis.NEUTRAL
    /\ TechnicalAnalysis.signal_strength s = Num 0
    /\ TechnicalAnalysis.macd s = Num 0
    /\ TechnicalAnalysis.macd_signal s = Num 0
    /\ TechnicalAnalysis.macd_histogram s = Num 0
    /\ TechnicalAnalysis.rsi s = NaN
    /\ forall self : NotificationSystem.t,
         (NotificationSystem.check_technical_signals self (Some d)).2 = None.
Proof.
  intros Hlen Hd.
  destruct (generate_signals_frame d Hlen)
    as (signals & rsi & macd & sig & hist & Hgen & Hrsi & Hmacd
        & Hclose & _ & _ & _ & _ & Hsig).
  destruct (summary_of_long_series d Hlen)
    as (s & rsi' & macd' & sig' & hist' & k & q & Hs & Hrsi' & Hmacd' & Hk & Hq & _
        & Hty & Hst & _ & Hr & Hm & Hsg & Hh).
  assert (rsi' = rsi) as -> by congruence.
  assert (macd' = macd /\ sig' = sig /\ hist' = hist) as (-> & -> & ->)
    by (rewrite Hmacd in Hmacd'; injection Hmacd' as <- <- <-; auto).
  assert (k = 0%Z) as -> by exact (flat_vote_sum c d rsi macd sig hist _ k Hd Hrsi Hmacd Hk).
  simpl in Hty.
  destruct (macd_flat c d 12 26 9 macd sig hist Hd Hmacd) as (Em & Es & Eh).
  rewrite Em in Hm. rewrite Es in Hsg. rewrite Eh in Hh.
  apply lookup_replicate in Hm as [Hm _], Hsg as [Hsg _], Hh as [Hh _].
  exists signals, s. split; [exact Hgen|]. split.
  { intros i Hi.
    destruct (signal_col_row d rsi macd sig hist i Hrsi Hmacd Hi)
      as (k' & q' & Hk' & Hq' & Hv' & _).
    rewrite (flat_vote_sum c d rsi macd sig hist i k' Hd Hrsi Hmacd Hk') in Hv'.
    exists q'. split.
    - unfold TechnicalAnalysis.col. rewrite Hsig. exact Hq'.
    - rewrite Hv'. vm_compute. reflexivity. }
  split; [exact Hs|]. split; [exact Hty|]. split.
  { rewrite Hst. f_equal. change 0%Q with (Qred 0). apply Qred_complete.
    rewrite Hq. vm_compute. reflexivity. }
  split; [congruence|]. split; [congruence|]. split; [congruence|]. split.
  { eapply rsi_flat; eauto. }
  intros self. rewrite check_technical_signals_unfold.
  unfold SignalSpec.summary_of. rewrite Hgen.
  rewrite (df_not_empty signals "Close" _ Hclose).
  - rewrite (summary_of_generated d signals Hgen), Hs. cbn [snd]. rewrite Hty.
    destruct (NotificationSystem.last_signal self) as [[]|]; reflexivity.
  - intros E. apply (f_equal length) in E.
    unfold TechnicalAnalysis.close_col in E. rewrite length_map in E. simpl in E. lia.
Qed.

Lemma flat_series_is_neutral_witness :
  exists signals s,
    TechnicalAnalysis.generate_signals SignalSpec.ta_flat = Some signals
    /\ TechnicalAnalysis.get_signal_summary SignalSpec.ta_flat None = Some s
    /\ TechnicalAnalysis.signal_type s = TechnicalAnalysis.NEUTRAL.
Proof.
  destruct (flat_series_is_neutral 1000 (SignalSpec.ticked 199 1000))
    as (signals & s & Hgen & _ & Hs & Hty & _).
  - vm_compute. lia.
  - unfold SignalSpec.ticked. apply Forall_app. split.
    + apply Forall_replicate. reflexivity.
    + constructor; [reflexivity|constructor].
  - exists signals, s. auto.
Defined.

(** ** When the RSI is defined *)

Section RsiDefined.

Import TechnicalAnalysis RsiSpec.

Lemma rsi_formula_flat (ag al : Q) :
  (ag == 0)%Q -> (al == 0)%Q ->
  fsub (Num 100) (fdiv (Num 100) (fadd (Num 1) (fdiv (Num ag) (Num al)))) = NaN.
Proof.
  intros Hg Hl. unfold fdiv at 2.
  apply Qeq_bool_iff in Hg, Hl. now rewrite Hg, Hl.
Qed.

End RsiDefined.

(** X7.  The RSI column is undefined on the first period - 1 bars.  From bar
    period - 1 on, the average gain and the average loss are finite and
    non-negative, and the RSI is undefined exactly when both are zero, that
    is when no close changed inside the window. *)
Theorem rsi_defined_unless_flat_window (d : list TechnicalAnalysis.bar) (period i : nat)
    (rsi : list fval) :
  TechnicalAnalysis.calculate_rsi (Some d) period = Some rsi ->
  (i < length d)%nat ->
  ((S i < period)%nat -> rsi !! i = Some NaN)
  /\ ((0 < period <= S i)%nat ->
      exists ag al,
        (TechnicalAnalysis.rsi_columns d period).1.1 !! i = Some (Num ag)
        /\ (TechnicalAnalysis.rsi_columns d period).1.2 !! i = Some (Num al)
        /\ (0 <= ag)%Q /\ (0 <= al)%Q
        /\ (rsi !! i = Some NaN <-> (ag == 0)%Q /\ (al == 0)%Q)).
Proof.
  intros Hrsi Hi. split; [intros Hw; exact (rsi_warmup d period i rsi Hrsi Hi Hw)|].
  intros Hw. revert Hrsi. unfold TechnicalAnalysis.calculate_rsi.
  destruct (length d <? period + 1)%nat; [discriminate|].
  intros H. assert (rsi = (TechnicalAnalysis.rsi_columns d period).2) as -> by congruence.
  clear H.
  pose proof (diff_shape _ (close_col_is_num d)) as Hdelta.
  pose proof (gain_nonneg _ Hdelta) as Hgain.
  pose proof (loss_nonneg _ Hdelta) as Hloss.
  unfold TechnicalAnalysis.rsi_columns. cbn [fst snd].
  set (gain := where_ (fun x => fgt x (Num 0)) (Num 0)
                 (diff (TechnicalAnalysis.close_col d))) in *.
  set (loss := map fneg (where_ (fun x => flt x (Num 0)) (Num 0)
                 (diff (TechnicalAnalysis.close_col d)))) in *.
  assert (Lgain : length gain = length d).
  { unfold gain, where_, TechnicalAnalysis.close_col.
    now rewrite length_map, length_diff, length_map. }
  assert (Lloss : length loss = length d).
  { unfold loss, where_, TechnicalAnalysis.close_col.
    now rewrite !length_map, length_diff, length_map. }
  destruct (rolling_mean_nonneg period i gain Hgain ltac:(lia)) as [Hg _].
  destruct (rolling_mean_nonneg period i loss Hloss ltac:(lia)) as [Hl _].
  destruct (Hg Hw) as (ag & Hag & Hag0). destruct (Hl Hw) as (al & Hal & Hal0).
  exists ag, al. repeat (split; [assumption|]).
  rewrite lookup_map. unfold div_cols. rewrite lookup_zip_with, Hag, Hal.
  cbn -[fsub fdiv fadd].
  destruct (Qlt_le_dec 0 al) as [Hpos|Hle].
  - destruct (rsi_formula_bounds ag al Hag0 Hpos) as (r & -> & _).
    split; [discriminate|]. intros [_ Hz]. rewrite Hz in Hpos.
    now apply Qlt_irrefl in Hpos.
  - assert (Hz : (al == 0)%Q) by now apply Qle_antisym.
    destruct (Qlt_le_dec 0 ag) as [Hgpos|Hgle].
    + rewrite (rsi_formula_no_loss ag al Hgpos Hz).
      split; [discriminate|]. intros [Hgz _]. rewrite Hgz in Hgpos.
      now apply Qlt_irrefl in Hgpos.
    + assert (Hgz : (ag == 0)%Q) by now apply Qle_antisym.
      rewrite (rsi_formula_flat ag al Hgz Hz). tauto.
Qed.

Lemma rsi_defined_unless_flat_window_witness :
  exists ag al,
    (TechnicalAnalysis.rsi_columns (SignalSpec.ticked 20 999) 14).1.1 !! 13%nat
    = Some (Num ag)
    /\ (TechnicalAnalysis.rsi_columns (SignalSpec.ticked 20 999) 14).1.2 !! 13%nat
       = Some (Num al)
    /\ (0 <= ag)%Q /\ (0 <= al)%Q.
Proof.
  assert (H : exists rsi, TechnicalAnalysis.calculate_rsi (Some (SignalSpec.ticked 20 999)) 14
                          = Some rsi) by (vm_compute; eexists; reflexivity).
  destruct H as [rsi H].
  destruct (proj2 (rsi_defined_unless_flat_window (SignalSpec.ticked 20 999) 14 13 rsi H
                     ltac:(vm_compute; lia)) ltac:(lia))
    as (ag & al & Hg & Hl & Hg0 & Hl0 & _).
  exists ag, al. auto.
Defined.
(** ** Alert state machine: further properties *)

Section NewsChannel.

Import NotificationSystem AlertSpec NewsSpec.

Lemma filter_filter {A : Type} (f g : A -> bool) (l : list A) :
  List.filter f (List.filter g l) = List.filter (fun x => g x && f x) l.
Proof.
  induction l as [|x l IH]; simpl; [reflexivity|].
  destruct (g x); simpl; [destruct (f x)|]; now rewrite IH.
Qed.

Lemma filter_ext_in {A : Type} (f g : A -> bool) (l : list A) :
  (forall x, In x l -> f x = g x) -> List.filter f l = List.filter g l.
Proof.
  induction l as [|x l IH]; simpl; intros H; [reflexivity|].
  rewrite (H x) by now left. rewrite IH by (intros; apply H; now right).
  reflexivity.
Qed.

Lemma filter_none {A : Type} (f : A -> bool) (l : list A) :
  (forall x, In x l -> f x = false) -> List.filter f l = [].
Proof.
  induction l as [|x l IH]; simpl; intros H; [reflexivity|].
  rewrite (H x) by now left. apply IH. intros; apply H; now right.
Qed.

Lemma current_ids_spec (news : list article) (a : article) :
  In a (get_high_impact_news news (7 # 10)) ->
  news_id a ∈ (list_to_set (map news_id (get_high_impact_news news (7 # 10))) : gset string).
Proof.
  intros H. apply elem_of_list_to_set. apply list_elem_of_In.
  apply in_map_iff. eauto.
Qed.

(** check_news in closed form. *)
Lemma check_news_closed_form (self : NotificationSystem.t) (news : list article) :
  let current := current_ids news in
  let seeded := bool_decide (last_news_ids self ≠ ∅) in
  (check_news self news).2
  = (if seeded then map news_notification (fresh_items (last_news_ids self) news) else [])
  /\ last_news_ids (check_news self news).1
     = (if bool_decide (get_high_impact_news news (7 # 10) = [])
        then last_news_ids self
        else if seeded && bool_decide (current ∖ last_news_ids self = ∅)
             then last_news_ids self
             else current).
Proof.
  cbv zeta. unfold check_news, current_ids, fresh_items.
  destruct news as [|a0 news0] eqn:En.
  { simpl. split; [now destruct (bool_decide _)|reflexivity]. }
  rewrite <- En. clear En a0 news0.
  remember (get_high_impact_news news (7 # 10)) as hi eqn:Ehi.
  assert (Hfresh : forall stored : gset string,
    List.filter (fun a => Qle_bool (7 # 10) (a_impact a) && bool_decide (news_id a ∉ stored))
      news
    = List.filter (fun a => bool_decide (news_id a ∉ stored)) hi).
  { intros stored. rewrite Ehi. unfold get_high_impact_news. now rewrite filter_filter. }
  rewrite Hfresh. clear Hfresh Ehi.
  destruct hi as [|h hi'].
  { simpl. split; [now destruct (bool_decide _)|reflexivity]. }
  rewrite (bool_decide_eq_false_2 (h :: hi' = [])) by discriminate.
  set (hi := h :: hi').
  set (current := (list_to_set (map news_id hi) : gset string)).
  destruct (decide (last_news_ids self = ∅)) as [He|Hne].
  - rewrite (bool_decide_eq_true_2 _ He).
    rewrite (bool_decide_eq_false_2 (last_news_ids self ≠ ∅)) by tauto.
    simpl. split; reflexivity.
  - rewrite (bool_decide_eq_false_2 _ Hne).
    rewrite (bool_decide_eq_true_2 (last_news_ids self ≠ ∅)) by exact Hne.
    destruct (decide (current ∖ last_news_ids self = ∅)) as [Hnew|Hnew].
    + rewrite (bool_decide_eq_true_2 _ Hnew). cbn -[List.filter map]. split; [|reflexivity].
      rewrite filter_none; [reflexivity|].
      intros a Ha. apply bool_decide_eq_false_2. intros Hout.
      assert (Hin : news_id a ∈ current ∖ last_news_ids self).
      { apply elem_of_difference. split; [|exact Hout].
        apply elem_of_list_to_set, list_elem_of_In, in_map_iff. eauto. }
      rewrite Hnew in Hin. now apply not_elem_of_empty in Hin.
    + rewrite (bool_decide_eq_false_2 _ Hnew). cbn -[List.filter map]. split; [|reflexivity].
      f_equal. apply filter_ext_in. intros a Ha.
      apply bool_decide_ext. rewrite elem_of_difference. split; [tauto|].
      intros Hout. split; [|exact Hout].
      apply elem_of_list_to_set, list_elem_of_In, in_map_iff. eauto.
Qed.

End NewsChannel.

(** X8.  check_news in closed form.  Once some ids are stored, a call
    returns one news notification for each fetched article with impact at
    least 0.7 whose id is not stored, in fetch order, and nothing else;
    with no id stored it returns nothing.  The stored ids afterwards are
    the current high-impact ids, except that they are left as they were
    when no article reaches the threshold, or when ids are stored and none
    of the current ones is new. *)
Theorem check_news_emits_exactly_the_unseen (self : NotificationSystem.t)
    (news : list NotificationSystem.article) :
  (NotificationSystem.check_news self news).2
  = (if bool_decide (NotificationSystem.last_news_ids self ≠ ∅)
     then map NotificationSystem.news_notification
              (AlertSpec.fresh_items (NotificationSystem.last_news_ids self) news)
     else [])
  /\ NotificationSystem.last_news_ids (NotificationSystem.check_news self news).1
     = (if bool_decide (NotificationSystem.get_high_impact_news news (7 # 10) = [])
        then NotificationSystem.last_news_ids self
        else if bool_decide (NotificationSystem.last_news_ids self ≠ ∅)
                && bool_decide (NewsSpec.current_ids news
                                ∖ NotificationSystem.last_news_ids self = ∅)
             then NotificationSystem.last_news_ids self
             else NewsSpec.current_ids news).
Proof. apply check_news_closed_form. Qed.

Section NewsRepeat.

Import NotificationSystem AlertSpec NewsSpec.

Lemma check_news_nothing_new (self : NotificationSystem.t) (news : list article) :
  last_news_ids self ≠ ∅ ->
  current_ids news ∖ last_news_ids self = ∅ ->
  check_news self news = (self, []).
Proof.
  intros Hne Hnew. unfold check_news. unfold current_ids in Hnew.
  destruct news as [|a news']; [reflexivity|]. set (news := a :: news') in *.
  destruct (get_high_impact_news news (7 # 10)) as [|h hi]; [reflexivity|].
  rewrite (bool_decide_eq_false_2 _ Hne).
  now rewrite (bool_decide_eq_true_2 _ Hnew).
Qed.

Lemma current_ids_nonempty (news : list article) :
  get_high_impact_news news (7 # 10) ≠ [] -> current_ids news ≠ ∅.
Proof.
  unfold current_ids. destruct (get_high_impact_news news (7 # 10)) as [|h hi]; [tauto|].
  intros _ H. assert (Hin : news_id h ∈ (∅ : gset string)).
  { rewrite <- H. apply elem_of_list_to_set. simpl. left. }
  now apply not_elem_of_empty in Hin.
Qed.

Lemma check_news_cases (self : NotificationSystem.t) (news : list article) :
  get_high_impact_news news (7 # 10) ≠ [] ->
  (check_news self news = (self, [])
   /\ last_news_ids self ≠ ∅ /\ current_ids news ∖ last_news_ids self = ∅)
  \/ exists out, check_news self news = (set_last_news_ids self (current_ids news), out).
Proof.
  intros Hhi. unfold check_news, current_ids in *.
  destruct news as [|a news']; [now destruct Hhi|]. set (news := a :: news') in *.
  destruct (get_high_impact_news news (7 # 10)) as [|h hi]; [tauto|].
  set (current := (list_to_set (map news_id (h :: hi)) : gset string)).
  destruct (decide (last_news_ids self = ∅)) as [He|Hne].
  - rewrite (bool_decide_eq_true_2 _ He). right. eauto.
  - rewrite (bool_decide_eq_false_2 _ Hne).
    destruct (decide (current ∖ last_news_ids self = ∅)) as [Hnew|Hnew].
    + rewrite (bool_decide_eq_true_2 _ Hnew). left. auto.
    + rewrite (bool_decide_eq_false_2 _ Hnew). right. eauto.
Qed.

End NewsRepeat.

(** X9.  Calling check_news again at once with the same fetched news
    returns nothing and leaves the object as the first call left it. *)
Theorem check_news_repeat_is_silent (self : NotificationSystem.t)
    (news : list NotificationSystem.article) :
  NotificationSystem.check_news (NotificationSystem.check_news self news).1 news
  = ((NotificationSystem.check_news self news).1, []).
Proof.
  destruct (decide (NotificationSystem.get_high_impact_news news (7 # 10) = [])) as [Hhi|Hhi].
  { unfold NotificationSystem.check_news. rewrite Hhi.
    destruct news; reflexivity. }
  pose proof (current_ids_nonempty news Hhi) as Hcur.
  assert (Hupdated : forall s : NotificationSystem.t,
            NotificationSystem.last_news_ids s = NewsSpec.current_ids news ->
            NotificationSystem.check_news s news = (s, [])).
  { intros s Hs. apply check_news_nothing_new; rewrite Hs; [exact Hcur|].
    apply difference_diag_L. }
  destruct (check_news_cases self news Hhi) as [(E & Hne & Hnew)|(out & E)];
    rewrite E; cbn [fst].
  - exact E.
  - now apply Hupdated.
Qed.

Section PriceEdges.

Import NotificationSystem AlertSpec.

Lemma check_price_movement_zero (self : NotificationSystem.t) (p last : Q) :
  last_price self = Some last -> (last == 0)%Q ->
  check_price_movement self (Some p) = (self, Raised "ZeroDivisionError").
Proof.
  intros Hl Hz. unfold check_price_movement. rewrite Hl.
  apply Qeq_bool_iff in Hz. now rewrite Hz.
Qed.

End PriceEdges.

(** X10.  While the stored price is zero, every call with a price raises
    ZeroDivisionError and leaves the object as it was: the stored price is
    never replaced and no price notification is returned again. *)
Theorem zero_price_blocks_price_channel (self : NotificationSystem.t) (last : Q)
    (prices : list Q) :
  NotificationSystem.last_price self = Some last -> (last == 0)%Q ->
  AlertSpec.run_price_checks self prices
  = (self, map (fun _ => NotificationSystem.Raised "ZeroDivisionError") prices).
Proof.
  intros Hl Hz. induction prices as [|p prices IH]; [reflexivity|].
  cbn [AlertSpec.run_price_checks map].
  rewrite (check_price_movement_zero self p last Hl Hz). now rewrite IH.
Qed.

Lemma zero_price_blocks_price_channel_witness :
  AlertSpec.run_price_checks AlertSpec.stuck_at_zero [1900%Q; 1950%Q]
  = (AlertSpec.stuck_at_zero,
     [NotificationSystem.Raised "ZeroDivisionError";
      NotificationSystem.Raised "ZeroDivisionError"]).
Proof.
  apply (zero_price_blocks_price_channel AlertSpec.stuck_at_zero 0 [1900%Q; 1950%Q]);
    reflexivity.
Defined.

(** X11.  A price notification is titled Gold Price Up when the current
    price is above the stored one and Gold Price Down otherwise; with a
    positive threshold a call at the stored price returns nothing. *)
Theorem price_notification_direction (self : NotificationSystem.t) (p last : Q) :
  NotificationSystem.last_price self = Some last -> ~ (last == 0)%Q ->
  (forall n,
     (NotificationSystem.check_price_movement self (Some p)).2
     = NotificationSystem.Returned (Some n) ->
     (NotificationSystem.n_title n = "Gold Price Up"%string /\ (last < p)%Q)
     \/ (NotificationSystem.n_title n = "Gold Price Down"%string /\ (p <= last)%Q))
  /\ ((0 < NotificationSystem.price_change_threshold self)%Q -> (p == last)%Q ->
      (NotificationSystem.check_price_movement self (Some p)).2
      = NotificationSystem.Returned None).
Proof.
  intros Hl Hnz. unfold NotificationSystem.check_price_movement. rewrite Hl.
  destruct (Qeq_bool last 0) eqn:Ez; [apply Qeq_bool_iff in Ez; contradiction|].
  split.
  - destruct (Qle_bool _ _); cbn [snd]; [|discriminate].
    intros n [= <-]. cbn [NotificationSystem.n_title].
    destruct (Qltb 0 (Qred (p - last))) eqn:E.
    + left. split; [reflexivity|]. apply Qltb_lt in E. rewrite Qred_correct in E. lra.
    + right. split; [reflexivity|]. apply Qltb_ge in E. rewrite Qred_correct in E. lra.
  - intros Hthr Heq.
    destruct (Qle_bool _ _) eqn:E; [|reflexivity]. exfalso.
    apply Qle_bool_iff in E. rewrite percent_change_value in E.
    assert (Hz : ((p - last) / last * 100 == 0)%Q) by (rewrite Heq; field; exact Hnz).
    rewrite Hz in E. change (Qabs 0) with 0%Q in E. lra.
Qed.

Lemma price_notification_direction_witness :
  (NotificationSystem.check_price_movement
     (NotificationSystem.set_last_price SignalSpec.fresh 1900) (Some 1900%Q)).2
  = NotificationSystem.Returned None.
Proof.
  apply (proj2 (price_notification_direction
                  (NotificationSystem.set_last_price SignalSpec.fresh 1900) 1900 1900
                  eq_refl ltac:(intros H; vm_compute in H; discriminate)));
    reflexivity.
Defined.

(** ** History queries and persistence *)

Section Recent.

Import NotificationSystem NotificationQueries.

Lemma slice_from_neg {A : Type} (limit : Z) (l : list A) :
  (0 < limit)%Z -> slice_from (- limit) l = last_n (Z.to_nat limit) l.
Proof.
  intros Hk. unfold slice_from, last_n.
  destruct (Z.ltb_spec (- limit) 0) as [_|?]; [|lia].
  now rewrite Z.opp_involutive.
Qed.

End Recent.

(** X12.  get_recent_notifications with a positive limit returns the newest
    entries of the history, as many as the limit allows; with limit 0 it
    returns the whole history; with a negative limit it drops that many of
    the oldest entries. *)
Theorem recent_notifications_by_limit (self : NotificationSystem.t) (limit : Z) :
  ((0 < limit)%Z ->
   exists older,
     NotificationSystem.notifications_history self
     = older ++ NotificationQueries.get_recent_notifications self limit
     /\ length (NotificationQueries.get_recent_notifications self limit)
        = Nat.min (Z.to_nat limit) (length (NotificationSystem.notifications_history self)))
  /\ (limit = 0%Z ->
      NotificationQueries.get_recent_notifications self limit
      = NotificationSystem.notifications_history self)
  /\ ((limit < 0)%Z ->
      NotificationQueries.get_recent_notifications self limit
      = drop (Z.to_nat (- limit)) (NotificationSystem.notifications_history self)).
Proof.
  assert (Hslice : NotificationQueries.get_recent_notifications self limit
                   = NotificationQueries.slice_from (- limit)
                       (NotificationSystem.notifications_history self)).
  { unfold NotificationQueries.get_recent_notifications.
    destruct (NotificationSystem.notifications_history self); [|reflexivity].
    unfold NotificationQueries.slice_from.
    destruct (- limit <? 0)%Z; now rewrite drop_nil. }
  rewrite Hslice. clear Hslice.
  set (h := NotificationSystem.notifications_history self). split; [|split].
  - intros Hpos. rewrite slice_from_neg by lia.
    exists (take (length h - Z.to_nat limit) h). split.
    + symmetry. apply last_n_suffix.
    + apply length_last_n.
  - intros ->. reflexivity.
  - intros Hneg. unfold NotificationQueries.slice_from.
    destruct (Z.ltb_spec (- limit) 0); [lia|reflexivity].
Qed.

Lemma recent_notifications_by_limit_witness :
  NotificationQueries.get_recent_notifications
    (HistorySpec.run_adds HistorySpec.fresh NotificationSystem.Missing
       (replicate 3 (NotificationSystem.WriteOk, Some HistorySpec.sample_notification))).1 0
  = NotificationSystem.notifications_history
      (HistorySpec.run_adds HistorySpec.fresh NotificationSystem.Missing
         (replicate 3 (NotificationSystem.WriteOk, Some HistorySpec.sample_notification))).1.
Proof.
  apply (proj1 (proj2 (recent_notifications_by_limit _ 0))). reflexivity.
Defined.

(** X13.  After an add_notification whose write succeeds, a restart loads
    the 100 newest entries of the history the object held: the whole of it
    when it has at most 100 entries. *)
Theorem saved_history_reloads (self : NotificationSystem.t)
    (disk : NotificationSystem.storage) (n : NotificationSystem.notification)
    (interval : nat) (threshold overbought oversold : Q) :
  let r := NotificationSystem.add_notification self disk NotificationSystem.WriteOk (Some n) in
  r.2 = true
  /\ NotificationSystem.notifications_history r.1.1
     = NotificationSystem.notifications_history self ++ [n]
  /\ NotificationSystem.notifications_history
       (NotificationSystem.init interval threshold overbought oversold r.1.2)
     = NotificationSystem.last_n 100 (NotificationSystem.notifications_history r.1.1)
  /\ ((length (NotificationSystem.notifications_history r.1.1) <= 100)%nat ->
      NotificationSystem.notifications_history
        (NotificationSystem.init interval threshold overbought oversold r.1.2)
      = NotificationSystem.notifications_history r.1.1).
Proof.
  cbv zeta. cbn [NotificationSystem.add_notification fst snd
                 NotificationSystem.save_notification_history NotificationSystem.init
                 NotificationSystem.notifications_history
                 NotificationSystem.set_notifications_history
                 NotificationSystem.load_notification_history].
  repeat split. intros H. unfold NotificationSystem.last_n.
  replace (length (NotificationSystem.notifications_history self ++ [n]) - 100)%nat
    with 0%nat by lia.
  reflexivity.
Qed.

Lemma saved_history_reloads_witness :
  NotificationSystem.notifications_history
    (NotificationSystem.init 900 (1 # 2) 70 30
       (NotificationSystem.add_notification HistorySpec.fresh NotificationSystem.Missing
          NotificationSystem.WriteOk (Some HistorySpec.sample_notification)).1.2)
  = NotificationSystem.notifications_history
      (NotificationSystem.add_notification HistorySpec.fresh NotificationSystem.Missing
         NotificationSystem.WriteOk (Some HistorySpec.sample_notification)).1.1.
Proof.
  apply (proj2 (proj2 (proj2 (saved_history_reloads HistorySpec.fresh
           NotificationSystem.Missing HistorySpec.sample_notification 900 (1 # 2) 70 30)))).
  vm_compute. lia.
Defined.

(** ** The report forecast *)

Section Forecast.

Import TechnicalAnalysis NotificationQueries ForecastSpec.

Lemma label_cases (label : option string) :
  label = None \/ label = Some "Bullish"%string \/ label = Some "Bearish"%string
  \/ exists l, label = Some l /\ l <> "Bullish"%string /\ l <> "Bearish"%string.
Proof.
  destruct label as [l|]; [|now left]. right.
  destruct (String.eqb_spec l "Bullish") as [->|H1]; [now left|].
  destruct (String.eqb_spec l "Bearish") as [->|H2]; [right; now left|].
  right. right. exists l. auto.
Qed.

Lemma forecast_other_label (signal : option SignalType) (l : string) :
  l <> "Bullish"%string -> l <> "Bearish"%string ->
  forecast signal (Some l) = forecast signal None
  /\ directed_label (Some l) = false.
Proof.
  intros H1 H2. apply String.eqb_neq in H1, H2.
  unfold forecast, directed_label. rewrite H1, H2.
  split; [|reflexivity]. now destruct signal as [[]|].
Qed.

End Forecast.

(** X14.  The forecast of the end-of-day report is Mixed exactly when the
    technical signal and the news sentiment point in opposite directions
    (BUY with Bearish, SELL with Bullish), and Neutral exactly when neither
    points anywhere; it lists one reason for each of the two that does. *)
Theorem forecast_mixed_on_disagreement (signal : option TechnicalAnalysis.SignalType)
    (label : option string) :
  ((NotificationQueries.forecast signal label).1 = "Mixed"%string <->
   (signal = Some TechnicalAnalysis.BUY /\ label = Some "Bearish"%string)
   \/ (signal = Some TechnicalAnalysis.SELL /\ label = Some "Bullish"%string))
  /\ ((NotificationQueries.forecast signal label).1 = "Neutral"%string <->
      ForecastSpec.directed_signal signal = false
      /\ ForecastSpec.directed_label label = false)
  /\ length (NotificationQueries.forecast signal label).2
     = ((if ForecastSpec.directed_signal signal then 1 else 0)
        + (if ForecastSpec.directed_label label then 1 else 0))%nat.
Proof.
  destruct (label_cases label) as [->|[->|[->|(l & -> & H1 & H2)]]].
  4: { destruct (forecast_other_label signal l H1 H2) as [-> ->].
       destruct signal as [[]|]; vm_compute;
         (split; [|split]; [split| |reflexivity]);
         try (intros H; discriminate H);
         try (intros [[_ H]|[_ H]]; injection H as H; congruence);
         try (split; intros H; [discriminate H || (split; reflexivity)
                               |reflexivity || (destruct H; discriminate)]). }
  all: destruct signal as [[]|]; vm_compute;
    (split; [|split]; [split| |reflexivity]);
    try (intros H; discriminate H);
    try (intros [[H _]|[H _]]; discriminate H);
    try (intros [[_ H]|[_ H]]; discriminate H);
    try (intros _; (left; split; reflexivity) || (right; split; reflexivity));
    try (intros _; reflexivity);
    try (intros [[Ha Hb]|[Ha Hb]]; (discriminate Ha || discriminate Hb));
    try (split; intros H; [discriminate H || (split; reflexivity)
                          |reflexivity || (destruct H; discriminate)]).
Qed.

(** ** News impact and sentiment *)

Section Impact.

Import NotificationSystem NewsMonitor.

Lemma inject_nat_nonneg (n : nat) : (0 <= inject_Z (Z.of_nat n))%Q.
Proof. change 0%Q with (inject_Z 0). rewrite <- Zle_Qle. lia. Qed.

Lemma inject_nat_le (a b : nat) :
  (a <= b)%nat <-> (inject_Z (Z.of_nat a) <= inject_Z (Z.of_nat b))%Q.
Proof. rewrite <- Zle_Qle. lia. Qed.

Lemma inject_nat_lt (a b : nat) :
  (a < b)%nat <-> (inject_Z (Z.of_nat a) < inject_Z (Z.of_nat b))%Q.
Proof. rewrite <- Zlt_Qlt. lia. Qed.

End Impact.

(** X15.  _calculate_impact gives 0.3 to a title without a gold keyword and
    otherwise 0.5 plus 0.1 for each high-impact keyword the title contains,
    capped at 1.0.  So a title reaches the 0.7 news threshold exactly when
    it contains a gold keyword and at least two high-impact keywords. *)
Theorem impact_reaches_threshold_iff (title : string) :
  let gold := existsb (fun keyword => NewsMonitor.contains keyword (NewsMonitor.lower title))
                      NewsMonitor.gold_keywords in
  let count := NewsMonitor.count_keywords NewsMonitor.high_impact_keywords
                 (NewsMonitor.lower title) in
  (gold = false -> (NewsMonitor.calculate_impact title == 3 # 10)%Q)
  /\ (gold = true ->
      (NewsMonitor.calculate_impact title
       == (5 # 10) + inject_Z (Z.of_nat (Nat.min count 5)) * (1 # 10))%Q)
  /\ ((3 # 10) <= NewsMonitor.calculate_impact title <= 1)%Q
  /\ (Qle_bool (7 # 10) (NewsMonitor.calculate_impact title) = true
      <-> gold = true /\ (2 <= count)%nat).
Proof.
  cbv zeta. unfold NewsMonitor.calculate_impact.
  set (gold := existsb _ NewsMonitor.gold_keywords).
  set (count := NewsMonitor.count_keywords _ _).
  pose proof (inject_nat_nonneg count) as Hc0.
  destruct gold; cbn [negb].
  - unfold NewsMonitor.py_min2.
    destruct (Qltb (inject_Z (Z.of_nat count) * (1 # 10)) (5 # 10)) eqn:E.
    + apply Qltb_lt in E.
      assert (Hlt : (count < 5)%nat).
      { apply inject_nat_lt. change (inject_Z (Z.of_nat 5)) with 5%Q. lra. }
      rewrite Nat.min_l by lia.
      split; [discriminate|]. split; [reflexivity|]. split; [split; lra|].
      rewrite Qle_bool_iff. split.
      * intros H. split; [reflexivity|]. apply inject_nat_le.
        change (inject_Z (Z.of_nat 2)) with 2%Q. lra.
      * intros [_ H]. apply inject_nat_le in H.
        change (inject_Z (Z.of_nat 2)) with 2%Q in H. lra.
    + apply Qltb_ge in E.
      assert (Hge : (5 <= count)%nat).
      { apply inject_nat_le. change (inject_Z (Z.of_nat 5)) with 5%Q. lra. }
      rewrite Nat.min_r by lia. change (inject_Z (Z.of_nat 5)) with 5%Q.
      split; [discriminate|]. split; [reflexivity|]. split; [split; lra|].
      rewrite Qle_bool_iff. split.
      * intros _. split; [reflexivity|lia].
      * intros _. lra.
  - split; [reflexivity|]. split; [discriminate|]. split; [split; lra|].
    rewrite Qle_bool_iff. split; [intros H; lra|intros [H _]; discriminate].
Qed.

(** Two titles of the sample feed, evaluated. *)
Lemma impact_examples :
  (NewsMonitor.calculate_impact "Gold Prices Surge as Inflation Fears Mount" == 7 # 10)%Q
  /\ (NewsMonitor.calculate_impact "Gold Retreats as Dollar Strengthens" == 6 # 10)%Q
  /\ (NewsMonitor.calculate_impact "Federal Reserve Decision" == 3 # 10)%Q.
Proof. vm_compute. auto. Qed.

(** X16.  analyze_news_sentiment returns nothing for an empty frame.
    Otherwise it counts all articles, its score lies between -1 and 1, and
    its label is Bullish exactly when twice the positive count exceeds three
    times the negative count, Bearish exactly when twice the negative count
    exceeds three times the positive count, and Neutral in between. *)
Theorem sentiment_label_by_counts (news : list NotificationSystem.article) :
  (news = [] -> NewsMonitor.analyze_news_sentiment news = None)
  /\ (news <> [] ->
      exists a,
        NewsMonitor.analyze_news_sentiment news = Some a
        /\ NewsMonitor.total_articles a = length news
        /\ (-1 <= NewsMonitor.score a <= 1)%Q
        /\ (NewsMonitor.sentiment a = "Bullish"%string <->
            (3 * NewsMonitor.negative_count a < 2 * NewsMonitor.positive_count a)%nat)
        /\ (NewsMonitor.sentiment a = "Bearish"%string <->
            (3 * NewsMonitor.positive_count a < 2 * NewsMonitor.negative_count a)%nat)
        /\ (NewsMonitor.sentiment a = "Neutral"%string <->
            (2 * NewsMonitor.positive_count a <= 3 * NewsMonitor.negative_count a
             /\ 2 * NewsMonitor.negative_count a <= 3 * NewsMonitor.positive_count a)%nat)).
Proof.
  split; [intros ->; reflexivity|].
  intros Hne. unfold NewsMonitor.analyze_news_sentiment.
  destruct news as [|a0 news']; [tauto|]. set (news := a0 :: news') in *.
  eexists. split; [reflexivity|].
  cbn [NewsMonitor.total_articles NewsMonitor.score NewsMonitor.sentiment
       NewsMonitor.positive_count NewsMonitor.negative_count].
  set (pos := foldl _ 0%nat news). set (neg := foldl _ 0%nat news).
  split; [reflexivity|].
  pose proof (inject_nat_nonneg pos) as Hp0. pose proof (inject_nat_nonneg neg) as Hn0.
  assert (Hbridge : forall a b : nat,
            ((3 * a < 2 * b)%nat <->
             (3 * inject_Z (Z.of_nat a) < 2 * inject_Z (Z.of_nat b))%Q)).
  { intros a b. change 3%Q with (inject_Z 3). change 2%Q with (inject_Z 2).
    rewrite <- !inject_Z_mult, <- Zlt_Qlt. lia. }
  assert (Hbridge_le : forall a b : nat,
            ((2 * a <= 3 * b)%nat <->
             (2 * inject_Z (Z.of_nat a) <= 3 * inject_Z (Z.of_nat b))%Q)).
  { intros a b. change 3%Q with (inject_Z 3). change 2%Q with (inject_Z 2).
    rewrite <- !inject_Z_mult, <- Zle_Qle. lia. }
  rewrite !Hbridge, !Hbridge_le.
  destruct (Nat.ltb_spec 0 (pos + neg)) as [Hpos|Hzero].
  - assert (HT : (0 < inject_Z (Z.of_nat (pos + neg)))%Q)
      by (change 0%Q with (inject_Z (Z.of_nat 0)); now apply inject_nat_lt).
    assert (ET : (inject_Z (Z.of_nat (pos + neg))
                  == inject_Z (Z.of_nat pos) + inject_Z (Z.of_nat neg))%Q)
      by (rewrite Nat2Z.inj_add, inject_Z_plus; reflexivity).
    set (P := inject_Z (Z.of_nat pos)) in *. set (N := inject_Z (Z.of_nat neg)) in *.
    set (T := inject_Z (Z.of_nat (pos + neg))) in *.
    set (sc := ((P - N) / T)%Q).
    assert (Hsc : (sc * T == P - N)%Q) by (unfold sc; field; lra).
    split; [split; nra|].
    destruct (Qltb (2 # 10) sc) eqn:E1.
    + apply Qltb_lt in E1.
      split; [split; [intros _; nra|reflexivity]|].
      split; split; try discriminate; intros; exfalso; nra.
    + apply Qltb_ge in E1. destruct (Qltb sc (- 2 # 10)) eqn:E2.
      * apply Qltb_lt in E2.
        split; [split; [discriminate|intros; exfalso; nra]|].
        split; [split; [intros _; nra|reflexivity]|].
        split; [discriminate|intros; exfalso; nra].
      * apply Qltb_ge in E2.
        split; [split; [discriminate|intros; exfalso; nra]|].
        split; [split; [discriminate|intros; exfalso; nra]|].
        split; [intros _; split; nra|reflexivity].
  - assert (pos = 0%nat /\ neg = 0%nat) as [Ep En] by lia.
    rewrite Ep, En. vm_compute.
    repeat split; try discriminate; try reflexivity; intros; try discriminate.
Qed.

Lemma sentiment_label_by_counts_witness :
  exists a,
    NewsMonitor.analyze_news_sentiment [NewsSpec.article_a; NewsSpec.article_b] = Some a
    /\ NewsMonitor.total_articles a = 2%nat.
Proof.
  destruct (proj2 (sentiment_label_by_counts [NewsSpec.article_a; NewsSpec.article_b]))
    as (a & Ha & Ht & _).
  - discriminate.
  - exists a. split; [exact Ha|exact Ht].
Defined.

(** ** Bot users: registration, delivery filter, settings messages *)

Section Users.

Import NotificationSystem BotUsers.

Lemma existsb_chat_id (users : list user) (id : Z) :
  existsb (fun u => (chat_id u =? id)%Z) users = true <-> In id (map chat_id users).
Proof.
  rewrite existsb_exists, in_map_iff. split.
  - intros (u & Hin & E). apply Z.eqb_eq in E. now exists u.
  - intros (u & E & Hin). exists u. split; [exact Hin|now apply Z.eqb_eq].
Qed.

Lemma send_loop_filter (delivers : user -> bool) (n_type : string) (users : list user) :
  forall count,
    send_loop delivers n_type users count
    = (List.filter (fun u => negb (skipped u n_type) && delivers u) users,
       (count + length (List.filter (fun u => negb (skipped u n_type) && delivers u) users))%nat).
Proof.
  induction users as [|u rest IH]; intros count; cbn [send_loop List.filter].
  - cbn [length]. now rewrite Nat.add_0_r.
  - destruct (skipped u n_type); cbn [negb andb].
    + apply IH.
    + destruct (delivers u).
      * rewrite IH. cbn [length]. f_equal. lia.
      * apply IH.
Qed.

Lemma skipped_other_type (u : user) (n_type : string) :
  n_type <> "price"%string -> n_type <> "signal"%string ->
  n_type <> "news"%string -> n_type <> "eod"%string ->
  skipped u n_type = false.
Proof.
  intros H1 H2 H3 H4. unfold skipped.
  apply String.eqb_neq in H1, H2, H3, H4. now rewrite H1, H2, H3, H4.
Qed.

Lemma find_user_spec (users : list user) (id : Z) :
  forall i, find_user users id = Some i ->
    exists u, users !! i = Some u /\ chat_id u = id
              /\ forall j v, (j < i)%nat -> users !! j = Some v -> chat_id v <> id.
Proof.
  induction users as [|u rest IH]; intros i; cbn [find_user]; [discriminate|].
  destruct (chat_id u =? id)%Z eqn:E.
  - intros [= <-]. exists u. split; [reflexivity|]. split; [now apply Z.eqb_eq|]. lia.
  - destruct (find_user rest id) as [k|] eqn:Ek; cbn; [|discriminate].
    intros [= <-]. destruct (IH k eq_refl) as (w & Hw & Hid & Hbefore).
    exists w. split; [exact Hw|]. split; [exact Hid|].
    intros [|j] v Hj; cbn.
    + intros [= <-]. now apply Z.eqb_neq.
    + apply Hbefore. lia.
Qed.

Lemma find_user_none (users : list user) (id : Z) :
  find_user users id = None <-> ~ In id (map chat_id users).
Proof.
  induction users as [|u rest IH]; cbn [find_user map]; [split; [intros _ []|reflexivity]|].
  destruct (chat_id u =? id)%Z eqn:E.
  - apply Z.eqb_eq in E. split; [discriminate|]. intros H. exfalso. apply H. now left.
  - apply Z.eqb_neq in E. destruct (find_user rest id) as [k|]; cbn.
    + split; [discriminate|]. intros H. exfalso.
      assert (Hn : ~ In id (map chat_id rest)) by (intros Hin; apply H; now right).
      apply IH in Hn. discriminate.
    + split; [|reflexivity]. intros _ [H|H]; [contradiction|].
      now apply (proj1 IH).
Qed.

Lemma apply_toggles_unfold (text : string) (s : gmap string bool) :
  apply_toggles text s
  = let on := NewsMonitor.contains "on" text in
    let s1 := if triggered text "price" then <["price_alerts" := on]> s else s in
    let s2 := if triggered text "signal" then <["signal_alerts" := on]> s1 else s1 in
    let s3 := if triggered text "news" then <["news_alerts" := on]> s2 else s2 in
    if triggered text "eod" then <["eod_reports" := on]> s3 else s3.
Proof. reflexivity. Qed.

Lemma apply_toggles_lookup (text : string) (s : gmap string bool) (word key : string) :
  In (word, key) toggles ->
  apply_toggles text s !! key
  = if triggered text word then Some (NewsMonitor.contains "on" text) else s !! key.
Proof.
  intros Hin. rewrite apply_toggles_unfold. cbv zeta.
  destruct Hin as [E|[E|[E|[E|[]]]]]; injection E as <- <-;
    destruct (triggered text "price"), (triggered text "signal"),
             (triggered text "news"), (triggered text "eod");
    repeat first [ rewrite lookup_insert_eq | rewrite lookup_insert_ne by discriminate ];
    reflexivity.
Qed.

Lemma apply_toggles_other (text : string) (s : gmap string bool) (key : string) :
  (forall word, ~ In (word, key) toggles) ->
  apply_toggles text s !! key = s !! key.
Proof.
  intros Hout. rewrite apply_toggles_unfold. cbv zeta.
  assert (H1 : key <> "price_alerts"%string)
    by (intros ->; apply (Hout "price"%string); cbn; tauto).
  assert (H2 : key <> "signal_alerts"%string)
    by (intros ->; apply (Hout "signal"%string); cbn; tauto).
  assert (H3 : key <> "news_alerts"%string)
    by (intros ->; apply (Hout "news"%string); cbn; tauto).
  assert (H4 : key <> "eod_reports"%string)
    by (intros ->; apply (Hout "eod"%string); cbn; tauto).
  destruct (triggered text "price"), (triggered text "signal"),
           (triggered text "news"), (triggered text "eod");
    repeat rewrite lookup_insert_ne by congruence; reflexivity.
Qed.

End Users.

(** X17.  register_user refuses a chat id that is already registered and
    leaves the users untouched; otherwise it appends one user with that id
    and all four alerts switched on.  Chat ids that were pairwise distinct
    stay so, and registering the same id again is refused. *)
Theorem register_user_once (users : list BotUsers.user) (id : Z) (name : option string) :
  let '(users', added) := BotUsers.register_user users id name in
  (added = false <-> In id (map BotUsers.chat_id users))
  /\ (added = false -> users' = users)
  /\ (added = true ->
      users' = users ++ [BotUsers.mkUser id name (Some BotUsers.all_on)]
      /\ forall key, In key ["price_alerts"; "signal_alerts"; "news_alerts"; "eod_reports"]%string ->
           BotUsers.all_on !! key = Some true)
  /\ (NoDup (map BotUsers.chat_id users) -> NoDup (map BotUsers.chat_id users'))
  /\ (forall name', BotUsers.register_user users' id name' = (users', false)).
Proof.
  unfold BotUsers.register_user.
  destruct (existsb _ users) eqn:E.
  - split; [split; [intros _; now apply existsb_chat_id|reflexivity]|].
    split; [reflexivity|]. split; [discriminate|]. split; [tauto|].
    intros name'. now rewrite E.
  - assert (Hnot : ~ In id (map BotUsers.chat_id users)).
    { intros Hin. apply existsb_chat_id in Hin. congruence. }
    split; [split; [discriminate|intros H; contradiction]|].
    split; [discriminate|]. split.
    { intros _. split; [reflexivity|].
      intros key [<-|[<-|[<-|[<-|[]]]]]; reflexivity. }
    split.
    + intros Hnd. rewrite map_app. cbn [map BotUsers.chat_id].
      apply NoDup_app. split; [exact Hnd|]. split.
      * intros x Hx Hx'. apply list_elem_of_In in Hx.
        apply list_elem_of_singleton in Hx'. subst x. contradiction.
      * apply NoDup_singleton.
    + intros name'.
      assert (E' : existsb (fun u => (BotUsers.chat_id u =? id)%Z)
                     (users ++ [BotUsers.mkUser id name (Some BotUsers.all_on)]) = true).
      { rewrite existsb_app. cbn. rewrite Z.eqb_refl. now rewrite orb_true_r. }
      now rewrite E'.
Qed.

(** X18.  send_notification sends to exactly the users that have not opted
    out of the notification's type and for whom the transport does not
    fail, in the order of the user list, and returns how many these are.
    A user without stored settings is never skipped, and a notification of
    any type other than the four known ones goes to every user regardless
    of settings. *)
Theorem send_notification_respects_opt_out
    (users : list BotUsers.user) (delivers : BotUsers.user -> bool)
    (n : NotificationSystem.notification) :
  let ty := NotificationSystem.n_type n in
  let '(sent, count) := BotUsers.send_notification users delivers (Some n) in
  sent = List.filter (fun u => negb (BotUsers.skipped u ty) && delivers u) users
  /\ count = length sent
  /\ (count <= length users)%nat
  /\ (forall u key s, In (ty, key) [("price", "price_alerts"); ("signal", "signal_alerts");
                                    ("news", "news_alerts"); ("eod", "eod_reports")]%string ->
        BotUsers.settings u = Some s -> s !! key = Some false ->
        ~ In u sent)
  /\ (forall u, In u users -> BotUsers.settings u = None -> delivers u = true -> In u sent)
  /\ (~ In ty ["price"; "signal"; "news"; "eod"]%string ->
      sent = List.filter delivers users).
Proof.
  cbv zeta. unfold BotUsers.send_notification. rewrite send_loop_filter.
  set (ty := NotificationSystem.n_type n).
  split; [reflexivity|]. split; [reflexivity|].
  split; [cbn [Nat.add]; apply filter_length_le|].
  split; [|split].
  - intros u key s Hin Hset Hkey Hsent. apply filter_In in Hsent as [_ Hkeep].
    apply andb_true_iff in Hkeep as [Hskip _]. apply negb_true_iff in Hskip.
    assert (Hoff : BotUsers.setting u key = false).
    { unfold BotUsers.setting. rewrite Hset. cbn [default from_option id].
      change (default true (s !! key) = false). now rewrite Hkey. }
    unfold BotUsers.skipped in Hskip.
    destruct Hin as [E|[E|[E|[E|[]]]]]; injection E as Ety <-; rewrite <- Ety in Hskip;
      rewrite Hoff in Hskip; cbn in Hskip;
      rewrite ?orb_true_r in Hskip; discriminate.
  - intros u Hin Hnone Hd. apply filter_In. split; [exact Hin|].
    rewrite Hd, andb_true_r. apply negb_true_iff.
    unfold BotUsers.skipped, BotUsers.setting. rewrite Hnone. cbn [default].
    rewrite !lookup_empty. cbn [default negb]. now rewrite !andb_false_r.
  - intros Hty. apply filter_ext. intros u.
    rewrite skipped_other_type; [reflexivity| | | |];
      intros E; apply Hty; rewrite E; cbn; tauto.
Qed.

(** X19.  A message from a registered user that contains a toggle word
    and the letters "on" switches that alert on, whether or not it also
    contains "off"; with "off" and no "on" it switches the alert off.  Only
    that user's entry changes, and the users file is rewritten.  A message
    from an unregistered chat changes nothing. *)
Theorem handle_message_on_wins
    (users : list BotUsers.user) (id : Z) (message_text : string)
    (word key : string) (s : gmap string bool) (i : nat) (u : BotUsers.user) :
  In (word, key) BotUsers.toggles ->
  BotUsers.find_user users id = Some i ->
  users !! i = Some u ->
  BotUsers.settings u = Some s ->
  NewsMonitor.contains word (NewsMonitor.lower message_text) = true ->
  (NewsMonitor.contains "on" (NewsMonitor.lower message_text)
   || NewsMonitor.contains "off" (NewsMonitor.lower message_text)) = true ->
  exists u',
    BotUsers.handle_message users id message_text
    = NotificationSystem.Returned (<[i := u']> users, BotUsers.settings_updated, true)
    /\ BotUsers.chat_id u' = id
    /\ BotUsers.setting u' key
       = NewsMonitor.contains "on" (NewsMonitor.lower message_text)
    /\ (forall j, j <> i -> <[i := u']> users !! j = users !! j)
    /\ length (<[i := u']> users) = length users.
Proof.
  intros Hin Hfind Hu Hs Hword Honoff.
  destruct (find_user_spec users id i Hfind) as (u0 & Hu0 & Hid & _).
  assert (u0 = u) as -> by congruence.
  unfold BotUsers.handle_message. rewrite Hfind, Hu.
  set (text := NewsMonitor.lower message_text) in *.
  assert (Htrig : BotUsers.triggered text word = true).
  { unfold BotUsers.triggered. now rewrite Hword, Honoff. }
  assert (Hany : existsb (fun '(word, _) => BotUsers.triggered text word) BotUsers.toggles = true).
  { apply existsb_exists. exists (word, key). split; [exact Hin|exact Htrig]. }
  rewrite Hany, Hs. eexists. split; [reflexivity|]. split; [exact Hid|].
  split; [|split].
  - unfold BotUsers.setting. cbn [BotUsers.settings].
    change (default true (BotUsers.apply_toggles text s !! key)
            = NewsMonitor.contains "on" text).
    rewrite (apply_toggles_lookup text s word key Hin), Htrig. reflexivity.
  - intros j Hj. apply list_lookup_insert_ne. congruence.
  - apply length_insert.
Qed.

Lemma handle_message_on_wins_witness :
  exists u',
    BotUsers.handle_message [BotUsers.mkUser 7 None (Some BotUsers.all_on)] 7
      "Price off, no more notifications"
    = NotificationSystem.Returned (<[0%nat := u']> [BotUsers.mkUser 7 None (Some BotUsers.all_on)],
                BotUsers.settings_updated, true)
    /\ BotUsers.setting u' "price_alerts" = true.
Proof.
  destruct (handle_message_on_wins [BotUsers.mkUser 7 None (Some BotUsers.all_on)] 7
              "Price off, no more notifications" "price" "price_alerts"
              BotUsers.all_on 0 (BotUsers.mkUser 7 None (Some BotUsers.all_on)))
    as (u' & Hret & _ & Hset & _).
  - cbn. tauto.
  - reflexivity.
  - reflexivity.
  - reflexivity.
  - vm_compute. reflexivity.
  - vm_compute. reflexivity.
  - exists u'. split; [exact Hret|]. rewrite Hset. vm_compute. reflexivity.
Defined.

(** X20.  handle_message answers an unregistered chat without changing any
    user; and for a registered user whose stored entry has no settings, a
    message that triggers a toggle raises KeyError, while send_notification
    treats the same entry as opted in to everything. *)
Theorem handle_message_needs_settings
    (users : list BotUsers.user) (id : Z) (message_text : string) :
  (~ In id (map BotUsers.chat_id users) ->
   BotUsers.handle_message users id message_text
   = NotificationSystem.Returned (users, BotUsers.not_registered, false))
  /\ (forall i u,
        BotUsers.find_user users id = Some i -> users !! i = Some u ->
        BotUsers.settings u = None ->
        (forall ty, BotUsers.skipped u ty = false)
        /\ (existsb (fun '(word, _) =>
                       BotUsers.triggered (NewsMonitor.lower message_text) word)
                    BotUsers.toggles = true ->
            BotUsers.handle_message users id message_text = NotificationSystem.Raised "KeyError")
        /\ (existsb (fun '(word, _) =>
                       BotUsers.triggered (NewsMonitor.lower message_text) word)
                    BotUsers.toggles = false ->
            BotUsers.handle_message users id message_text
            = NotificationSystem.Returned (users, BotUsers.not_understood, false))).
Proof.
  split.
  - intros Hnot. apply find_user_none in Hnot.
    unfold BotUsers.handle_message. now rewrite Hnot.
  - intros i u Hfind Hu Hnone. split; [|split].
    + intros ty. unfold BotUsers.skipped, BotUsers.setting. rewrite Hnone.
      cbn [default]. rewrite !lookup_empty. cbn [default negb].
      now rewrite !andb_false_r.
    + intros Htrig. unfold BotUsers.handle_message. now rewrite Hfind, Hu, Htrig, Hnone.
    + intros Htrig. unfold BotUsers.handle_message. now rewrite Hfind, Hu, Htrig.
Qed.

Lemma handle_message_needs_settings_witness :
  BotUsers.handle_message [BotUsers.mkUser 7 None None] 7 "news off"
  = NotificationSystem.Raised "KeyError".
Proof.
  apply (proj2 (handle_message_needs_settings [BotUsers.mkUser 7 None None] 7 "news off")
           0%nat (BotUsers.mkUser 7 None None)).
  - reflexivity.
  - reflexivity.
  - reflexivity.
  - vm_compute. reflexivity.
Defined.

(** ** Price range and price change *)

Section PriceRange.

Import TechnicalAnalysis GoldPriceMonitor.

Lemma col_min_spec (x : Q) (t : list Q) :
  exists m, col_min (x :: t) = Float.Num m /\ In m (x :: t)
            /\ forall y, In y (x :: t) -> (m <= y)%Q.
Proof.
  cbn [col_min]. eexists. split; [reflexivity|]. apply (foldl_min_spec t x).
Qed.

Lemma col_max_spec (x : Q) (t : list Q) :
  exists m, col_max (x :: t) = Float.Num m /\ In m (x :: t)
            /\ forall y, In y (x :: t) -> (y <= m)%Q.
Proof.
  cbn [col_max]. eexists. split; [reflexivity|]. apply (foldl_max_spec t x).
Qed.

End PriceRange.

(** X21.  On a non-empty frame get_price_range returns the least Low and the
    greatest High of its bars: both are attained by some bar and bound every
    bar, and the low does not exceed the high when every bar has
    Low <= High.  Without data it returns nothing. *)
Theorem price_range_is_extremal (d : list TechnicalAnalysis.bar) :
  d <> [] ->
  GoldPriceMonitor.get_price_range None = None
  /\ exists low high,
       GoldPriceMonitor.get_price_range (Some d) = Some (Float.Num low, Float.Num high)
       /\ (exists b, In b d /\ TechnicalAnalysis.Low b = low)
       /\ (exists b, In b d /\ TechnicalAnalysis.High b = high)
       /\ (forall b, In b d ->
             (low <= TechnicalAnalysis.Low b)%Q /\ (TechnicalAnalysis.High b <= high)%Q)
       /\ ((forall b, In b d -> (TechnicalAnalysis.Low b <= TechnicalAnalysis.High b)%Q) ->
           (low <= high)%Q).
Proof.
  intros Hne. split; [reflexivity|].
  destruct d as [|b0 rest]; [contradiction|].
  unfold GoldPriceMonitor.get_price_range. cbn [map].
  destruct (col_min_spec (TechnicalAnalysis.Low b0) (map TechnicalAnalysis.Low rest))
    as (lo & Elo & Hlo_in & Hlo).
  destruct (col_max_spec (TechnicalAnalysis.High b0) (map TechnicalAnalysis.High rest))
    as (hi & Ehi & Hhi_in & Hhi).
  rewrite Elo, Ehi. exists lo, hi. split; [reflexivity|].
  change (TechnicalAnalysis.Low b0 :: map TechnicalAnalysis.Low rest)
    with (map TechnicalAnalysis.Low (b0 :: rest)) in Hlo_in, Hlo.
  change (TechnicalAnalysis.High b0 :: map TechnicalAnalysis.High rest)
    with (map TechnicalAnalysis.High (b0 :: rest)) in Hhi_in, Hhi.
  split; [|split; [|split]].
  - apply in_map_iff in Hlo_in as (b & E & Hb). now exists b.
  - apply in_map_iff in Hhi_in as (b & E & Hb). now exists b.
  - intros b Hb. split; [apply Hlo|apply Hhi]; now apply in_map.
  - intros Hbars. apply Qle_trans with (TechnicalAnalysis.Low b0).
    + apply Hlo. now left.
    + apply Qle_trans with (TechnicalAnalysis.High b0).
      * apply Hbars. now left.
      * apply Hhi. now left.
Qed.

Lemma price_range_is_extremal_witness :
  exists low high,
    GoldPriceMonitor.get_price_range (Some (SignalSpec.ticked 3 1001))
    = Some (Float.Num low, Float.Num high)
    /\ (low <= high)%Q.
Proof.
  destruct (price_range_is_extremal (SignalSpec.ticked 3 1001)) as (_ & lo & hi & E & _ & _ & _ & H).
  - discriminate.
  - exists lo, hi. split; [exact E|]. apply H.
    intros b Hb. vm_compute in Hb.
    repeat (destruct Hb as [<-|Hb]; [vm_compute; discriminate|]). destruct Hb.
Defined.

(** X22.  get_price_change compares the last Close with the first Open.  It
    returns nothing with fewer than two bars, raises ZeroDivisionError when
    the first Open is zero, and otherwise returns the difference and its
    percentage of the first Open; for a positive first Open the percentage
    has the sign of the difference. *)
Theorem price_change_against_first_open
    (first_bar : TechnicalAnalysis.bar) (middle : list TechnicalAnalysis.bar)
    (last_bar : TechnicalAnalysis.bar) :
  let d := first_bar :: middle ++ [last_bar] in
  let change := (TechnicalAnalysis.Close last_bar - TechnicalAnalysis.Open first_bar)%Q in
  GoldPriceMonitor.get_price_change None = NotificationSystem.Returned None
  /\ GoldPriceMonitor.get_price_change (Some []) = NotificationSystem.Returned None
  /\ GoldPriceMonitor.get_price_change (Some [first_bar]) = NotificationSystem.Returned None
  /\ ((TechnicalAnalysis.Open first_bar == 0)%Q ->
      GoldPriceMonitor.get_price_change (Some d)
      = NotificationSystem.Raised "ZeroDivisionError")
  /\ (~ (TechnicalAnalysis.Open first_bar == 0)%Q ->
      GoldPriceMonitor.get_price_change (Some d)
      = NotificationSystem.Returned
          (Some (change, ((change / TechnicalAnalysis.Open first_bar) * 100)%Q)))
  /\ ((0 < TechnicalAnalysis.Open first_bar)%Q ->
      let percent_change := ((change / TechnicalAnalysis.Open first_bar) * 100)%Q in
      ((0 < percent_change)%Q <-> (0 < change)%Q)
      /\ ((percent_change < 0)%Q <-> (change < 0)%Q)
      /\ (percent_change * TechnicalAnalysis.Open first_bar == change * 100)%Q).
Proof.
  cbv zeta. split; [reflexivity|]. split; [reflexivity|]. split; [reflexivity|].
  assert (Hlen : (length (first_bar :: middle ++ [last_bar]) <? 2)%nat = false).
  { apply Nat.ltb_ge. cbn [length]. rewrite length_app. cbn [length]. lia. }
  assert (Hlast : last (first_bar :: middle ++ [last_bar]) = Some last_bar).
  { change (first_bar :: middle ++ [last_bar]) with ((first_bar :: middle) ++ [last_bar]).
    apply last_snoc. }
  split; [|split].
  - intros H0. unfold GoldPriceMonitor.get_price_change. rewrite Hlen, Hlast.
    apply Qeq_bool_iff in H0. now rewrite H0.
  - intros H0. unfold GoldPriceMonitor.get_price_change. rewrite Hlen, Hlast.
    destruct (Qeq_bool (TechnicalAnalysis.Open first_bar) 0) eqn:E; [|reflexivity].
    apply Qeq_bool_iff in E. contradiction.
  - intros Hpos.
    set (o := TechnicalAnalysis.Open first_bar) in *.
    set (c := (TechnicalAnalysis.Close last_bar - o)%Q).
    assert (E : (c / o * 100 * o == c * 100)%Q) by (field; lra).
    split; [|split; [|exact E]].
    + split; intros H; nra.
    + split; intros H; nra.
Qed.

Lemma price_change_against_first_open_witness :
  GoldPriceMonitor.get_price_change
    (Some (SignalSpec.flat_bar 1000 :: [SignalSpec.flat_bar 1000] ++ [SignalSpec.flat_bar 1010]))
  = NotificationSystem.Returned (Some ((1010 - 1000)%Q, (((1010 - 1000) / 1000) * 100)%Q)).
Proof.
  apply (proj1 (proj2 (proj2 (proj2 (proj2
           (price_change_against_first_open (SignalSpec.flat_bar 1000)
              [SignalSpec.flat_bar 1000] (SignalSpec.flat_bar 1010))))))).
  vm_compute. discriminate.
Defined.

(** ** Monitoring loop: failed iterations and the order of reports *)

Section LoopReports.

Import Bot.

Variable cfg : eod_time.

Lemma monitoring_step_failed st p :
  data_fetched p = false \/ raises p = true ->
  monitoring_step cfg st p = (st, false).
Proof.
  unfold monitoring_step. intros [->| ->]; [reflexivity|].
  now rewrite andb_false_r.
Qed.

(** With a date recorded, every later report is on a later date. *)
Lemma fired_after_recorded polls : forall last j q,
  polls !! j = Some q ->
  run_monitoring_loop cfg (Some last) polls !! j = Some true ->
  (last < now_date q)%Z.
Proof.
  induction polls as [|p polls IH]; intros last j q Hq Hf; [discriminate|].
  cbn [run_monitoring_loop] in Hf.
  destruct (monitoring_step cfg (Some last) p) as [st f] eqn:E.
  destruct j as [|j]; cbn in Hq, Hf.
  - injection Hq as ->. injection Hf as ->.
    apply monitoring_step_fired in E as (_ & _ & _ & Hdue).
    unfold eod_due in Hdue. apply andb_prop in Hdue as [_ Hlt]. now apply Z.ltb_lt.
  - destruct f.
    + apply monitoring_step_fired in E as (-> & _ & _ & Hdue).
      unfold eod_due in Hdue. apply andb_prop in Hdue as [_ Hlt]. apply Z.ltb_lt in Hlt.
      pose proof (IH _ _ _ Hq Hf). lia.
    + apply monitoring_step_quiet in E as ->. exact (IH _ _ _ Hq Hf).
Qed.

End LoopReports.

(** X23.  Whatever the order of the polls' dates, the end-of-day reports of
    one run of the monitoring loop are on strictly increasing dates: a later
    report is always on a later date than an earlier one. *)
Theorem report_dates_strictly_increase
    (cfg : Bot.eod_time) (st : Bot.loop_state) (polls : list Bot.poll)
    (i j : nat) (p q : Bot.poll) :
  (i < j)%nat ->
  polls !! i = Some p -> polls !! j = Some q ->
  Bot.run_monitoring_loop cfg st polls !! i = Some true ->
  Bot.run_monitoring_loop cfg st polls !! j = Some true ->
  (Bot.now_date p < Bot.now_date q)%Z.
Proof.
  revert st i j. induction polls as [|r polls IH]; intros st i j Hij Hp Hq Hfi Hfj;
    [discriminate|].
  cbn [Bot.run_monitoring_loop] in Hfi, Hfj.
  destruct (Bot.monitoring_step cfg st r) as [st' f] eqn:E.
  destruct j as [|j]; [lia|]. cbn in Hq, Hfj.
  destruct i as [|i]; cbn in Hp, Hfi.
  - injection Hp as ->. injection Hfi as ->.
    apply monitoring_step_fired in E as (-> & _).
    exact (fired_after_recorded cfg polls _ _ _ Hq Hfj).
  - apply (IH st' i j); auto. lia.
Qed.

Lemma report_dates_strictly_increase_witness :
  (Bot.now_date (Bot.mkPoll 3 16 0 true false)
   < Bot.now_date (Bot.mkPoll 4 16 5 true false))%Z.
Proof.
  apply (report_dates_strictly_increase Bot.default_eod_time None
           [Bot.mkPoll 3 16 0 true false; Bot.mkPoll 3 16 5 true false;
            Bot.mkPoll 4 16 5 true false] 0 2); [lia|reflexivity..].
Defined.

(** X24.  An iteration of the monitoring loop in which the price fetch
    returns no data, or in which a call raises, produces no end-of-day
    report and leaves the recorded report date as it was, so that the next
    poll decides as if the failed one had not happened. *)
Theorem failed_poll_is_skipped
    (cfg : Bot.eod_time) (st : Bot.loop_state) (before after : list Bot.poll)
    (p : Bot.poll) :
  Bot.data_fetched p = false \/ Bot.raises p = true ->
  Bot.run_monitoring_loop cfg st (before ++ p :: after) !! length before = Some false
  /\ Bot.final_state cfg st (before ++ [p]) = Bot.final_state cfg st before
  /\ drop (S (length before)) (Bot.run_monitoring_loop cfg st (before ++ p :: after))
     = drop (length before) (Bot.run_monitoring_loop cfg st (before ++ after))
  /\ take (length before) (Bot.run_monitoring_loop cfg st (before ++ p :: after))
     = take (length before) (Bot.run_monitoring_loop cfg st (before ++ after)).
Proof.
  intros Hfail. revert st.
  induction before as [|b before IH]; intros st.
  - cbn [app length Bot.run_monitoring_loop Bot.final_state].
    rewrite (monitoring_step_failed cfg st p Hfail). cbn. auto.
  - cbn [app length Bot.run_monitoring_loop Bot.final_state].
    destruct (Bot.monitoring_step cfg st b) as [st' f] eqn:E. cbn [fst].
    destruct (IH st') as (H1 & H2 & H3 & H4).
    split; [exact H1|]. split; [exact H2|]. split; [exact H3|].
    cbn [take]. now rewrite H4.
Qed.

Lemma failed_poll_is_skipped_witness :
  Bot.run_monitoring_loop Bot.default_eod_time None
    ([Bot.mkPoll 3 15 0 true false] ++ Bot.mkPoll 3 16 0 false false
       :: [Bot.mkPoll 3 16 15 true false])
  !! length [Bot.mkPoll 3 15 0 true false] = Some false.
Proof.
  apply (failed_poll_is_skipped Bot.default_eod_time None [Bot.mkPoll 3 15 0 true false]
           [Bot.mkPoll 3 16 15 true false] (Bot.mkPoll 3 16 0 false false)).
  left. reflexivity.
Defined.
